(** * AI-vs-human text classifier: the detector facade and its two HTTP surfaces

    A shallow embedding of [detector.py], [app.py] and [fastapi_app.py].

    - Python floats are IEEE binary64 numbers: Rocq's primitive [float].
    - Attributes of the detector are dynamically typed; [PyObj] is the type of
      the objects this program stores in them and pickles with joblib.
    - Methods run in [Py], a state-and-exception monad over the process
      state (the detector instance and the file system).  A raised exception
      keeps every assignment made before it, as in Python.
    - scikit-learn and pandas are external: their operations are the fields
      of the class [Libraries]; nothing is assumed about what they compute. *)

From Stdlib Require Import Floats ZArith Ascii.
From stdpp Require Import gmap strings list fin_maps pretty.
Set Warnings "-inexact-float,-register-all".

(** ** Python strings *)

(** A character is a code point below 256.  [isspace] is CPython's table of
    whitespace code points restricted to that range: 9-13, 28-32, 133, 160. *)
Definition isspace (c : ascii) : bool :=
  let n := N_of_ascii c in
  ((9 <=? n) && (n <=? 13) || (28 <=? n) && (n <=? 32)
   || (n =? 133) || (n =? 160))%N.

Fixpoint lstrip (s : string) : string :=
  match s with
  | EmptyString => EmptyString
  | String c s' => if isspace c then lstrip s' else s
  end.

Definition rstrip (s : string) : string := String.rev (lstrip (String.rev s)).

(** [str.strip()] *)
Definition strip (s : string) : string := rstrip (lstrip s).

(** [str.split()] with no separator: the maximal runs of non-whitespace.
    [cur] is the run being read, reversed. *)
Fixpoint split_go (cur : string) (s : string) : list string :=
  match s with
  | EmptyString => match cur with EmptyString => [] | _ => [String.rev cur] end
  | String c s' =>
      if isspace c
      then match cur with
           | EmptyString => split_go EmptyString s'
           | _ => String.rev cur :: split_go EmptyString s'
           end
      else split_go (String c cur) s'
  end.

Definition split (s : string) : list string := split_go EmptyString s.

(** [needle in haystack] on strings *)
Fixpoint str_contains (needle haystack : string) : bool :=
  String.prefix needle haystack
  || match haystack with
     | EmptyString => false
     | String _ h' => str_contains needle h'
     end.

(** [os.path.join(a, b)] for a relative [b] *)
Definition ends_with_sep (a : string) : bool :=
  match String.rev a with
  | String c _ => Ascii.eqb c "/"
  | EmptyString => false
  end.

Definition path_join (a b : string) : string :=
  match b with
  | String "/" _ => b
  | _ => if (String.eqb a "") || ends_with_sep a then a +:+ b
         else a +:+ "/" +:+ b
  end.

Global Arguments path_join : simpl never.

(** What [os.path.join] puts before a relative file name. *)
Definition path_prefix (a : string) : string :=
  if (String.eqb a "") || ends_with_sep a then a else a +:+ "/".

(** [str_suffix f s]: [s] ends with [f]. *)
Fixpoint str_suffix (f s : string) : bool :=
  String.eqb f s
  || match s with
     | EmptyString => false
     | String _ s' => str_suffix f s'
     end.

(** ** Exceptions *)

Inductive PyExc : Type :=
  | ValueError (msg : string)
  | KeyError (key_repr : string)
  | IndexError (msg : string)
  | TypeError (msg : string)
  | AttributeError (msg : string)
  | NotFittedError (msg : string)
  | OSError (msg : string)
  | ValidationError (msg : string)
  | HTTPException (status_code : Z) (detail : string)
  | OtherError (msg : string).

(** [str(e)].  A [KeyError] prints the repr of its key; Starlette's
    [HTTPException] prints as "status: detail". *)
Definition str_exc (e : PyExc) : string :=
  match e with
  | ValueError m | IndexError m | TypeError m | AttributeError m
  | NotFittedError m | OSError m | ValidationError m | OtherError m => m
  | KeyError r => r
  | HTTPException sc d => pretty sc +:+ ": " +:+ d
  end.

(** ** JSON values, with Python's operations on them *)

Inductive Json : Type :=
  | JNull
  | JBool (b : bool)
  | JInt (n : Z)
  | JFloat (x : float)
  | JStr (s : string)
  | JArr (l : list Json)
  | JObj (fields : list (string * Json)).

(** Lookup in a dict literal or parsed object: the last binding of a key wins. *)
Fixpoint assoc_get (k : string) (fs : list (string * Json)) : option Json :=
  match fs with
  | [] => None
  | (k', v) :: fs' =>
      match assoc_get k fs' with
      | Some w => Some w
      | None => if String.eqb k k' then Some v else None
      end
  end.

(** [bool(v)] *)
Definition truthy (v : Json) : bool :=
  match v with
  | JNull => false
  | JBool b => b
  | JInt n => negb (n =? 0)%Z
  | JFloat x => negb (PrimFloat.eqb x 0%float)
  | JStr s => negb (String.eqb s "")
  | JArr l => match l with [] => false | _ => true end
  | JObj fs => match fs with [] => false | _ => true end
  end.

Definition is_str (s : string) (v : Json) : bool :=
  match v with JStr s' => String.eqb s s' | _ => false end.

(** [k in v] for a string [k] *)
Definition py_contains (k : string) (v : Json) : PyExc + bool :=
  match v with
  | JObj fs => inr (bool_decide (is_Some (assoc_get k fs)))
  | JArr l => inr (existsb (is_str k) l)
  | JStr s => inr (str_contains k s)
  | JNull => inl (TypeError "argument of type 'NoneType' is not iterable")
  | JBool _ => inl (TypeError "argument of type 'bool' is not iterable")
  | JInt _ => inl (TypeError "argument of type 'int' is not iterable")
  | JFloat _ => inl (TypeError "argument of type 'float' is not iterable")
  end.

(** [v[k]] for a string [k] *)
Definition py_getitem (k : string) (v : Json) : PyExc + Json :=
  match v with
  | JObj fs => match assoc_get k fs with
               | Some w => inr w
               | None => inl (KeyError ("'" +:+ k +:+ "'"))
               end
  | JArr _ => inl (TypeError "list indices must be integers or slices, not str")
  | JStr _ => inl (TypeError "string indices must be integers, not 'str'")
  | _ => inl (TypeError "object is not subscriptable")
  end.

(** [v.strip()] *)
Definition py_strip (v : Json) : PyExc + string :=
  match v with
  | JStr s => inr (strip s)
  | _ => inl (AttributeError "object has no attribute 'strip'")
  end.

(** A parsed JSON body without usable text: the value [null], or an object
    that has no [text] field or whose [text] is a string of whitespace
    only. *)
Definition lacks_text (payload : Json) : Prop :=
  payload = JNull
  ∨ ∃ fs, payload = JObj fs
          ∧ (assoc_get "text" fs = None
             ∨ ∃ s, assoc_get "text" fs = Some (JStr s) ∧ strip s = "").

Record Response := { status_code : Z; body : Json }.

(** ** The external libraries *)

(** The keyword arguments [train] passes to [TfidfVectorizer(...)]. *)
Record TfidfParams := {
  tv_max_features : Z;
  tv_ngram_range : Z * Z;
  tv_min_df : Z;
  tv_max_df : float;
  tv_sublinear_tf : bool;
  tv_use_idf : bool;
  tv_smooth_idf : bool
}.

(** What the program calls in pandas, scikit-learn and the Python runtime.
    [Vocabulary] is the fitted state of a vectorizer, [NBModel] that of a
    classifier, [Matrix] a feature matrix.  Every call may raise. *)
Class Libraries := {
  Vocabulary : Type;
  NBModel : Type;
  Matrix : Type;
  (* pandas: [series.astype(str).values], [series.astype(int).values] *)
  astype_str : list Json → list string;
  astype_int : list Json → PyExc + list Z;
  (* TfidfVectorizer *)
  fit_transform : TfidfParams → list string → PyExc + (Vocabulary * Matrix);
  transform : TfidfParams → Vocabulary → list string → PyExc + Matrix;
  (* train_test_split(X, y, test_size=, random_state=, stratify=) *)
  train_test_split :
    Matrix → list Z → float → Z → list Z →
    PyExc + (Matrix * Matrix * list Z * list Z);
  (* MultinomialNB(alpha=, fit_prior=).fit(X, y) and the fitted model *)
  fit : float → bool → Matrix → list Z → PyExc + NBModel;
  nb_predict : NBModel → Matrix → PyExc + list Z;
  predict_proba : NBModel → Matrix → PyExc + list (list float);
  classes_ : NBModel → list Z;
  (* sklearn.metrics *)
  accuracy_score : list Z → list Z → PyExc + float;
  classification_report : list Z → list Z → list string → PyExc + string;
  confusion_matrix : list Z → list Z → PyExc + list (list Z);
  (* the builtin [round(x, ndigits)] *)
  round : float → Z → float;
  (* pydantic: what a [str] field makes of a JSON value that is not a string *)
  pydantic_str : Json → PyExc + string;
  (* FastAPI: the [detail] of the 422 answer to a body that fails validation,
     a list of error objects made from the body, which they may quote *)
  validation_errors : Json → Json
}.

Section Program.
Context `{Libs : Libraries}.

(** ** Objects *)

(** An estimator object: its constructor arguments and, once fitted, its
    fitted state. *)
Record TfidfVectorizer := {
  tv_params : TfidfParams;
  tv_fitted : option Vocabulary
}.

Record MultinomialNB := {
  nb_alpha : float;
  nb_fit_prior : bool;
  nb_fitted : option NBModel
}.

(** A dict as [config.joblib] holds one: its entries at the three keys
    [load_model] reads.  [save_model] writes all three; a dict on disk may
    lack any of them. *)
Record Config := {
  cfg_max_features : option Z;
  cfg_ngram_range : option (Z * Z);
  cfg_alpha : option float
}.

(** The objects held in [self.vectorizer] and [self.classifier] and pickled
    by joblib. *)
Inductive PyObj : Type :=
  | PyNone
  | PyTfidf (v : TfidfVectorizer)
  | PyNB (c : MultinomialNB)
  | PyConfig (cfg : Config).

Record AITextDetector := {
  max_features : Z;
  ngram_range : Z * Z;
  alpha : float;
  min_df : Z;
  max_df : float;
  vectorizer : PyObj;
  classifier : PyObj;
  is_trained : bool
}.

(** A pandas data frame: its columns by name. *)
Record DataFrame := { columns : gmap string (list Json) }.

(** ** The file system *)

Inductive Node : Type :=
  | Directory
  | Joblib (o : PyObj)
  | Csv (df : DataFrame)
  | OtherFile.

(** The process state: the detector instance and the disk, by path. *)
Record World := {
  detector : AITextDetector;
  disk : gmap string Node
}.

(** ** The monad of Python computations *)

Definition Py (A : Type) : Type := World → World * (PyExc + A).

#[export] Instance Py_ret : MRet Py := λ A x w, (w, inr x).

#[export] Instance Py_bind : MBind Py := λ A B f m w,
  match m w with
  | (w', inr x) => f x w'
  | (w', inl e) => (w', inl e)
  end.

(** [raise e] *)
#[export] Instance Py_throw : MThrow PyExc Py := λ A e w, (w, inl e).

(** The result of a library call. *)
Definition lift {A} (r : PyExc + A) : Py A := λ w, (w, r).

(** [try: body except Exception as e: handler(e)] *)
Definition try_except {A} (body : Py A) (handler : PyExc → Py A) : Py A :=
  λ w, match body w with
       | (w', inr x) => (w', inr x)
       | (w', inl e) => handler e w'
       end.

Definition get_self : Py AITextDetector := λ w, (w, inr (detector w)).

Definition set_self (f : AITextDetector → AITextDetector) : Py unit :=
  λ w, ({| detector := f (detector w); disk := disk w |}, inr tt).

Definition get_disk : Py (gmap string Node) := λ w, (w, inr (disk w)).

Definition set_disk (f : gmap string Node → gmap string Node) : Py unit :=
  λ w, ({| detector := detector w; disk := f (disk w) |}, inr tt).

(** Attribute assignments [self.x = v]. *)
Definition with_vectorizer (o : PyObj) (d : AITextDetector) : AITextDetector :=
  {| max_features := max_features d; ngram_range := ngram_range d;
     alpha := alpha d; min_df := min_df d; max_df := max_df d;
     vectorizer := o; classifier := classifier d;
     is_trained := is_trained d |}.

Definition with_classifier (o : PyObj) (d : AITextDetector) : AITextDetector :=
  {| max_features := max_features d; ngram_range := ngram_range d;
     alpha := alpha d; min_df := min_df d; max_df := max_df d;
     vectorizer := vectorizer d; classifier := o;
     is_trained := is_trained d |}.

Definition with_is_trained (b : bool) (d : AITextDetector) : AITextDetector :=
  {| max_features := max_features d; ngram_range := ngram_range d;
     alpha := alpha d; min_df := min_df d; max_df := max_df d;
     vectorizer := vectorizer d; classifier := classifier d;
     is_trained := b |}.

Definition with_max_features (n : Z) (d : AITextDetector) : AITextDetector :=
  {| max_features := n; ngram_range := ngram_range d;
     alpha := alpha d; min_df := min_df d; max_df := max_df d;
     vectorizer := vectorizer d; classifier := classifier d;
     is_trained := is_trained d |}.

Definition with_ngram_range (r : Z * Z) (d : AITextDetector) : AITextDetector :=
  {| max_features := max_features d; ngram_range := r;
     alpha := alpha d; min_df := min_df d; max_df := max_df d;
     vectorizer := vectorizer d; classifier := classifier d;
     is_trained := is_trained d |}.

Definition with_alpha (a : float) (d : AITextDetector) : AITextDetector :=
  {| max_features := max_features d; ngram_range := ngram_range d;
     alpha := a; min_df := min_df d; max_df := max_df d;
     vectorizer := vectorizer d; classifier := classifier d;
     is_trained := is_trained d |}.

(** ** Operating-system and joblib calls *)

(** [os.path.exists(p)] *)
Definition os_path_exists (fs : gmap string Node) (p : string) : bool :=
  bool_decide (is_Some (fs !! p)).

(** [os.makedirs(p, exist_ok=True)].  Paths are flat keys and parents are
    not tracked: this is the call for a directory name of one component
    ([simple_name] below), whose parent is the current directory. *)
Definition os_makedirs (p : string) : Py unit :=
  fs ← get_disk;
  match fs !! p with
  | Some Directory => mret tt
  | Some _ => mthrow (OSError ("[Errno 17] File exists: '" +:+ p +:+ "'"))
  | None => set_disk (insert p Directory)
  end.

(** A path of one component, as the [model] of the two services and of the
    menu: not empty, without a separator, and neither [.] nor [..]. *)
Fixpoint no_sep (s : string) : bool :=
  match s with
  | EmptyString => true
  | String c s' => negb (Ascii.eqb c "/") && no_sep s'
  end.

Definition simple_name (s : string) : bool :=
  negb (String.eqb s "") && no_sep s
  && negb (String.eqb s ".") && negb (String.eqb s "..").

(** [joblib.dump(o, p)] *)
Definition joblib_dump (o : PyObj) (p : string) : Py unit :=
  fs ← get_disk;
  match fs !! p with
  | Some Directory =>
      mthrow (OSError ("[Errno 21] Is a directory: '" +:+ p +:+ "'"))
  | _ => set_disk (insert p (Joblib o))
  end.

(** [joblib.load(p)] *)
Definition joblib_load (p : string) : Py PyObj :=
  fs ← get_disk;
  match fs !! p with
  | Some (Joblib o) => mret o
  | Some Directory =>
      mthrow (OSError ("[Errno 21] Is a directory: '" +:+ p +:+ "'"))
  | Some _ => mthrow (OtherError "could not unpickle the file")
  | None =>
      mthrow (OSError ("[Errno 2] No such file or directory: '" +:+ p +:+ "'"))
  end.

(** [pd.read_csv(p)] *)
Definition read_csv (p : string) : Py DataFrame :=
  fs ← get_disk;
  match fs !! p with
  | Some (Csv df) => mret df
  | Some Directory =>
      mthrow (OSError ("[Errno 21] Is a directory: '" +:+ p +:+ "'"))
  | Some _ => mthrow (OtherError "could not parse the file as CSV")
  | None =>
      mthrow (OSError ("[Errno 2] No such file or directory: '" +:+ p +:+ "'"))
  end.

(** [data[col]] *)
Definition df_getitem (data : DataFrame) (col : string) : PyExc + list Json :=
  match columns data !! col with
  | Some series => inr series
  | None => inl (KeyError ("'" +:+ col +:+ "'"))
  end.

(** ** Method calls on dynamically typed attributes *)

(** [o.transform(texts)] *)
Definition call_transform (o : PyObj) (texts : list string) : PyExc + Matrix :=
  match o with
  | PyTfidf v =>
      match tv_fitted v with
      | Some vocab => transform (tv_params v) vocab texts
      | None => inl (NotFittedError "The TF-IDF vectorizer is not fitted")
      end
  | PyNone =>
      inl (AttributeError "'NoneType' object has no attribute 'transform'")
  | PyNB _ =>
      inl (AttributeError "'MultinomialNB' object has no attribute 'transform'")
  | PyConfig _ =>
      inl (AttributeError "'dict' object has no attribute 'transform'")
  end.

(** [o.predict_proba(X)] *)
Definition call_predict_proba (o : PyObj) (X : Matrix)
  : PyExc + list (list float) :=
  match o with
  | PyNB c =>
      match nb_fitted c with
      | Some m => predict_proba m X
      | None =>
          inl (NotFittedError "This MultinomialNB instance is not fitted yet.")
      end
  | PyNone =>
      inl (AttributeError "'NoneType' object has no attribute 'predict_proba'")
  | PyTfidf _ =>
      inl (AttributeError
             "'TfidfVectorizer' object has no attribute 'predict_proba'")
  | PyConfig _ =>
      inl (AttributeError "'dict' object has no attribute 'predict_proba'")
  end.

(** [o.classes_] *)
Definition attr_classes_ (o : PyObj) : PyExc + list Z :=
  match o with
  | PyNB c =>
      match nb_fitted c with
      | Some m => inr (classes_ m)
      | None =>
          inl (AttributeError
                 "'MultinomialNB' object has no attribute 'classes_'")
      end
  | PyNone => inl (AttributeError "'NoneType' object has no attribute 'classes_'")
  | PyTfidf _ =>
      inl (AttributeError "'TfidfVectorizer' object has no attribute 'classes_'")
  | PyConfig _ => inl (AttributeError "'dict' object has no attribute 'classes_'")
  end.

(** [o[key]] on the loaded config; [entry] is the entry of a dict at [key] *)
Definition config_getitem {A} (o : PyObj) (key : string)
    (entry : Config → option A) : PyExc + A :=
  match o with
  | PyConfig cfg =>
      match entry cfg with
      | Some x => inr x
      | None => inl (KeyError ("'" +:+ key +:+ "'"))
      end
  | PyNone => inl (TypeError "'NoneType' object is not subscriptable")
  | PyTfidf _ => inl (TypeError "'TfidfVectorizer' object is not subscriptable")
  | PyNB _ => inl (TypeError "'MultinomialNB' object is not subscriptable")
  end.

(** [l[i]] for [i >= 0] *)
Definition list_getitem {A} (l : list A) (i : nat) : PyExc + A :=
  match l !! i with
  | Some x => inr x
  | None => inl (IndexError "index out of range")
  end.

(** [{cls: idx for idx, cls in enumerate(classes)}]: a later index replaces
    an earlier one for the same class. *)
Definition enumerate_dict (classes : list Z) : gmap Z nat :=
  foldl (λ m p, <[p.2 := p.1]> m) ∅ (zip (seq 0 (length classes)) classes).

(** [d[k]] *)
Definition dict_getitem (d : gmap Z nat) (k : Z) : PyExc + nat :=
  match d !! k with
  | Some i => inr i
  | None => inl (KeyError (pretty k))
  end.

(** ** [detector.py]: class [AITextDetector] *)

(** [__init__] *)
Definition init : AITextDetector :=
  {| max_features := 15000;
     ngram_range := (1, 3)%Z;
     alpha := 0.01%float;
     min_df := 2;
     max_df := 0.9%float;
     vectorizer := PyNone;
     classifier := PyNone;
     is_trained := false |}.

Definition files : list string :=
  ["vectorizer.joblib"; "classifier.joblib"; "config.joblib"].

(** [model_exists]: it reads the disk only. *)
Definition model_exists_on (fs : gmap string Node) (model_dir : string) : bool :=
  forallb (λ f, os_path_exists fs (path_join model_dir f)) files.

Definition model_exists (model_dir : string) : Py bool :=
  fs ← get_disk; mret (model_exists_on fs model_dir).

(** [train].  The [print] calls are left out; every call that can raise is
    kept, in program order. *)
Definition train (filepath : string) (test_size : float) : Py float :=
  data ← read_csv filepath;
  text_col ← lift (df_getitem data "text");
  let X_text := astype_str text_col in
  generated_col ← lift (df_getitem data "generated");
  y ← lift (astype_int generated_col);
  self ← get_self;
  let params :=
    {| tv_max_features := max_features self;
       tv_ngram_range := ngram_range self;
       tv_min_df := min_df self;
       tv_max_df := max_df self;
       tv_sublinear_tf := true;
       tv_use_idf := true;
       tv_smooth_idf := true |} in
  set_self (with_vectorizer
              (PyTfidf {| tv_params := params; tv_fitted := None |}));;
  '(vocab, X) ← lift (fit_transform params X_text);
  set_self (with_vectorizer
              (PyTfidf {| tv_params := params; tv_fitted := Some vocab |}));;
  '(X_train, X_test, y_train, y_test) ←
    lift (train_test_split X y test_size 42 y);
  self ← get_self;
  set_self (with_classifier
              (PyNB {| nb_alpha := alpha self; nb_fit_prior := true;
                       nb_fitted := None |}));;
  model ← lift (fit (alpha self) true X_train y_train);
  set_self (with_classifier
              (PyNB {| nb_alpha := alpha self; nb_fit_prior := true;
                       nb_fitted := Some model |}));;
  y_pred ← lift (nb_predict model X_test);
  accuracy ← lift (accuracy_score y_test y_pred);
  _ ← lift (classification_report y_test y_pred ["Human"; "AI"]);
  cm ← lift (confusion_matrix y_test y_pred);
  row0 ← lift (list_getitem cm 0);
  _ ← lift (list_getitem row0 0);
  _ ← lift (list_getitem row0 1);
  row1 ← lift (list_getitem cm 1);
  _ ← lift (list_getitem row1 0);
  _ ← lift (list_getitem row1 1);
  set_self (with_is_trained true);;
  mret accuracy.

(** [train] in a run of the program in which [train_test_split], the one
    call of [train] that draws random numbers, answers as [split]: the body
    of [train] with that call a parameter.  With the library's own split it
    is [train] (lemma [train_with_library_split]). *)
Definition train_with
    (split : Matrix → list Z → float → Z → list Z →
             PyExc + (Matrix * Matrix * list Z * list Z))
    (filepath : string) (test_size : float) : Py float :=
  data ← read_csv filepath;
  text_col ← lift (df_getitem data "text");
  let X_text := astype_str text_col in
  generated_col ← lift (df_getitem data "generated");
  y ← lift (astype_int generated_col);
  self ← get_self;
  let params :=
    {| tv_max_features := max_features self;
       tv_ngram_range := ngram_range self;
       tv_min_df := min_df self;
       tv_max_df := max_df self;
       tv_sublinear_tf := true;
       tv_use_idf := true;
       tv_smooth_idf := true |} in
  set_self (with_vectorizer
              (PyTfidf {| tv_params := params; tv_fitted := None |}));;
  '(vocab, X) ← lift (fit_transform params X_text);
  set_self (with_vectorizer
              (PyTfidf {| tv_params := params; tv_fitted := Some vocab |}));;
  '(X_train, X_test, y_train, y_test) ←
    lift (split X y test_size 42%Z y);
  self ← get_self;
  set_self (with_classifier
              (PyNB {| nb_alpha := alpha self; nb_fit_prior := true;
                       nb_fitted := None |}));;
  model ← lift (fit (alpha self) true X_train y_train);
  set_self (with_classifier
              (PyNB {| nb_alpha := alpha self; nb_fit_prior := true;
                       nb_fitted := Some model |}));;
  y_pred ← lift (nb_predict model X_test);
  accuracy ← lift (accuracy_score y_test y_pred);
  _ ← lift (classification_report y_test y_pred ["Human"; "AI"]);
  cm ← lift (confusion_matrix y_test y_pred);
  row0 ← lift (list_getitem cm 0);
  _ ← lift (list_getitem row0 0);
  _ ← lift (list_getitem row0 1);
  row1 ← lift (list_getitem cm 1);
  _ ← lift (list_getitem row1 0);
  _ ← lift (list_getitem row1 1);
  set_self (with_is_trained true);;
  mret accuracy.

(** [save_model] *)
Definition save_model (model_dir : string) : Py unit :=
  os_makedirs model_dir;;
  self ← get_self;
  joblib_dump (vectorizer self) (path_join model_dir "vectorizer.joblib");;
  joblib_dump (classifier self) (path_join model_dir "classifier.joblib");;
  joblib_dump
    (PyConfig {| cfg_max_features := Some (max_features self);
                 cfg_ngram_range := Some (ngram_range self);
                 cfg_alpha := Some (alpha self) |})
    (path_join model_dir "config.joblib").

(** [load_model] *)
Definition load_model (model_dir : string) : Py unit :=
  v ← joblib_load (path_join model_dir "vectorizer.joblib");
  set_self (with_vectorizer v);;
  c ← joblib_load (path_join model_dir "classifier.joblib");
  set_self (with_classifier c);;
  config ← joblib_load (path_join model_dir "config.joblib");
  n ← lift (config_getitem config "max_features" cfg_max_features);
  set_self (with_max_features n);;
  r ← lift (config_getitem config "ngram_range" cfg_ngram_range);
  set_self (with_ngram_range r);;
  a ← lift (config_getitem config "alpha" cfg_alpha);
  set_self (with_alpha a);;
  set_self (with_is_trained true).

(** [predict] *)
Definition predict (text : string) : Py (string * float * float) :=
  self ← get_self;
  if negb (is_trained self) then mthrow (ValueError "Model not loaded!")
  else
    X ← lift (call_transform (vectorizer self) [text]);
    rows ← lift (call_predict_proba (classifier self) X);
    probs ← lift (list_getitem rows 0);
    classes ← lift (attr_classes_ (classifier self));
    let class_to_idx := enumerate_dict classes in
    i0 ← lift (dict_getitem class_to_idx 0);
    human_prob ← lift (list_getitem probs i0);
    i1 ← lift (dict_getitem class_to_idx 1);
    ai_prob ← lift (list_getitem probs i1);
    let label := if PrimFloat.ltb 0.5 ai_prob then "AI" else "Human" in
    mret (label, ai_prob, human_prob).

End Program.

(** The double-quote character, for messages that contain it. *)
Definition dquote : string := String "034" EmptyString.

(** [len(s)] *)
Definition len_str (s : string) : Z := Z.of_nat (String.length s).

(** ** [app.py]: the Flask surface *)

Module FlaskApp.
Section App.
Context `{Libs : Libraries}.

Local Abbreviation detector_predict := predict.
Local Abbreviation detector_load_model := load_model.

Definition MODEL_DIR : string := "model".

(** What the handlers see of a request: the outcome of
    [request.get_json()], which raises on a body that is not JSON. *)
Record Request := { get_json : PyExc + Json }.

(** [jsonify(d), status] *)
Definition jsonify (d : list (string * Json)) (status : Z) : Response :=
  {| status_code := status; body := JObj d |}.

(** The module-level [try: ... except Exception] run at import time. *)
Definition startup : Py unit :=
  try_except
    (found ← model_exists MODEL_DIR;
     if (found : bool) then detector_load_model MODEL_DIR else mret tt)
    (λ _, mret tt).

(** [GET /] *)
Definition home : Py Response :=
  self ← get_self;
  mret (jsonify
          [("status", JStr "online");
           ("name", JStr "AI Text Detector API");
           ("model_loaded", JBool (is_trained self));
           ("endpoints",
             JObj [("POST /predict", JStr "Classify text");
                   ("GET /health", JStr "Health check")])]
          200).

(** [GET /health] *)
Definition health : Py Response :=
  self ← get_self;
  mret (jsonify
          [("status", JStr "healthy");
           ("model_loaded", JBool (is_trained self))]
          200).

(** The [if]/[elif] chain on [certainty], lines 70-77. *)
Definition confidence (certainty : float) : string :=
  if PrimFloat.ltb 0.8 certainty then "very_high"
  else if PrimFloat.ltb 0.5 certainty then "high"
  else if PrimFloat.ltb 0.2 certainty then "medium"
  else "low".

(** [POST /predict] *)
Definition predict (request : Request) : Py Response :=
  try_except
    (self ← get_self;
     if negb (is_trained self)
     then mret (jsonify [("error", JStr "Model not loaded")] 500)
     else
       data ← lift (get_json request);
       missing ← (if negb (truthy data) then mret true
                  else has ← lift (py_contains "text" data);
                       mret (negb has));
       if (missing : bool)
       then mret (jsonify
                    [("error",
                      JStr ("Missing " +:+ dquote +:+ "text" +:+ dquote
                            +:+ " field"))]
                    400)
       else
         raw ← lift (py_getitem "text" data);
         text ← lift (py_strip raw);
         if String.eqb text ""
         then mret (jsonify [("error", JStr "Text cannot be empty")] 400)
         else
           '(label, ai_prob, human_prob) ← detector_predict text;
           let certainty := PrimFloat.abs (PrimFloat.sub ai_prob human_prob) in
           mret (jsonify
                   [("label", JStr label);
                    ("ai_probability", JFloat (round ai_prob 4));
                    ("human_probability", JFloat (round human_prob 4));
                    ("confidence", JStr (confidence certainty));
                    ("certainty", JFloat (round certainty 4));
                    ("text_length", JInt (len_str text));
                    ("word_count", JInt (Z.of_nat (length (split text))))]
                   200))
    (λ e, mret (jsonify [("error", JStr (str_exc e))] 500)).

End App.
End FlaskApp.

(** ** [fastapi_app.py]: the FastAPI surface *)

Module FastApiApp.
Section App.
Context `{Libs : Libraries}.

Local Abbreviation detector_predict := predict.
Local Abbreviation detector_load_model := load_model.

Definition MODEL_DIR : string := "model".

(** The startup hook [load_model]. *)
Definition load_model : Py unit :=
  try_except
    (found ← model_exists MODEL_DIR;
     if (found : bool) then detector_load_model MODEL_DIR else mret tt)
    (λ _, mret tt).

Record PredictRequest := { text : string }.

(** The validator of the [text] field. *)
Definition text_not_empty (v : string) : PyExc + string :=
  if String.eqb (strip v) "" then inl (ValueError "Text cannot be empty")
  else inr (strip v).

(** pydantic: building a [PredictRequest] from the request body.  The body
    must be an object with a [text] field; the field is validated as [str]
    and then by [text_not_empty]. *)
Definition parse_PredictRequest (payload : Json) : PyExc + PredictRequest :=
  match payload with
  | JObj fs =>
      match assoc_get "text" fs with
      | None => inl (ValidationError "text: field required")
      | Some raw =>
          match (match raw with JStr s => inr s | _ => pydantic_str raw end) with
          | inl e => inl (ValidationError (str_exc e))
          | inr s =>
              match text_not_empty s with
              | inl e => inl (ValidationError (str_exc e))
              | inr v => inr {| text := v |}
              end
          end
      end
  | _ => inl (ValidationError "value is not a valid dict")
  end.

(** [GET /] *)
Definition root : Py (list (string * Json)) :=
  self ← get_self;
  mret [("name", JStr "AI Text Detector API");
        ("version", JStr "1.0.0");
        ("status", JStr "online");
        ("model_loaded", JBool (is_trained self));
        ("endpoints",
          JObj [("POST /predict", JStr "Classify text as AI or Human");
                ("GET /health", JStr "Health check");
                ("GET /docs", JStr "API documentation")])].

(** [GET /health] *)
Definition health : Py (list (string * Json)) :=
  self ← get_self;
  mret [("status", JStr (if is_trained self then "healthy" else "unhealthy"));
        ("model_loaded", JBool (is_trained self))].

(** The [if]/[elif] chain on [certainty], lines 122-129. *)
Definition confidence (certainty : float) : string :=
  if PrimFloat.ltb 0.8 certainty then "very_high"
  else if PrimFloat.ltb 0.5 certainty then "high"
  else if PrimFloat.ltb 0.2 certainty then "medium"
  else "low".

(** The handler of [POST /predict]: it returns a dict or raises. *)
Definition predict (request : PredictRequest) : Py (list (string * Json)) :=
  try_except
    (self ← get_self;
     if negb (is_trained self)
     then mthrow (HTTPException 500 "Model not loaded")
     else
       '(label, ai_prob, human_prob) ← detector_predict (text request);
       let certainty := PrimFloat.abs (PrimFloat.sub ai_prob human_prob) in
       mret [("label", JStr label);
             ("ai_probability", JFloat (round ai_prob 4));
             ("human_probability", JFloat (round human_prob 4));
             ("confidence", JStr (confidence certainty));
             ("certainty", JFloat (round certainty 4));
             ("text_length", JInt (len_str (text request)));
             ("word_count", JInt (Z.of_nat (length (split (text request)))))])
    (λ e, mthrow (HTTPException 500 (str_exc e))).

(** What FastAPI makes of a handler's outcome: a returned dict is a 200, an
    [HTTPException] is a response with its status and detail. *)
Definition respond (h : Py (list (string * Json))) : Py Response :=
  try_except
    (d ← h; mret {| status_code := 200; body := JObj d |})
    (λ e, match e with
          | HTTPException sc detail =>
              mret {| status_code := sc;
                      body := JObj [("detail", JStr detail)] |}
          | _ => mret {| status_code := 500;
                         body := JStr "Internal Server Error" |}
          end).

(** The route [POST /predict]: a body that fails validation is answered
    with 422 before the handler runs; the [detail] of that answer is the
    framework's list of validation errors for the body. *)
Definition post_predict (payload : Json) : Py Response :=
  match parse_PredictRequest payload with
  | inl _ => mret {| status_code := 422;
                     body := JObj [("detail", validation_errors payload)] |}
  | inr request => respond (predict request)
  end.

End App.
End FastApiApp.

(** ** Sequences of operations on one detector *)

Section Sequences.
Context `{Libs : Libraries}.

Inductive Op : Type :=
  | OpTrain (filepath : string) (test_size : float)
  | OpSave (model_dir : string)
  | OpLoad (model_dir : string)
  | OpPredict (text : string).

(** One call; the caller goes on with the state the call left, whether it
    returned or raised. *)
Definition step (op : Op) (w : World) : World :=
  match op with
  | OpTrain filepath test_size => (train filepath test_size w).1
  | OpSave model_dir => (save_model model_dir w).1
  | OpLoad model_dir => (load_model model_dir w).1
  | OpPredict text => (predict text w).1
  end.

Definition run (ops : list Op) (w : World) : World := foldl (flip step) w ops.

(** Constructing a detector in a process with disk [fs]. *)
Definition construct (fs : gmap string Node) : World :=
  {| detector := init; disk := fs |}.

Definition is_fitted_vectorizer (o : PyObj) : bool :=
  match o with
  | PyTfidf v => bool_decide (is_Some (tv_fitted v))
  | _ => false
  end.

Definition is_fitted_classifier (o : PyObj) : bool :=
  match o with
  | PyNB c => bool_decide (is_Some (nb_fitted c))
  | _ => false
  end.

(** The invariant on the detector: a detector marked trained holds a fitted
    vectorizer and a fitted classifier. *)
Definition trained_has_models (d : AITextDetector) : Prop :=
  is_trained d = true →
  is_fitted_vectorizer (vectorizer d) = true
  ∧ is_fitted_classifier (classifier d) = true.

(** The matching condition on the disk: a pickle under an artifact name holds
    an object of that kind, fitted. *)
Definition artifacts_fitted (fs : gmap string Node) : Prop :=
  ∀ model_dir o,
    (fs !! path_join model_dir "vectorizer.joblib" = Some (Joblib o) →
     is_fitted_vectorizer o = true)
    ∧ (fs !! path_join model_dir "classifier.joblib" = Some (Joblib o) →
       is_fitted_classifier o = true).

(** The discipline of a sequence: [save_model] is called on a trained
    detector only, and a [train] on an already trained detector returns. *)
Definition allowed (op : Op) (w : World) : Prop :=
  match op with
  | OpSave _ => is_trained (detector w) = true
  | OpTrain filepath test_size =>
      is_trained (detector w) = true →
      ∃ accuracy, (train filepath test_size w).2 = inr accuracy
  | _ => True
  end.

Fixpoint disciplined (ops : list Op) (w : World) : Prop :=
  match ops with
  | [] => True
  | op :: ops' => allowed op w ∧ disciplined ops' (step op w)
  end.

(** The invariant of a process: on the detector and on the disk. *)
Definition consistent (w : World) : Prop :=
  trained_has_models (detector w) ∧ artifacts_fitted (disk w).

(** Two detectors agree on what [train] reads of them. *)
Definition same_hyperparameters (d1 d2 : AITextDetector) : Prop :=
  max_features d1 = max_features d2
  ∧ ngram_range d1 = ngram_range d2
  ∧ alpha d1 = alpha d2
  ∧ min_df d1 = min_df d2
  ∧ max_df d1 = max_df d2.

End Sequences.

(** ** [detector.py]: the interactive menu *)

(** [str.lower()] on code points below 256: the letters A-Z and the
    capital letters of Latin-1, 192-222 without the sign 215. *)
Definition lower_char (c : ascii) : ascii :=
  let n := N_of_ascii c in
  if ((65 <=? n) && (n <=? 90)
      || (192 <=? n) && (n <=? 222) && negb (n =? 215))%N
  then ascii_of_N (n + 32) else c.

Fixpoint lower (s : string) : string :=
  match s with
  | EmptyString => EmptyString
  | String c s' => String (lower_char c) (lower s')
  end.

(** A string of whitespace only. *)
Fixpoint all_space (s : string) : bool :=
  match s with
  | EmptyString => true
  | String c s' => isspace c && all_space s'
  end.

(** A string without whitespace. *)
Fixpoint no_space (s : string) : bool :=
  match s with
  | EmptyString => true
  | String c s' => negb (isspace c) && no_space s'
  end.

(** The first character, when there is one, is not whitespace. *)
Definition no_leading_space (s : string) : bool :=
  match s with
  | EmptyString => true
  | String c _ => negb (isspace c)
  end.

Definition no_trailing_space (s : string) : bool :=
  no_leading_space (String.rev s).

Section Interactive.
Context `{Libs : Libraries}.

Definition data_path : string := "balanced_ai_human_prompts.csv".
Definition model_dir : string := "model".

(** [input()]: the next line of standard input; [EOFError] at its end. *)
Definition input (stdin : list string) : Py (string * list string) :=
  match stdin with
  | [] => mthrow (OtherError "EOF when reading a line")
  | line :: rest => mret (line, rest)
  end.

(** The inner [while True] of choice 2, after [load_model].  Each [input()]
    is a match on the lines left; the loop returns the lines it has not
    read.  The [print] calls are left out. *)
Fixpoint predict_mode (stdin : list string) : Py (list string) :=
  match stdin with
  | [] => mthrow (OtherError "EOF when reading a line")
  | line :: rest =>
      let text := strip line in
      if bool_decide (lower text ∈ ["back"; "exit"]) then mret rest
      else if String.eqb text "" then predict_mode rest
      else
        _ ← predict text;
        match rest with
        | [] => mthrow (OtherError "EOF when reading a line")
        | line' :: rest' =>
            let again := lower (strip line') in
            if negb (String.eqb again "y") then mret rest'
            else predict_mode rest'
        end
  end.

(** The outer [while True].  [fuel] bounds the number of prompts; the
    result is [None] when it runs out and otherwise the lines left unread
    when choice 3 ends the loop. *)
Fixpoint menu (fuel : nat) (stdin : list string) : Py (option (list string)) :=
  match fuel with
  | 0 => mret None
  | S fuel' =>
      _ ← model_exists model_dir;
      '(line, rest) ← input stdin;
      let choice := strip line in
      if String.eqb choice "1" then
        fs ← get_disk;
        if os_path_exists fs data_path
        then _ ← train data_path 0.2;
             save_model model_dir;;
             menu fuel' rest
        else menu fuel' rest
      else if String.eqb choice "2" then
        found ← model_exists model_dir;
        if negb found then menu fuel' rest
        else load_model model_dir;;
             rest' ← predict_mode rest;
             menu fuel' rest'
      else if String.eqb choice "3" then mret (Some rest)
      else menu fuel' rest
  end.

(** [interactive]: every prompt reads a line, so one more prompt than there
    are lines is fuel enough. *)
Definition interactive (stdin : list string) : Py (option (list string)) :=
  menu (S (length stdin)) stdin.

(** The [__main__] block: construct a detector and run the menu. *)
Definition main (stdin : list string) (fs : gmap string Node)
  : World * (PyExc + option (list string)) :=
  interactive stdin (construct fs).

End Interactive.

(** ** Outcomes the properties are stated with *)

Section Success.
Context `{Libs : Libraries}.

(** The config dict [save_model] pickles. *)
Definition config_of (d : AITextDetector) : Config :=
  {| cfg_max_features := Some (max_features d);
     cfg_ngram_range := Some (ngram_range d);
     cfg_alpha := Some (alpha d) |}.

(** The disk a returning [save_model] leaves. *)
Definition saved_disk (model_dir : string) (d : AITextDetector)
    (fs : gmap string Node) : gmap string Node :=
  <[path_join model_dir "config.joblib" := Joblib (PyConfig (config_of d))]>
    (<[path_join model_dir "classifier.joblib" := Joblib (classifier d)]>
       (<[path_join model_dir "vectorizer.joblib" := Joblib (vectorizer d)]>
          (<[model_dir := Directory]> fs))).

(** A dict that holds the three keys. *)
Definition config_dict (n : Z) (r : Z * Z) (a : float) : Config :=
  {| cfg_max_features := Some n;
     cfg_ngram_range := Some r;
     cfg_alpha := Some a |}.

(** The detector a returning [load_model] leaves: the pickled models, the
    three values of the config, and [min_df] and [max_df] as they were. *)
Definition loaded (v c : PyObj) (n : Z) (r : Z * Z) (a : float)
    (d : AITextDetector) : AITextDetector :=
  {| max_features := n;
     ngram_range := r;
     alpha := a;
     min_df := min_df d;
     max_df := max_df d;
     vectorizer := v;
     classifier := c;
     is_trained := true |}.

(** The keyword arguments [train] builds the vectorizer with. *)
Definition tfidf_params_of (d : AITextDetector) : TfidfParams :=
  {| tv_max_features := max_features d;
     tv_ngram_range := ngram_range d;
     tv_min_df := min_df d;
     tv_max_df := max_df d;
     tv_sublinear_tf := true;
     tv_use_idf := true;
     tv_smooth_idf := true |}.

(** The detector a returning [train] leaves. *)
Definition trained_with (vocab : Vocabulary) (model : NBModel)
    (d : AITextDetector) : AITextDetector :=
  {| max_features := max_features d;
     ngram_range := ngram_range d;
     alpha := alpha d;
     min_df := min_df d;
     max_df := max_df d;
     vectorizer := PyTfidf {| tv_params := tfidf_params_of d;
                              tv_fitted := Some vocab |};
     classifier := PyNB {| nb_alpha := alpha d; nb_fit_prior := true;
                           nb_fitted := Some model |};
     is_trained := true |}.

(** The 200 body for a text and the prediction made of it. *)
Definition success_body (text label : string) (ai_prob human_prob : float)
  : Json :=
  let certainty := PrimFloat.abs (PrimFloat.sub ai_prob human_prob) in
  JObj [("label", JStr label);
        ("ai_probability", JFloat (round ai_prob 4));
        ("human_probability", JFloat (round human_prob 4));
        ("confidence", JStr (FlaskApp.confidence certainty));
        ("certainty", JFloat (round certainty 4));
        ("text_length", JInt (len_str text));
        ("word_count", JInt (Z.of_nat (length (split text))))].

End Success.

(** ** The classifier's probabilities *)

(** A float in [0, 1]. *)
Definition in_unit_interval (p : float) : Prop :=
  PrimFloat.leb 0 p = true ∧ PrimFloat.leb p 1 = true.

(** [abs(s - 1.0) <= 1e-6] *)
Definition sums_to_one (s : float) : Prop :=
  PrimFloat.leb (PrimFloat.abs (PrimFloat.sub s 1)) 1e-6 = true.

(** The entries of a row, added from left to right. *)
Definition row_sum (probs : list float) : float :=
  match probs with
  | [] => 0%float
  | p :: probs' => foldl PrimFloat.add p probs'
  end.

(** Modelled from the spec: section 4.2 has the classifier normalise its
    class scores "to obtain probabilities summing to 1".  A row of
    [predict_proba] then has one entry per class, every entry lies in
    [0, 1], and the entries sum to 1 within the tolerance 1e-6 of
    section 6. *)
Definition probability_row (classes : list Z) (probs : list float) : Prop :=
  length probs = length classes
  ∧ Forall in_unit_interval probs
  ∧ sums_to_one (row_sum probs).

(** ** A small executable instance of the library interface

    Texts stand for their own feature rows; the classifier answers from the
    text alone.  It serves to run the program on concrete inputs. *)

Definition toy_probs (t : string) : list float :=
  if String.eqb t "tie" then [0.5; 0.5]%float
  else if str_contains "AI" t then [0.125; 0.875]%float
  else [0.75; 0.25]%float.

Definition toy_libraries : Libraries :=
  {| Vocabulary := unit;
     NBModel := list Z;
     Matrix := list string;
     astype_str := map (λ j, match j with JStr s => s | _ => "nan" end);
     astype_int := λ l, inr (map (λ j, match j with JInt n => n | _ => 0%Z end) l);
     fit_transform := λ _ texts,
       match texts with
       | [] => inl (ValueError "empty vocabulary")
       | _ => inr (tt, texts)
       end;
     transform := λ _ _ texts, inr texts;
     train_test_split := λ X y _ _ _, inr (X, X, y, y);
     fit := λ _ _ _ _, inr [0; 1]%Z;
     nb_predict := λ _ X, inr (map (λ _, 0%Z) X);
     predict_proba := λ _ X, inr (map toy_probs X);
     classes_ := λ m, m;
     accuracy_score := λ _ _, inr 1%float;
     classification_report := λ _ _ _, inr "";
     confusion_matrix := λ _ _, inr [[1; 0]; [0; 1]]%Z;
     round := λ x _, x;
     pydantic_str := λ _, inl (ValidationError "str type expected");
     validation_errors := λ payload,
       JArr [JObj [("type", JStr "value_error"); ("input", payload)]] |}.

(** The split of the toy instance in a later run: the same for seed 42, an
    error for any other seed. *)
Definition toy_later_split (X : list string) (y : list Z) (test_size : float)
    (seed : Z) (stratify : list Z)
  : PyExc + (list string * list string * list Z * list Z) :=
  if (seed =? 42)%Z then inr (X, X, y, y)
  else inl (ValueError "another split").

(** A two-row training file and a disk that holds it. *)
Definition toy_csv : DataFrame :=
  {| columns :=
       {[ "text" := [JStr "The cat sat on the mat."; JStr "As an AI model"];
          "generated" := [JInt 0; JInt 1] ]} |}.

Definition toy_disk : gmap string (Node (Libs := toy_libraries)) :=
  {[ "data.csv" := Csv toy_csv ]}.

(** The world after constructing a detector and training it on the file. *)
Definition toy_trained : World (Libs := toy_libraries) :=
  (train "data.csv" 0.2 (construct toy_disk)).1.

(** ** An instance with a third class

    The classifier learns the classes 0 and 1 and, when the label 2 occurs in
    the training data, also the class 2; its rows are probabilities over its
    classes.  [classification_report] is called with two target names and
    raises on labels of three classes, as scikit-learn does. *)

Definition three_class_libraries : Libraries :=
  {| Vocabulary := unit;
     NBModel := bool;
     Matrix := list string;
     astype_str := map (λ j, match j with JStr s => s | _ => "nan" end);
     astype_int := λ l, inr (map (λ j, match j with JInt n => n | _ => 0%Z end) l);
     fit_transform := λ _ texts,
       match texts with
       | [] => inl (ValueError "empty vocabulary")
       | _ => inr (tt, texts)
       end;
     transform := λ _ _ texts, inr texts;
     train_test_split := λ X y _ _ _, inr (X, X, y, y);
     fit := λ _ _ _ y, inr (existsb (Z.eqb 2) y);
     nb_predict := λ _ X, inr (map (λ _, 0%Z) X);
     predict_proba := λ m X,
       inr (map (λ _, if (m : bool) then [0.25; 0.25; 0.5]%float
                      else [0.5; 0.5]%float) X);
     classes_ := λ m, if (m : bool) then [0; 1; 2]%Z else [0; 1]%Z;
     accuracy_score := λ _ _, inr 1%float;
     classification_report := λ y_true _ _,
       if existsb (Z.eqb 2) y_true
       then inl (ValueError
                   "Number of classes, 3, does not match size of target_names, 2")
       else inr "";
     confusion_matrix := λ _ _, inr [[1; 0]; [0; 1]]%Z;
     round := λ x _, x;
     pydantic_str := λ _, inl (ValidationError "str type expected");
     validation_errors := λ payload,
       JArr [JObj [("type", JStr "value_error"); ("input", payload)]] |}.

(** A training file of ten rows with the labels 0 and 1, and one of fifteen
    rows with the labels 0, 1 and 2: five rows of each label. *)
Definition two_label_csv : DataFrame :=
  {| columns :=
       {[ "text" := concat (replicate 5 [JStr "a human wrote this";
                                         JStr "an AI model wrote this"]);
          "generated" := concat (replicate 5 [JInt 0; JInt 1]) ]} |}.

Definition three_label_csv : DataFrame :=
  {| columns :=
       {[ "text" := concat (replicate 5 [JStr "a human wrote this";
                                         JStr "an AI model wrote this";
                                         JStr "a parrot repeated this"]);
          "generated" := concat (replicate 5 [JInt 0; JInt 1; JInt 2]) ]} |}.

Definition three_label_disk : gmap string (Node (Libs := three_class_libraries)) :=
  {[ "two.csv" := Csv two_label_csv; "three.csv" := Csv three_label_csv ]}.

(** * Properties *)

(** Unfolding the monad: a computation becomes a function of the world. *)
Ltac py_unfold :=
  unfold mbind, Py_bind, mret, Py_ret, mthrow, Py_throw, lift, get_self,
    set_self, get_disk, set_disk, try_except in *.

(** The outcomes of the library calls of [predict], in program order; each
    raising branch is closed by [done]. *)
Ltac predict_calls :=
  destruct (call_transform _ _); [done|];
  destruct (call_predict_proba _ _); [done|];
  destruct (list_getitem _ 0); [done|];
  destruct (attr_classes_ _); [done|];
  destruct (dict_getitem _ 0); [done|];
  destruct (list_getitem _ _); [done|];
  destruct (dict_getitem _ 1); [done|];
  destruct (list_getitem _ _).

(** The same for [train], from the read of the file to the last index into
    the confusion matrix. *)
Ltac train_calls fs filepath :=
  destruct (fs !! filepath) as [[|?|?|]|]; cbn; try done;
  destruct (df_getitem _ "text"); cbn; [done|];
  destruct (df_getitem _ "generated"); cbn; [done|];
  destruct (astype_int _); cbn; [done|];
  destruct (fit_transform _ _) as [|[? ?]]; cbn; [done|];
  destruct (train_test_split _ _ _ _ _) as [|[[[? ?] ?] ?]]; cbn; [done|];
  destruct (fit _ _ _ _); cbn; [done|];
  destruct (nb_predict _ _); cbn; [done|];
  destruct (accuracy_score _ _); cbn; [done|];
  destruct (classification_report _ _ _); cbn; [done|];
  destruct (confusion_matrix _ _) as [|cm]; cbn; [done|];
  destruct (list_getitem cm 0) as [|row0]; cbn; [done|];
  destruct (list_getitem row0 0); cbn; [done|];
  destruct (list_getitem row0 1); cbn; [done|];
  destruct (list_getitem cm 1) as [|row1]; cbn; [done|];
  destruct (list_getitem row1 0); cbn; [done|];
  destruct (list_getitem row1 1); cbn.

(** ** The order of binary64 floats *)

Ltac cmp_cases :=
  repeat match goal with
  | H : context [Z.compare ?a ?b] |- _ => destruct (Z.compare_spec a b)
  | |- context [Z.compare ?a ?b] => destruct (Z.compare_spec a b)
  | H : context [Pos.compare ?a ?b] |- _ => destruct (Pos.compare_spec a b)
  | |- context [Pos.compare ?a ?b] => destruct (Pos.compare_spec a b)
  end.

Ltac fold_pos_compare :=
  repeat match goal with
  | |- context [PosDef.Pos.compare_cont Eq ?a ?b] =>
      change (PosDef.Pos.compare_cont Eq a b) with (Pos.compare a b)
  end.

Lemma SFleb_SFltb_trans x y z :
  SFleb x y = true → SFltb y z = true → SFltb x z = true.
Proof.
  unfold SFleb, SFltb.
  destruct x as [sx|sx| |sx mx ex], y as [sy|sy| |sy my ey],
    z as [sz|sz| |sz mz ez]; cbn; try done;
    try (by destruct sx, sy, sz); try (by destruct sx, sy);
    try (by destruct sx, sz); try (by destruct sy, sz);
    try (by destruct sx); try (by destruct sy); try (by destruct sz).
  fold_pos_compare.
  destruct sx, sy, sz; cbn; try done; cmp_cases; cbn; try done; lia.
Qed.

Lemma SFltb_asym x y : SFltb x y = true → SFltb y x = false.
Proof.
  unfold SFltb.
  destruct x as [sx|sx| |sx mx ex], y as [sy|sy| |sy my ey]; cbn;
    try done; try (by destruct sx, sy); try (by destruct sx);
    try (by destruct sy).
  fold_pos_compare.
  destruct sx, sy; cbn; try done; cmp_cases; cbn; try done; lia.
Qed.

(** Among numbers (no NaN), [x < c] fails exactly when [c <= x]. *)
Lemma SFltb_false_iff_SFleb lo x c :
  SFleb lo c = true → SFleb x x = true →
  SFltb x c = false ↔ SFleb c x = true.
Proof.
  unfold SFleb, SFltb.
  destruct lo as [sl|sl| |sl ml el], x as [sx|sx| |sx mx ex],
    c as [sc|sc| |sc mc ec]; cbn; try done;
    try (by destruct sx, sc); try (by destruct sx); try (by destruct sc);
    intros _ _; fold_pos_compare;
    destruct sx, sc; cbn; try done; cmp_cases; cbn; try done; lia.
Qed.

(** On a certainty that is a number, the failure of [x < c] is [c <= x]. *)
Lemma float_ltb_false_iff_leb (x c : float) :
  PrimFloat.leb 0 c = true → PrimFloat.leb x x = true →
  PrimFloat.ltb x c = false ↔ PrimFloat.leb c x = true.
Proof.
  rewrite !FloatAxioms.leb_spec, FloatAxioms.ltb_spec.
  apply SFltb_false_iff_SFleb.
Qed.

(** Below a smaller threshold is not above a larger one. *)
Lemma float_leb_below (c y z : float) :
  PrimFloat.leb c y = true → PrimFloat.ltb y z = true →
  PrimFloat.ltb z c = false.
Proof.
  rewrite FloatAxioms.leb_spec, !FloatAxioms.ltb_spec. intros Hcy Hyz.
  apply SFltb_asym. by apply (SFleb_SFltb_trans _ (Prim2SF y)).
Qed.

Section DetectorFacts.
Context `{Libs : Libraries}.

(** A returning [predict] ran on a trained detector, left the world as it
    was, and labelled by the strict comparison with one half. *)
Lemma predict_returns_inv text w w' label ai_prob human_prob :
  predict text w = (w', inr (label, ai_prob, human_prob)) →
  w' = w
  ∧ is_trained (detector w) = true
  ∧ label = (if PrimFloat.ltb 0.5 ai_prob then "AI" else "Human").
Proof.
  unfold predict. py_unfold. cbn.
  destruct (is_trained (detector w)); cbn; [|done].
  predict_calls; [done|].
  intros [= <- <- <- <-]. done.
Qed.

(** The probabilities [predict] returns are the entries of the classifier's
    row for the text, at the indices of the classes 0 and 1. *)
Lemma predict_forwards_row text w w' label ai_prob human_prob :
  predict text w = (w', inr (label, ai_prob, human_prob)) →
  ∃ X rows probs classes i0 i1,
    call_transform (vectorizer (detector w)) [text] = inr X
    ∧ call_predict_proba (classifier (detector w)) X = inr rows
    ∧ rows !! 0 = Some probs
    ∧ attr_classes_ (classifier (detector w)) = inr classes
    ∧ enumerate_dict classes !! 0%Z = Some i0
    ∧ probs !! i0 = Some human_prob
    ∧ enumerate_dict classes !! 1%Z = Some i1
    ∧ probs !! i1 = Some ai_prob.
Proof.
  unfold predict. py_unfold. cbn.
  destruct (is_trained (detector w)); cbn; [|done].
  destruct (call_transform _ _) as [|X] eqn:HX; [done|].
  destruct (call_predict_proba _ _) as [|rows] eqn:Hrows; [done|].
  unfold dict_getitem, list_getitem.
  destruct (rows !! 0) as [probs|] eqn:Hrow; [|done].
  destruct (attr_classes_ _) as [|classes] eqn:Hclasses; [done|].
  destruct (enumerate_dict classes !! 0%Z) as [i0|] eqn:Hi0; [|done].
  destruct (probs !! i0) as [p0|] eqn:Hp0; [|done].
  destruct (enumerate_dict classes !! 1%Z) as [i1|] eqn:Hi1; [|done].
  destruct (probs !! i1) as [p1|] eqn:Hp1; [|done].
  intros [= <- <- <- <-].
  by exists X, rows, probs, classes, i0, i1.
Qed.

(** Python's [x == y] on floats contradicts [y < x]. *)
Lemma float_eqb_not_ltb (x y : float) :
  PrimFloat.eqb x y = true → PrimFloat.ltb y x = false.
Proof.
  rewrite FloatAxioms.eqb_spec, FloatAxioms.ltb_spec. unfold SFeqb, SFltb.
  destruct (Prim2SF x) as [sx|sx| |sx mx ex], (Prim2SF y) as [sy|sy| |sy my ey];
    cbn; try done; try (by destruct sx, sy); try (by destruct sx);
    try (by destruct sy).
  change (PosDef.Pos.compare_cont Eq mx my) with (Pos.compare mx my).
  change (PosDef.Pos.compare_cont Eq my mx) with (Pos.compare my mx).
  destruct sx, sy; try done;
    destruct (Z.compare_spec ex ey), (Z.compare_spec ey ex); try lia; cbn;
    try done;
    destruct (Pos.compare_spec mx my), (Pos.compare_spec my mx); try lia; cbn;
    done.
Qed.

End DetectorFacts.

(** C1: whenever [predict] returns on a text, the label is "AI" exactly when
    [ai_probability > 0.5] and is "Human" otherwise; a probability equal to
    one half, as a value or under Python's [==], gives "Human".  A returning
    [predict] ran on a detector marked trained. *)
Theorem predict_label_strict_majority `{Libs : Libraries}
    (text : string) (w w' : World) (label : string) (ai_prob human_prob : float) :
  predict text w = (w', inr (label, ai_prob, human_prob)) →
  is_trained (detector w) = true
  ∧ (label = "AI" ↔ PrimFloat.ltb 0.5 ai_prob = true)
  ∧ (label = "Human" ↔ PrimFloat.ltb 0.5 ai_prob = false)
  ∧ (ai_prob = 0.5%float → label = "Human")
  ∧ (PrimFloat.eqb ai_prob 0.5 = true → label = "Human").
Proof.
  intros Hrun.
  destruct (predict_returns_inv _ _ _ _ _ _ Hrun) as (_ & Htrained & ->).
  split; [done|].
  split; [destruct (PrimFloat.ltb 0.5 ai_prob); split; congruence|].
  split; [destruct (PrimFloat.ltb 0.5 ai_prob); split; congruence|].
  split.
  - intros ->. reflexivity.
  - intros Heq. by rewrite (float_eqb_not_ltb _ _ Heq).
Qed.

(** The tie text of the toy classifier: probability one half, label "Human". *)
Lemma predict_label_strict_majority_witness :
  predict (Libs := toy_libraries) "tie" toy_trained
    = (toy_trained, inr ("Human", 0.5%float, 0.5%float))
  ∧ ("Human" = "AI" ↔ PrimFloat.ltb 0.5 0.5 = true).
Proof.
  assert (predict (Libs := toy_libraries) "tie" toy_trained
          = (toy_trained, inr ("Human", 0.5%float, 0.5%float))) as Hrun
    by (vm_compute; reflexivity).
  split; [exact Hrun|].
  exact (proj1 (proj2 (predict_label_strict_majority (Libs := toy_libraries)
                         "tie" toy_trained toy_trained "Human" 0.5 0.5 Hrun))).
Defined.

Section FrameFacts.
Context `{Libs : Libraries}.

Lemma predict_frame text w : (predict text w).1 = w.
Proof.
  unfold predict. py_unfold. cbn.
  destruct (is_trained (detector w)); cbn; [|done].
  predict_calls; done.
Qed.

Lemma flask_predict_frame request w : (FlaskApp.predict request w).1 = w.
Proof.
  unfold FlaskApp.predict. py_unfold. cbn.
  destruct (is_trained (detector w)); cbn; [|done].
  destruct (FlaskApp.get_json request) as [e|data]; [done|].
  destruct (truthy data); cbn.
  - destruct (py_contains "text" data) as [e|[]]; cbn; try done.
    destruct (py_getitem "text" data) as [e|raw]; [done|].
    destruct (py_strip raw) as [e|text]; [done|].
    destruct (String.eqb text ""); [done|].
    pose proof (predict_frame text w) as Hframe.
    destruct (predict text w) as [w1 [e|[[label ai_prob] human_prob]]];
      cbn in *; by subst.
  - done.
Qed.

Lemma fastapi_handler_frame request w :
  (FastApiApp.respond (FastApiApp.predict request) w).1 = w.
Proof.
  unfold FastApiApp.respond, FastApiApp.predict. py_unfold. cbn.
  destruct (is_trained (detector w)); cbn; [|done].
  pose proof (predict_frame (FastApiApp.text request) w) as Hframe.
  destruct (predict _ w) as [w1 [e|[[label ai_prob] human_prob]]];
    cbn in *; by subst.
Qed.

Lemma fastapi_predict_frame payload w :
  (FastApiApp.post_predict payload w).1 = w.
Proof.
  unfold FastApiApp.post_predict.
  destruct (FastApiApp.parse_PredictRequest payload); [done|].
  apply fastapi_handler_frame.
Qed.

End FrameFacts.

(** C9: [predict] leaves the whole process state as it found it, whether it
    returns or raises: [is_trained], [vectorizer], [classifier],
    [max_features], [ngram_range] and [alpha] are those of before the call,
    and so are the other attributes and the disk.  The same holds of a
    request to [POST /predict] on either HTTP surface. *)
Theorem predict_does_not_mutate `{Libs : Libraries}
    (text : string) (w : World) :
  let d := detector w in
  let d' := detector (predict text w).1 in
  is_trained d' = is_trained d
  ∧ vectorizer d' = vectorizer d
  ∧ classifier d' = classifier d
  ∧ max_features d' = max_features d
  ∧ ngram_range d' = ngram_range d
  ∧ alpha d' = alpha d
  ∧ (predict text w).1 = w
  ∧ (∀ request, (FlaskApp.predict request w).1 = w)
  ∧ (∀ payload, (FastApiApp.post_predict payload w).1 = w).
Proof.
  cbv zeta. rewrite predict_frame.
  repeat split; auto using flask_predict_frame, fastapi_predict_frame.
Qed.

Section HandlerFacts.
Context `{Libs : Libraries}.

Lemma predict_not_trained text w :
  is_trained (detector w) = false →
  predict text w = (w, inl (ValueError "Model not loaded!")).
Proof. intros Hno. unfold predict. py_unfold. cbn. by rewrite Hno. Qed.

(** A 200 of the Flask surface reports a prediction of the detector on the
    trimmed text, and the band of the certainty it reports. *)
Lemma flask_predict_200_inv request w w' resp :
  FlaskApp.predict request w = (w', inr resp) →
  status_code resp = 200%Z →
  ∃ text label ai_prob human_prob,
    predict text w = (w', inr (label, ai_prob, human_prob))
    ∧ let certainty := PrimFloat.abs (PrimFloat.sub ai_prob human_prob) in
      assoc_get "label" (match body resp with JObj d => d | _ => [] end)
        = Some (JStr label)
      ∧ assoc_get "certainty" (match body resp with JObj d => d | _ => [] end)
        = Some (JFloat (round certainty 4))
      ∧ assoc_get "confidence" (match body resp with JObj d => d | _ => [] end)
        = Some (JStr (FlaskApp.confidence certainty)).
Proof.
  unfold FlaskApp.predict. py_unfold. cbn.
  destruct (is_trained (detector w)); cbn; [|by intros [= <- <-]].
  destruct (FlaskApp.get_json request) as [e|data]; [by intros [= <- <-]|].
  destruct (truthy data); cbn; [|by intros [= <- <-]].
  destruct (py_contains "text" data) as [e|[]]; cbn;
    try by intros [= <- <-].
  destruct (py_getitem "text" data) as [e|raw]; [by intros [= <- <-]|].
  destruct (py_strip raw) as [e|text]; [by intros [= <- <-]|].
  destruct (String.eqb text ""); [by intros [= <- <-]|].
  destruct (predict text w) as [w1 [e|[[label ai_prob] human_prob]]] eqn:Hrun;
    [by intros [= <- <-]|].
  intros [= <- <-] _. exists text, label, ai_prob, human_prob.
  split; [done|]. cbn. done.
Qed.

(** The same for the handler of the FastAPI surface. *)
Lemma fastapi_predict_returns_inv request w w' d :
  FastApiApp.predict request w = (w', inr d) →
  ∃ label ai_prob human_prob,
    predict (FastApiApp.text request) w = (w', inr (label, ai_prob, human_prob))
    ∧ let certainty := PrimFloat.abs (PrimFloat.sub ai_prob human_prob) in
      assoc_get "label" d = Some (JStr label)
      ∧ assoc_get "certainty" d = Some (JFloat (round certainty 4))
      ∧ assoc_get "confidence" d
        = Some (JStr (FastApiApp.confidence certainty)).
Proof.
  unfold FastApiApp.predict. py_unfold. cbn.
  destruct (is_trained (detector w)); cbn; [|done].
  destruct (predict _ w) as [w1 [e|[[label ai_prob] human_prob]]] eqn:Hrun;
    [done|].
  intros [= <- <-]. exists label, ai_prob, human_prob. by cbn.
Qed.

(** The handlers answer every request: no exception leaves them. *)
Lemma flask_predict_total request w :
  ∃ resp, FlaskApp.predict request w = (w, inr resp).
Proof.
  unfold FlaskApp.predict. py_unfold. cbn.
  destruct (is_trained (detector w)); cbn; [|by eexists].
  destruct (FlaskApp.get_json request) as [e|data]; [by eexists|].
  destruct (truthy data); cbn; [|by eexists].
  destruct (py_contains "text" data) as [e|[]]; cbn; try by eexists.
  destruct (py_getitem "text" data) as [e|raw]; [by eexists|].
  destruct (py_strip raw) as [e|text]; [by eexists|].
  destruct (String.eqb text ""); [by eexists|].
  pose proof (predict_frame text w) as Hframe.
  destruct (predict text w) as [w1 [e|[[label ai_prob] human_prob]]];
    cbn in *; subst; by eexists.
Qed.

Lemma fastapi_post_predict_total payload w :
  ∃ resp, FastApiApp.post_predict payload w = (w, inr resp).
Proof.
  unfold FastApiApp.post_predict.
  destruct (FastApiApp.parse_PredictRequest payload) as [e|request];
    [by eexists|].
  unfold FastApiApp.respond, FastApiApp.predict. py_unfold. cbn.
  destruct (is_trained (detector w)); cbn; [|by eexists].
  pose proof (predict_frame (FastApiApp.text request) w) as Hframe.
  destruct (predict _ w) as [w1 [e|[[label ai_prob] human_prob]]];
    cbn in *; subst; by eexists.
Qed.

End HandlerFacts.

(** C4: on a detector that is not marked trained, [predict] raises
    [ValueError("Model not loaded!")] for every text; the Flask surface
    answers every request with status 500 and the error "Model not loaded";
    the FastAPI surface answers every request that reaches its handler with
    status 500 and a detail naming the same error.  Each surface returns a
    response: no exception leaves the handler, and the state is unchanged. *)
Theorem not_trained_is_reported `{Libs : Libraries} (w : World) :
  is_trained (detector w) = false →
  (∀ text, predict text w = (w, inl (ValueError "Model not loaded!")))
  ∧ (∀ request,
       FlaskApp.predict request w
       = (w, inr {| status_code := 500;
                    body := JObj [("error", JStr "Model not loaded")] |}))
  ∧ (∀ request,
       FastApiApp.respond (FastApiApp.predict request) w
       = (w, inr {| status_code := 500;
                    body := JObj [("detail", JStr "500: Model not loaded")] |}))
  ∧ (∀ payload request,
       FastApiApp.parse_PredictRequest payload = inr request →
       FastApiApp.post_predict payload w
       = (w, inr {| status_code := 500;
                    body := JObj [("detail", JStr "500: Model not loaded")] |})).
Proof.
  intros Hno.
  assert (∀ request,
       FastApiApp.respond (FastApiApp.predict request) w
       = (w, inr {| status_code := 500;
                    body := JObj [("detail", JStr "500: Model not loaded")] |}))
    as Hhandler.
  { intros request. unfold FastApiApp.respond, FastApiApp.predict.
    py_unfold. cbn. rewrite Hno. reflexivity. }
  split; [intros text; by apply predict_not_trained|].
  split.
  { intros request. unfold FlaskApp.predict. py_unfold. cbn.
    rewrite Hno. reflexivity. }
  split; [exact Hhandler|].
  intros payload request Hparse. unfold FastApiApp.post_predict.
  rewrite Hparse. apply Hhandler.
Qed.

(** A freshly constructed detector, asked for a prediction. *)
Lemma not_trained_is_reported_witness :
  is_trained (detector (construct (Libs := toy_libraries) ∅)) = false
  ∧ predict (Libs := toy_libraries) "hello" (construct ∅)
    = (construct ∅, inl (ValueError "Model not loaded!")).
Proof.
  split; [reflexivity|].
  exact (proj1 (not_trained_is_reported (Libs := toy_libraries)
                  (construct ∅) eq_refl) "hello").
Defined.

(** C2: the band both HTTP surfaces derive from a certainty is one and the
    same function of the certainty alone: "very_high" when [certainty > 0.8];
    otherwise "high" when [certainty > 0.5]; otherwise "medium" when
    [certainty > 0.2]; otherwise "low".  For a certainty in [0,1] the bands
    are the intervals (0.8,1], (0.5,0.8], (0.2,0.5] and [0,0.2]: the
    comparisons are strict, so 0.8, 0.5 and 0.2 fall in the lower band.  In
    a 200 response of either surface the [confidence] field is this band of
    the certainty [|ai_probability - human_probability|]. *)
Theorem confidence_band `{Libs : Libraries} (certainty : float) :
  let gt x := PrimFloat.ltb x certainty in
  let le x := PrimFloat.leb certainty x in
  FastApiApp.confidence certainty = FlaskApp.confidence certainty
  ∧ (FlaskApp.confidence certainty = "very_high" ↔ gt 0.8%float = true)
  ∧ (FlaskApp.confidence certainty = "high"
     ↔ gt 0.8%float = false ∧ gt 0.5%float = true)
  ∧ (FlaskApp.confidence certainty = "medium"
     ↔ gt 0.8%float = false ∧ gt 0.5%float = false ∧ gt 0.2%float = true)
  ∧ (FlaskApp.confidence certainty = "low"
     ↔ gt 0.8%float = false ∧ gt 0.5%float = false ∧ gt 0.2%float = false)
  ∧ (PrimFloat.leb 0 certainty = true → PrimFloat.leb certainty 1 = true →
     (FlaskApp.confidence certainty = "high"
      ↔ gt 0.5%float = true ∧ le 0.8%float = true)
     ∧ (FlaskApp.confidence certainty = "medium"
        ↔ gt 0.2%float = true ∧ le 0.5%float = true)
     ∧ (FlaskApp.confidence certainty = "low" ↔ le 0.2%float = true))
  ∧ (FlaskApp.confidence 0.9 = "very_high"
     ∧ FlaskApp.confidence 0.8 = "high"
     ∧ FlaskApp.confidence 0.5 = "medium"
     ∧ FlaskApp.confidence 0.2 = "low"
     ∧ FlaskApp.confidence 0 = "low")
  ∧ (∀ request w w' resp,
       FlaskApp.predict request w = (w', inr resp) →
       status_code resp = 200%Z →
       ∃ text label ai_prob human_prob,
         predict text w = (w', inr (label, ai_prob, human_prob))
         ∧ assoc_get "confidence"
             (match body resp with JObj d => d | _ => [] end)
           = Some (JStr (FlaskApp.confidence
                           (PrimFloat.abs (PrimFloat.sub ai_prob human_prob)))))
  ∧ (∀ request w w' d,
       FastApiApp.predict request w = (w', inr d) →
       ∃ label ai_prob human_prob,
         predict (FastApiApp.text request) w
           = (w', inr (label, ai_prob, human_prob))
         ∧ assoc_get "confidence" d
           = Some (JStr (FlaskApp.confidence
                           (PrimFloat.abs (PrimFloat.sub ai_prob human_prob))))).
Proof.
  cbv zeta. unfold FlaskApp.confidence, FastApiApp.confidence.
  split; [done|].
  split; [by repeat case_match; split; try done; intros; destruct_and?|].
  split; [by repeat case_match; split; try done; intros; destruct_and?|].
  split; [by repeat case_match; split; try done; intros; destruct_and?|].
  split; [by repeat case_match; split; try done; intros; destruct_and?|].
  split.
  { intros Hlo _.
    pose proof (float_ltb_false_iff_leb 0.8 certainty Hlo eq_refl) as H8.
    pose proof (float_ltb_false_iff_leb 0.5 certainty Hlo eq_refl) as H5.
    pose proof (float_ltb_false_iff_leb 0.2 certainty Hlo eq_refl) as H2.
    pose proof (λ H, float_leb_below certainty 0.5 0.8 H eq_refl) as H58.
    pose proof (λ H, float_leb_below certainty 0.2 0.5 H eq_refl) as H25.
    pose proof (λ H, float_leb_below certainty 0.2 0.8 H eq_refl) as H28.
    destruct (PrimFloat.ltb 0.8 certainty), (PrimFloat.ltb 0.5 certainty),
      (PrimFloat.ltb 0.2 certainty), (PrimFloat.leb certainty 0.8),
      (PrimFloat.leb certainty 0.5), (PrimFloat.leb certainty 0.2);
      intuition congruence. }
  split; [by vm_compute|].
  split.
  - intros request w w' resp Hrun H200.
    destruct (flask_predict_200_inv _ _ _ _ Hrun H200)
      as (text & label & ai_prob & human_prob & Hpred & _ & _ & Hconf).
    by exists text, label, ai_prob, human_prob.
  - intros request w w' d Hrun.
    destruct (fastapi_predict_returns_inv _ _ _ _ Hrun)
      as (label & ai_prob & human_prob & Hpred & _ & _ & Hconf).
    by exists label, ai_prob, human_prob.
Qed.

(** The boundary certainty 0.8 lies in [0,1] and in the band "high". *)
Lemma confidence_band_witness :
  PrimFloat.leb 0 0.8 = true ∧ PrimFloat.leb 0.8 1 = true
  ∧ (FlaskApp.confidence 0.8 = "high"
     ↔ PrimFloat.ltb 0.5 0.8 = true ∧ PrimFloat.leb 0.8 0.8 = true).
Proof.
  split; [reflexivity|]. split; [reflexivity|].
  exact (proj1 (proj1 (proj2 (proj2 (proj2 (proj2 (proj2
           (confidence_band (Libs := toy_libraries) 0.8))))))
           eq_refl eq_refl)).
Defined.

(** ** Paths of the artifact files *)

Lemma string_app_nil (b : string) : "" +:+ b = b.
Proof. reflexivity. Qed.

Lemma string_app_cons (x : ascii) (a b : string) :
  String x a +:+ b = String x (a +:+ b).
Proof. reflexivity. Qed.

Lemma string_app_assoc (a b c : string) : (a +:+ b) +:+ c = a +:+ (b +:+ c).
Proof.
  induction a as [|x a IH]; [done|].
  by rewrite !string_app_cons, IH.
Qed.

Lemma files_cases f :
  f ∈ files →
  f = "vectorizer.joblib" ∨ f = "classifier.joblib" ∨ f = "config.joblib".
Proof.
  unfold files. rewrite !elem_of_cons, elem_of_nil. tauto.
Qed.

Lemma path_join_artifact model_dir f :
  f ∈ files → path_join model_dir f = path_prefix model_dir +:+ f.
Proof.
  unfold path_join, path_prefix.
  intros [->|[->| ->]]%files_cases;
    destruct (String.eqb model_dir "" || ends_with_sep model_dir);
    cbn; try done; by rewrite string_app_assoc.
Qed.

(** The three artifacts of one directory are three different paths. *)
Lemma path_join_artifact_inj model_dir f g :
  f ∈ files → g ∈ files →
  path_join model_dir f = path_join model_dir g → f = g.
Proof.
  intros Hf Hg. rewrite !path_join_artifact by done.
  apply String.app_inj.
Qed.

Lemma str_suffix_app q f : str_suffix f (q +:+ f) = true.
Proof.
  induction q as [|c q IH].
  - rewrite string_app_nil.
    destruct f; cbn [str_suffix]; by rewrite ?String.eqb_refl.
  - rewrite string_app_cons. cbn. rewrite IH. by rewrite orb_true_r.
Qed.

(** Two strings with a common end: one of the ends is an end of the other. *)
Lemma app_eq_suffix p1 p2 f1 f2 :
  p1 +:+ f1 = p2 +:+ f2 →
  str_suffix f1 f2 = true ∨ str_suffix f2 f1 = true.
Proof.
  revert p2. induction p1 as [|c p1 IH]; intros p2 Heq.
  - right. rewrite string_app_nil in Heq. subst f1. apply str_suffix_app.
  - destruct p2 as [|c' p2].
    + left. rewrite string_app_nil in Heq. subst f2. apply str_suffix_app.
    + rewrite !string_app_cons in Heq. injection Heq as _ Heq.
      by apply IH in Heq.
Qed.

(** Artifacts of any two directories: equal paths carry the same file name. *)
Lemma path_join_artifact_name d1 d2 f g :
  f ∈ files → g ∈ files →
  path_join d1 f = path_join d2 g → f = g.
Proof.
  intros Hf Hg. rewrite !path_join_artifact by done. intros Heq.
  apply app_eq_suffix in Heq.
  apply files_cases in Hf as [->|[->| ->]];
    apply files_cases in Hg as [->|[->| ->]]; try done;
    vm_compute in Heq; by destruct Heq.
Qed.

(** C6: [model_exists] answers true exactly when the model directory holds
    all three artifact files, [vectorizer.joblib], [classifier.joblib] and
    [config.joblib]; once any one of them is deleted it answers false,
    whatever else the disk holds.  The call reads the disk and changes
    nothing. *)
Theorem model_exists_all_three `{Libs : Libraries}
    (fs : gmap string Node) (model_dir : string) :
  (model_exists_on fs model_dir = true
   ↔ is_Some (fs !! path_join model_dir "vectorizer.joblib")
     ∧ is_Some (fs !! path_join model_dir "classifier.joblib")
     ∧ is_Some (fs !! path_join model_dir "config.joblib"))
  ∧ (∀ f, f ∈ files →
       model_exists_on (delete (path_join model_dir f) fs) model_dir = false)
  ∧ (∀ d, model_exists model_dir {| detector := d; disk := fs |}
          = ({| detector := d; disk := fs |},
             inr (model_exists_on fs model_dir))).
Proof.
  split; [|split].
  - unfold model_exists_on, files, os_path_exists. cbn [forallb].
    rewrite !andb_true_iff, !bool_decide_eq_true. tauto.
  - intros f Hf.
    destruct (model_exists_on _ _) eqn:Hall; [|done].
    unfold model_exists_on in Hall.
    rewrite forallb_forall in Hall.
    specialize (Hall f (proj1 (list_elem_of_In _ _) Hf)).
    unfold os_path_exists in Hall.
    rewrite lookup_delete_eq in Hall.
    apply bool_decide_eq_true in Hall. by destruct Hall.
  - done.
Qed.

Section RoundTripFacts.
Context `{Libs : Libraries}.

(** A returning [joblib.dump] has written the pickle at its path. *)
Lemma joblib_dump_returns_inv o p w w' u :
  joblib_dump o p w = (w', inr u) →
  w' = {| detector := detector w; disk := <[p:=Joblib o]> (disk w) |}.
Proof.
  unfold joblib_dump. py_unfold. cbn.
  destruct (disk w !! p) as [[|?|?|]|]; cbn; congruence.
Qed.

(** A returning [os.makedirs] has changed the disk only. *)
Lemma os_makedirs_returns_inv p w w' u :
  os_makedirs p w = (w', inr u) → detector w' = detector w.
Proof.
  unfold os_makedirs. py_unfold. cbn.
  destruct (disk w !! p) as [[|?|?|]|]; cbn; try done; by intros [= <-].
Qed.

(** What a returning [save_model] has written: the three artifacts, over the
    disk as it was or with the directory added. *)
Lemma save_model_returns_inv model_dir w w1 u :
  save_model model_dir w = (w1, inr u) →
  detector w1 = detector w
  ∧ ∃ fs0,
      disk w1
      = <[path_join model_dir "config.joblib" :=
            Joblib (PyConfig (config_of (detector w)))]>
          (<[path_join model_dir "classifier.joblib" :=
               Joblib (classifier (detector w))]>
             (<[path_join model_dir "vectorizer.joblib" :=
                  Joblib (vectorizer (detector w))]> fs0)).
Proof.
  unfold save_model. unfold mbind at 1, Py_bind at 1.
  destruct (os_makedirs model_dir w) as [wa [e|[]]] eqn:Hmk; [done|].
  apply os_makedirs_returns_inv in Hmk as <-.
  unfold mbind at 1, Py_bind at 1, get_self.
  unfold mbind at 1, Py_bind at 1.
  destruct (joblib_dump _ _ wa) as [wb [e|[]]] eqn:Hv; [done|].
  apply joblib_dump_returns_inv in Hv as ->.
  unfold mbind at 1, Py_bind at 1.
  destruct (joblib_dump _ _ _) as [wc [e|[]]] eqn:Hc; [done|].
  apply joblib_dump_returns_inv in Hc as ->.
  intros Hg. apply joblib_dump_returns_inv in Hg as ->. cbn.
  split; [done|]. by exists (disk wa).
Qed.

(** [predict] reads [is_trained], [vectorizer] and [classifier] only. *)
Lemma predict_reads text w1 w2 :
  is_trained (detector w1) = is_trained (detector w2) →
  vectorizer (detector w1) = vectorizer (detector w2) →
  classifier (detector w1) = classifier (detector w2) →
  (predict text w1).2 = (predict text w2).2.
Proof.
  intros Ht Hv Hc. unfold predict. py_unfold. cbn.
  rewrite Ht, Hv, Hc.
  destruct (is_trained (detector w2)); cbn; [|done].
  predict_calls; done.
Qed.

End RoundTripFacts.

(** C7: after a trained detector has saved its model to a directory, loading
    that directory into another detector instance (a fresh one in
    particular) succeeds and restores the very vectorizer and classifier
    objects and the three saved hyperparameters; the loaded detector then
    gives, for every text, the outcome of the original: the same label and
    the same two probabilities, or the same exception. *)
Theorem save_load_round_trip `{Libs : Libraries}
    (w w1 : World) (model_dir : string) (d0 : AITextDetector) :
  is_trained (detector w) = true →
  save_model model_dir w = (w1, inr tt) →
  ∃ w2,
    load_model model_dir {| detector := d0; disk := disk w1 |} = (w2, inr tt)
    ∧ is_trained (detector w2) = true
    ∧ vectorizer (detector w2) = vectorizer (detector w)
    ∧ classifier (detector w2) = classifier (detector w)
    ∧ max_features (detector w2) = max_features (detector w)
    ∧ ngram_range (detector w2) = ngram_range (detector w)
    ∧ alpha (detector w2) = alpha (detector w)
    ∧ disk w2 = disk w1
    ∧ ∀ text, (predict text w2).2 = (predict text w).2.
Proof.
  intros Htrained Hsave.
  destruct (save_model_returns_inv _ _ _ _ Hsave) as (Hdet & fs0 & Hdisk).
  assert (path_join model_dir "config.joblib"
          ≠ path_join model_dir "vectorizer.joblib") as Hgv.
  { intros Heq. apply path_join_artifact_inj in Heq; [done| |];
      unfold files; set_solver. }
  assert (path_join model_dir "classifier.joblib"
          ≠ path_join model_dir "vectorizer.joblib") as Hcv.
  { intros Heq. apply path_join_artifact_inj in Heq; [done| |];
      unfold files; set_solver. }
  assert (path_join model_dir "config.joblib"
          ≠ path_join model_dir "classifier.joblib") as Hgc.
  { intros Heq. apply path_join_artifact_inj in Heq; [done| |];
      unfold files; set_solver. }
  unfold load_model, joblib_load.
  set (pv := path_join model_dir "vectorizer.joblib") in *.
  set (pc := path_join model_dir "classifier.joblib") in *.
  set (pg := path_join model_dir "config.joblib") in *.
  clearbody pv pc pg.
  py_unfold. cbn.
  rewrite Hdisk.
  rewrite (lookup_insert_ne _ pg pv) by done.
  rewrite (lookup_insert_ne _ pc pv) by done.
  rewrite lookup_insert_eq. cbn.
  rewrite (lookup_insert_ne _ pg pc) by done.
  rewrite lookup_insert_eq. cbn.
  rewrite lookup_insert_eq. cbn.
  eexists. split; [reflexivity|]. cbn.
  repeat (split; [done|]).
  intros text. apply predict_reads; cbn; by rewrite ?Htrained.
Qed.

(** The trained toy detector, saved to [model] and loaded into a fresh
    instance. *)
Lemma save_load_round_trip_witness :
  let w1 := (save_model (Libs := toy_libraries) "model" toy_trained).1 in
  is_trained (detector toy_trained) = true
  ∧ save_model "model" toy_trained = (w1, inr tt)
  ∧ ∃ w2, load_model "model" (construct (disk w1)) = (w2, inr tt)
          ∧ (predict "hello AI" w2).2 = inr ("AI", 0.875%float, 0.125%float).
Proof.
  cbv zeta.
  assert (save_model (Libs := toy_libraries) "model" toy_trained
          = ((save_model (Libs := toy_libraries) "model" toy_trained).1, inr tt))
    as Hsave by (vm_compute; reflexivity).
  split; [reflexivity|]. split; [exact Hsave|].
  destruct (save_load_round_trip (Libs := toy_libraries) toy_trained _ "model"
              init eq_refl Hsave)
    as (w2 & Hload & _ & _ & _ & _ & _ & _ & _ & Hsame).
  exists w2. split; [exact Hload|].
  rewrite Hsame. vm_compute. reflexivity.
Defined.

Section TrainFacts.
Context `{Libs : Libraries}.

(** [train] depends on the training file and the five hyperparameters, not
    on the models or the flag the detector held before. *)
Lemma train_reads filepath test_size w1 w2 :
  disk w1 !! filepath = disk w2 !! filepath →
  same_hyperparameters (detector w1) (detector w2) →
  (train filepath test_size w1).2 = (train filepath test_size w2).2
  ∧ (∀ accuracy,
       (train filepath test_size w1).2 = inr accuracy →
       detector (train filepath test_size w1).1
       = detector (train filepath test_size w2).1).
Proof.
  destruct w1 as [[mf1 ng1 a1 mi1 ma1 v1 c1 t1] fs1].
  destruct w2 as [[mf2 ng2 a2 mi2 ma2 v2 c2 t2] fs2].
  unfold same_hyperparameters. cbn.
  intros Hfile (-> & -> & -> & -> & ->).
  unfold train, read_csv. py_unfold. cbn. rewrite Hfile.
  train_calls fs2 filepath; done.
Qed.

(** [train] never writes to the disk nor to a hyperparameter. *)
Lemma train_frame filepath test_size w :
  disk (train filepath test_size w).1 = disk w
  ∧ same_hyperparameters (detector (train filepath test_size w).1) (detector w).
Proof.
  destruct w as [[mf ng a mi ma v c t] fs].
  unfold same_hyperparameters, train, read_csv. py_unfold. cbn.
  train_calls fs filepath; done.
Qed.

End TrainFacts.

Section TrainRuns.
Context `{Libs : Libraries}.

Lemma train_with_library_split :
  train_with train_test_split = train.
Proof. reflexivity. Qed.

(** Two runs of [train] whose splits agree on the call [train] makes: from
    the same file and the same hyperparameters they take every step alike. *)
Lemma train_with_reads split1 split2 filepath test_size w1 w2 :
  (∀ X y, split1 X y test_size 42%Z y = split2 X y test_size 42%Z y) →
  disk w1 !! filepath = disk w2 !! filepath →
  same_hyperparameters (detector w1) (detector w2) →
  (train_with split1 filepath test_size w1).2
  = (train_with split2 filepath test_size w2).2
  ∧ (∀ accuracy,
       (train_with split1 filepath test_size w1).2 = inr accuracy →
       detector (train_with split1 filepath test_size w1).1
       = detector (train_with split2 filepath test_size w2).1).
Proof.
  destruct w1 as [[mf1 ng1 a1 mi1 ma1 v1 c1 t1] fs1].
  destruct w2 as [[mf2 ng2 a2 mi2 ma2 v2 c2 t2] fs2].
  unfold same_hyperparameters. cbn.
  intros Hsplit Hfile (-> & -> & -> & -> & ->).
  unfold train_with, read_csv. py_unfold. cbn. rewrite Hfile.
  destruct (fs2 !! filepath) as [[|?|?|]|]; cbn; try done.
  destruct (df_getitem _ "text"); cbn; [done|].
  destruct (df_getitem _ "generated"); cbn; [done|].
  destruct (astype_int _) as [|y]; cbn; [done|].
  destruct (fit_transform _ _) as [|[vocab X]]; cbn; [done|].
  rewrite (Hsplit X y).
  destruct (split2 X y test_size 42%Z y) as [|[[[? ?] ?] ?]]; cbn; [done|].
  destruct (fit _ _ _ _); cbn; [done|].
  destruct (nb_predict _ _); cbn; [done|].
  destruct (accuracy_score _ _); cbn; [done|].
  destruct (classification_report _ _ _); cbn; [done|].
  destruct (confusion_matrix _ _) as [|cm]; cbn; [done|].
  destruct (list_getitem cm 0) as [|row0]; cbn; [done|].
  destruct (list_getitem row0 0); cbn; [done|].
  destruct (list_getitem row0 1); cbn; [done|].
  destruct (list_getitem cm 1) as [|row1]; cbn; [done|].
  destruct (list_getitem row1 0); cbn; [done|].
  destruct (list_getitem row1 1); cbn; done.
Qed.

End TrainRuns.

(** C8: two runs of [train] on the same training file, by detectors with the
    same hyperparameters, of which the later finds a [train_test_split] that
    answers as the earlier one did on the calls with seed 42 and the labels
    as [stratify] (the reproducibility of a seeded split), whatever it
    answers on other calls: both report the same accuracy or raise the same
    exception; when they return they leave equal detectors, so [save_model]
    writes the same three artifacts from either.  In particular a second run
    in a row on one detector repeats the first: same accuracy, same
    resulting state. *)
Theorem train_twice_same_result `{Libs : Libraries}
    (later_split : Matrix → list Z → float → Z → list Z →
                   PyExc + (Matrix * Matrix * list Z * list Z))
    (w1 w2 : World) (filepath : string) (test_size : float) :
  (∀ X y, later_split X y test_size 42%Z y
          = train_test_split X y test_size 42%Z y) →
  disk w1 !! filepath = disk w2 !! filepath →
  same_hyperparameters (detector w1) (detector w2) →
  let r1 := train filepath test_size w1 in
  let r2 := train_with later_split filepath test_size w2 in
  let r3 := train_with later_split filepath test_size r1.1 in
  r1.2 = r2.2
  ∧ (∀ accuracy, r1.2 = inr accuracy →
       detector r1.1 = detector r2.1
       ∧ ∀ model_dir fs,
           save_model model_dir {| detector := detector r1.1; disk := fs |}
           = save_model model_dir {| detector := detector r2.1; disk := fs |})
  ∧ r3.2 = r1.2
  ∧ (∀ accuracy, r1.2 = inr accuracy → r3.1 = r1.1).
Proof.
  intros Hsplit Hfile Hhyper. cbv zeta.
  assert (∀ X y, train_test_split X y test_size 42%Z y
                 = later_split X y test_size 42%Z y) as Hsplit'
    by (intros X y; by rewrite Hsplit).
  rewrite <- train_with_library_split.
  destruct (train_with_reads train_test_split later_split filepath test_size
              w1 w2 Hsplit' Hfile Hhyper) as [Hres Hdet].
  rewrite train_with_library_split in *.
  destruct (train_frame filepath test_size w1) as [Hdisk1 Hhyper1].
  assert (disk (train filepath test_size w1).1 !! filepath
          = disk w1 !! filepath) as Hfile1 by by rewrite Hdisk1.
  destruct (train_with_reads later_split train_test_split filepath test_size
              _ w1 Hsplit Hfile1 Hhyper1) as [Hres3 Hdet3].
  rewrite train_with_library_split in *.
  assert (disk (train_with later_split filepath test_size
                  (train filepath test_size w1).1).1
          = disk (train filepath test_size w1).1) as Hdisk3.
  { generalize (train filepath test_size w1).1. intros w.
    destruct w as [[mf ng a mi ma v c t] fs].
    unfold train_with, read_csv. py_unfold. cbn.
    destruct (fs !! filepath) as [[|?|?|]|]; cbn; try done.
    destruct (df_getitem _ "text"); cbn; [done|].
    destruct (df_getitem _ "generated"); cbn; [done|].
    destruct (astype_int _); cbn; [done|].
    destruct (fit_transform _ _) as [|[? ?]]; cbn; [done|].
    destruct (later_split _ _ _ _ _) as [|[[[? ?] ?] ?]]; cbn; [done|].
    destruct (fit _ _ _ _); cbn; [done|].
    destruct (nb_predict _ _); cbn; [done|].
    destruct (accuracy_score _ _); cbn; [done|].
    destruct (classification_report _ _ _); cbn; [done|].
    destruct (confusion_matrix _ _) as [|cm]; cbn; [done|].
    destruct (list_getitem cm 0) as [|row0]; cbn; [done|].
    destruct (list_getitem row0 0); cbn; [done|].
    destruct (list_getitem row0 1); cbn; [done|].
    destruct (list_getitem cm 1) as [|row1]; cbn; [done|].
    destruct (list_getitem row1 0); cbn; [done|].
    destruct (list_getitem row1 1); cbn; done. }
  split; [exact Hres|].
  split.
  { intros accuracy Hacc. rewrite (Hdet accuracy Hacc). done. }
  split; [exact Hres3|].
  intros accuracy Hacc.
  rewrite Hres3 in Hdet3. specialize (Hdet3 accuracy Hacc).
  destruct (train_with later_split filepath test_size
              (train filepath test_size w1).1).1 as [d3 fs3].
  destruct (train filepath test_size w1).1 as [d1 fs1].
  cbn in *. by subst.
Qed.

(** The toy file, trained on by a fresh detector and, in a later run whose
    split is reproducible at seed 42 only, by a trained one. *)
Lemma train_twice_same_result_witness :
  (∀ X y, toy_later_split X y 0.2 42%Z y
          = train_test_split (Libraries := toy_libraries) X y 0.2 42%Z y)
  ∧ disk (construct toy_disk) !! "data.csv" = disk toy_trained !! "data.csv"
  ∧ same_hyperparameters (detector (construct toy_disk)) (detector toy_trained)
  ∧ (train (Libs := toy_libraries) "data.csv" 0.2 (construct toy_disk)).2
    = (train_with (Libs := toy_libraries) toy_later_split "data.csv" 0.2
         toy_trained).2.
Proof.
  assert (∀ X y, toy_later_split X y 0.2 42%Z y
                 = train_test_split (Libraries := toy_libraries)
                     X y 0.2 42%Z y) as Hsplit
    by (intros X y; reflexivity).
  assert (disk (construct toy_disk) !! "data.csv"
          = disk toy_trained !! "data.csv") as Hfile
    by (vm_compute; reflexivity).
  assert (same_hyperparameters (detector (construct toy_disk))
            (detector toy_trained)) as Hhyper
    by (vm_compute; repeat split; reflexivity).
  split; [exact Hsplit|]. split; [exact Hfile|]. split; [exact Hhyper|].
  exact (proj1 (train_twice_same_result (Libs := toy_libraries)
                  toy_later_split (construct toy_disk) toy_trained
                  "data.csv" 0.2 Hsplit Hfile Hhyper)).
Defined.

(** C5, as stated, fails on the Flask surface: a request whose text is
    blank, sent while no model is loaded, is answered with 500, not with a
    400-class status. *)
Lemma flask_blank_text_without_model_is_500 :
  ¬ (∀ (Libs : Libraries) (w : World) (request : FlaskApp.Request) payload,
       FlaskApp.get_json request = inr payload →
       lacks_text payload →
       ∃ resp, FlaskApp.predict request w = (w, inr resp)
               ∧ (400 ≤ status_code resp < 500)%Z).
Proof.
  intros Hclaim.
  destruct (Hclaim toy_libraries (construct ∅)
              {| FlaskApp.get_json := inr (JObj [("text", JStr "   ")]) |}
              (JObj [("text", JStr "   ")]) eq_refl) as (resp & Hrun & Hstatus).
  { right. eexists. split; [reflexivity|]. right. by exists "   ". }
  vm_compute in Hrun. injection Hrun as <-. cbn in Hstatus. lia.
Qed.

(** C5, amended: for a body that parses as JSON to [null], to an object
    without a [text] field or to an object whose [text] is a string of
    whitespace only, the FastAPI surface answers 422, with the framework's
    validation errors as [detail], whether or not a model is loaded; the
    Flask surface, whose [get_json] returns that value, answers 400 with an
    [error] message when a model is loaded and, when none is, answers 500
    "Model not loaded", since it tests the model before it reads the body.
    The state is left unchanged throughout. *)
Theorem lacking_text_is_rejected `{Libs : Libraries}
    (w : World) (payload : Json) :
  lacks_text payload →
  FastApiApp.post_predict payload w
  = (w, inr {| status_code := 422;
               body := JObj [("detail", validation_errors payload)] |})
  ∧ (∀ request,
       FlaskApp.get_json request = inr payload →
       if is_trained (detector w)
       then ∃ msg,
              FlaskApp.predict request w
              = (w, inr {| status_code := 400;
                           body := JObj [("error", JStr msg)] |})
       else FlaskApp.predict request w
            = (w, inr {| status_code := 500;
                         body := JObj [("error", JStr "Model not loaded")] |})).
Proof.
  intros Hlacks. split.
  - unfold FastApiApp.post_predict, FastApiApp.parse_PredictRequest.
    destruct Hlacks as [->|(fs & -> & [Hnone|(s & Hsome & Hblank)])].
    + reflexivity.
    + by rewrite Hnone.
    + rewrite Hsome. unfold FastApiApp.text_not_empty. by rewrite Hblank.
  - intros request Hjson. unfold FlaskApp.predict. py_unfold. cbn.
    destruct (is_trained (detector w)); cbn; [|done].
    rewrite Hjson.
    destruct Hlacks as [->|(fs & -> & [Hnone|(s & Hsome & Hblank)])].
    + eexists. reflexivity.
    + destruct (truthy (JObj fs)); cbn -[assoc_get]; [|eexists; reflexivity].
      rewrite Hnone. rewrite bool_decide_eq_false_2 by by intros [? ?].
      cbn. eexists. reflexivity.
    + assert (truthy (JObj fs) = true) as -> by by destruct fs.
      cbn -[assoc_get].
      rewrite Hsome. rewrite bool_decide_eq_true_2 by eauto.
      cbn. rewrite Hblank. cbn. eexists. reflexivity.
Qed.

(** A blank text sent to both surfaces of the trained toy detector. *)
Lemma lacking_text_is_rejected_witness :
  lacks_text (JObj [("text", JStr "   ")])
  ∧ ∃ msg,
      FlaskApp.predict (Libs := toy_libraries)
        {| FlaskApp.get_json := inr (JObj [("text", JStr "   ")]) |} toy_trained
      = (toy_trained,
         inr {| status_code := 400; body := JObj [("error", JStr msg)] |}).
Proof.
  assert (lacks_text (JObj [("text", JStr "   ")])) as Hlacks.
  { right. eexists. split; [reflexivity|]. right. by exists "   ". }
  split; [exact Hlacks|].
  exact (proj2 (lacking_text_is_rejected (Libs := toy_libraries) toy_trained
                  (JObj [("text", JStr "   ")]) Hlacks)
           {| FlaskApp.get_json := inr (JObj [("text", JStr "   ")]) |}
           eq_refl).
Defined.

Section InvariantFacts.
Context `{Libs : Libraries}.

Lemma artifacts_fitted_empty : artifacts_fitted ∅.
Proof. intros model_dir o. by rewrite !lookup_empty. Qed.

Lemma construct_consistent fs : artifacts_fitted fs → consistent (construct fs).
Proof. intros Hfs. split; [|done]. by intros Htrained. Qed.

(** [train] keeps the invariant when it returns, and when it raises on a
    detector that was not marked trained. *)
Lemma train_consistent filepath test_size w :
  consistent w →
  (is_trained (detector w) = true →
   ∃ accuracy, (train filepath test_size w).2 = inr accuracy) →
  consistent (train filepath test_size w).1.
Proof.
  intros [Hdet Hdisk] Hreturns.
  destruct (train_frame filepath test_size w) as [Hsame _].
  split; [|by rewrite Hsame]. clear Hsame Hdisk.
  destruct w as [[mf ng a mi ma v c t] fs].
  unfold trained_has_models in *. cbn in Hdet, Hreturns.
  revert Hreturns. unfold train, read_csv. py_unfold. cbn.
  assert (∀ (e : PyExc) (P : Prop),
            (t = true → ∃ accuracy : float, inl e = inr accuracy) →
            t = true → P) as Hraise.
  { intros e P Hex Ht. by destruct (Hex Ht). }
  destruct (fs !! filepath) as [[| |df|]|]; cbn; try done.
  destruct (df_getitem df "text"); cbn; [done|].
  destruct (df_getitem df "generated"); cbn; [done|].
  destruct (astype_int _); cbn; [done|].
  destruct (fit_transform _ _) as [|[vocab X]]; cbn; [by apply Hraise|].
  destruct (train_test_split _ _ _ _ _) as [|[[[X_train X_test] y_train] y_test]];
    cbn; [by intros Hr Ht; split; [|apply (Hraise _ _ Hr Ht)]|].
  destruct (fit _ _ _ _) as [|model]; cbn; [by apply Hraise|].
  destruct (nb_predict _ _); cbn; [done|].
  destruct (accuracy_score _ _); cbn; [done|].
  destruct (classification_report _ _ _); cbn; [done|].
  destruct (confusion_matrix _ _) as [|cm]; cbn; [done|].
  destruct (list_getitem cm 0) as [|row0]; cbn; [done|].
  destruct (list_getitem row0 0); cbn; [done|].
  destruct (list_getitem row0 1); cbn; [done|].
  destruct (list_getitem cm 1) as [|row1]; cbn; [done|].
  destruct (list_getitem row1 0); cbn; [done|].
  destruct (list_getitem row1 1); cbn; done.
Qed.

End InvariantFacts.

Section InvariantSteps.
Context `{Libs : Libraries}.

(** [load_model] assigns what it finds on the disk: models that the disk
    invariant makes fitted. *)
Lemma load_model_consistent model_dir w :
  consistent w → consistent (load_model model_dir w).1.
Proof.
  intros [Hdet Hdisk].
  pose proof (λ o, proj1 (Hdisk model_dir o)) as Hv.
  pose proof (λ o, proj2 (Hdisk model_dir o)) as Hc.
  destruct w as [[mf ng a mi ma v c t] fs].
  unfold consistent, trained_has_models in *. cbn in *.
  unfold load_model, joblib_load. py_unfold. cbn.
  destruct (fs !! path_join model_dir "vectorizer.joblib")
    as [[|ov|?|]|] eqn:Hlv; cbn; try done.
  specialize (Hv ov eq_refl).
  destruct (fs !! path_join model_dir "classifier.joblib")
    as [[|oc|?|]|] eqn:Hlc; cbn; try (split; [|done]; intros Ht; by destruct (Hdet Ht)).
  specialize (Hc oc eq_refl).
  destruct (fs !! path_join model_dir "config.joblib")
    as [[|og|?|]|] eqn:Hlg; cbn; try done.
  destruct (config_getitem og _ cfg_max_features); cbn; [done|].
  destruct (config_getitem og _ cfg_ngram_range); cbn; [done|].
  destruct (config_getitem og _ cfg_alpha); cbn; done.
Qed.

(** [os.makedirs] adds no pickle. *)
Lemma os_makedirs_consistent p w :
  consistent w →
  consistent (os_makedirs p w).1
  ∧ detector (os_makedirs p w).1 = detector w.
Proof.
  intros [Hdet Hdisk]. unfold os_makedirs. py_unfold. cbn.
  destruct (disk w !! p) as [[|?|?|]|] eqn:Hp; cbn; try done.
  split; [|done]. split; [done|].
  intros model_dir o. cbn.
  split; intros Hlook; apply lookup_insert_Some in Hlook as [[_ ?]|[_ Hlook]];
    try done; by apply (Hdisk model_dir o).
Qed.

(** [joblib.dump] keeps the disk invariant when the object suits the name
    it is written under. *)
Lemma joblib_dump_consistent o p w :
  (∀ model_dir, p = path_join model_dir "vectorizer.joblib" →
                is_fitted_vectorizer o = true) →
  (∀ model_dir, p = path_join model_dir "classifier.joblib" →
                is_fitted_classifier o = true) →
  consistent w →
  consistent (joblib_dump o p w).1
  ∧ detector (joblib_dump o p w).1 = detector w.
Proof.
  intros Hvec Hclf [Hdet Hdisk]. unfold joblib_dump. py_unfold. cbn.
  assert (consistent {| detector := detector w;
                        disk := <[p:=Joblib o]> (disk w) |}) as Hnew.
  { split; [done|]. intros model_dir o'. cbn.
    split; intros Hlook;
      apply lookup_insert_Some in Hlook as [[Hp [= <-]]|[_ Hlook]];
      try (by apply (Hdisk model_dir o')); eauto. }
  destruct (disk w !! p) as [[|?|?|]|] eqn:Hp; cbn; done.
Qed.

(** [save_model] on a detector marked trained writes fitted models. *)
Lemma save_model_consistent model_dir w :
  consistent w →
  is_trained (detector w) = true →
  consistent (save_model model_dir w).1.
Proof.
  intros Hw Htrained.
  unfold save_model. unfold mbind at 1, Py_bind at 1.
  destruct (os_makedirs_consistent model_dir w Hw) as [Hw1 Hd1].
  destruct (os_makedirs model_dir w) as [w1 [e|[]]]; cbn in *; [done|].
  unfold mbind at 1, Py_bind at 1, get_self. cbn.
  destruct Hw as [Hdet _]. destruct (Hdet Htrained) as [Hfv Hfc].
  rewrite <- Hd1 in Hfv, Hfc.
  unfold mbind at 1, Py_bind at 1.
  destruct (joblib_dump_consistent (vectorizer (detector w1))
              (path_join model_dir "vectorizer.joblib") w1) as [Hw2 Hd2];
    [done| |done|].
  { intros d Heq. apply path_join_artifact_name in Heq; [done| |];
      unfold files; set_solver. }
  destruct (joblib_dump _ _ w1) as [w2 [e|[]]]; cbn in *; [done|].
  unfold mbind at 1, Py_bind at 1.
  destruct (joblib_dump_consistent (classifier (detector w1))
              (path_join model_dir "classifier.joblib") w2) as [Hw3 Hd3];
    [|done|done|].
  { intros d Heq. apply path_join_artifact_name in Heq; [done| |];
      unfold files; set_solver. }
  destruct (joblib_dump _ _ w2) as [w3 [e|[]]]; cbn in *; [done|].
  match goal with
  | |- consistent (joblib_dump ?o ?p w3).1 =>
      destruct (joblib_dump_consistent o p w3) as [Hw4 _]; [| |done|done]
  end.
  - intros d Heq. apply path_join_artifact_name in Heq; [done| |];
      unfold files; set_solver.
  - intros d Heq. apply path_join_artifact_name in Heq; [done| |];
      unfold files; set_solver.
Qed.

Lemma step_consistent op w :
  consistent w → allowed op w → consistent (step op w).
Proof.
  intros Hw Hop. destruct op as [filepath test_size|model_dir|model_dir|text];
    cbn in *.
  - by apply train_consistent.
  - by apply save_model_consistent.
  - by apply load_model_consistent.
  - by rewrite predict_frame.
Qed.

Lemma run_consistent ops w :
  consistent w → disciplined ops w → consistent (run ops w).
Proof.
  revert w. induction ops as [|op ops IH]; intros w Hw Hops; [done|].
  destruct Hops as [Hop Hops]. cbn.
  apply IH; [by apply step_consistent|done].
Qed.

(** A fitted vectorizer and a fitted classifier are library objects: the
    method calls of [predict] go to the library. *)
Lemma fitted_calls_reach_library (d : AITextDetector) :
  is_fitted_vectorizer (vectorizer d) = true →
  is_fitted_classifier (classifier d) = true →
  ∃ v vocab c model,
    vectorizer d = PyTfidf v ∧ tv_fitted v = Some vocab
    ∧ classifier d = PyNB c ∧ nb_fitted c = Some model
    ∧ (∀ texts, call_transform (vectorizer d) texts
                = transform (tv_params v) vocab texts)
    ∧ (∀ X, call_predict_proba (classifier d) X = predict_proba model X)
    ∧ attr_classes_ (classifier d) = inr (classes_ model).
Proof.
  destruct (vectorizer d) as [|v| |]; cbn; try done.
  destruct (classifier d) as [| |c|]; cbn; try done.
  intros [vocab Hv]%bool_decide_eq_true [model Hm]%bool_decide_eq_true.
  exists v, vocab, c, model. rewrite Hv, Hm. done.
Qed.

End InvariantSteps.

(** C10, as stated, fails: saving before any training pickles the empty
    attributes, and loading them marks the detector trained while its
    vectorizer and classifier are both [None]. *)
Lemma save_then_load_untrained_marks_trained :
  ¬ (∀ (Libs : Libraries) (ops : list Op),
       let w := run ops (construct ∅) in
       is_trained (detector w) = true →
       vectorizer (detector w) ≠ PyNone ∧ classifier (detector w) ≠ PyNone).
Proof.
  intros Hclaim.
  destruct (Hclaim toy_libraries [OpSave "model"; OpLoad "model"]) as [Hv _].
  - vm_compute. reflexivity.
  - apply Hv. vm_compute. reflexivity.
Qed.

(** A second way to a trained detector without a fitted model, which the
    discipline of sequences excludes: a detector already marked trained
    keeps the mark when a later [train] raises after it has replaced the
    vectorizer by a new, unfitted one. *)
Lemma failed_retrain_leaves_unfitted_vectorizer :
  let fs : gmap string (Node (Libs := toy_libraries)) :=
    <["empty.csv" := Csv {| columns := {[ "text" := []; "generated" := [] ]} |}]>
      toy_disk in
  let w := run [OpTrain "data.csv" 0.2; OpTrain "empty.csv" 0.2] (construct fs) in
  is_trained (detector w) = true
  ∧ is_fitted_vectorizer (vectorizer (detector w)) = false
  ∧ (predict "hello" w).2
    = inl (NotFittedError "The TF-IDF vectorizer is not fitted").
Proof. vm_compute. done. Qed.

(** C10, amended: start from a constructed detector, on a disk whose
    artifact files, if any, hold fitted models; run any sequence of [train],
    [save_model], [load_model] and [predict] in which [save_model] is called
    only while the detector is marked trained and no [train] raises on a
    detector already marked trained.  Then whenever [is_trained] is true the
    vectorizer and the classifier are fitted library objects, neither is
    [None], and the method calls of [predict] go to the library. *)
Theorem trained_detector_holds_models `{Libs : Libraries}
    (ops : list Op) (fs : gmap string Node) :
  artifacts_fitted fs →
  disciplined ops (construct fs) →
  let d := detector (run ops (construct fs)) in
  is_trained d = true →
  vectorizer d ≠ PyNone
  ∧ classifier d ≠ PyNone
  ∧ ∃ v vocab c model,
      vectorizer d = PyTfidf v ∧ tv_fitted v = Some vocab
      ∧ classifier d = PyNB c ∧ nb_fitted c = Some model
      ∧ (∀ texts, call_transform (vectorizer d) texts
                  = transform (tv_params v) vocab texts)
      ∧ (∀ X, call_predict_proba (classifier d) X = predict_proba model X)
      ∧ attr_classes_ (classifier d) = inr (classes_ model).
Proof.
  intros Hfs Hops. cbv zeta. intros Htrained.
  destruct (run_consistent ops (construct fs)
              (construct_consistent fs Hfs) Hops) as [Hdet _].
  destruct (Hdet Htrained) as [Hfv Hfc].
  destruct (fitted_calls_reach_library _ Hfv Hfc)
    as (v & vocab & c & model & Hv & Hvocab & Hc & Hmodel & Hcalls).
  split; [by rewrite Hv|]. split; [by rewrite Hc|].
  exists v, vocab, c, model. done.
Qed.

(** Train, save, load into the same detector, predict: a disciplined
    sequence on an empty model directory. *)
Lemma trained_detector_holds_models_witness :
  let ops := [OpTrain "data.csv" 0.2; OpSave "model"; OpLoad "model";
              OpPredict "hello"] in
  artifacts_fitted toy_disk
  ∧ disciplined (Libs := toy_libraries) ops (construct toy_disk)
  ∧ is_trained (detector (run ops (construct toy_disk))) = true
  ∧ vectorizer (detector (run ops (construct toy_disk))) ≠ PyNone.
Proof.
  cbv zeta.
  assert (artifacts_fitted (Libs := toy_libraries) toy_disk) as Hfs.
  { intros model_dir o. unfold toy_disk.
    split; intros Hlook; apply lookup_singleton_Some in Hlook as [_ [=]]. }
  assert (disciplined (Libs := toy_libraries)
            [OpTrain "data.csv" 0.2; OpSave "model"; OpLoad "model";
             OpPredict "hello"] (construct toy_disk)) as Hops.
  { cbn. split; [by intros [=]|]. split; [by vm_compute|]. done. }
  assert (is_trained (detector (run (Libs := toy_libraries)
            [OpTrain "data.csv" 0.2; OpSave "model"; OpLoad "model";
             OpPredict "hello"] (construct toy_disk))) = true) as Htrained
    by (vm_compute; reflexivity).
  split; [exact Hfs|]. split; [exact Hops|]. split; [exact Htrained|].
  exact (proj1 (trained_detector_holds_models (Libs := toy_libraries)
                  _ toy_disk Hfs Hops Htrained)).
Defined.

(** * Further properties of the program *)

Set Warnings "-clear-no-such-hyp".

(** ** Python strings: [strip] and [split] *)

Lemma string_app_nil_r (s : string) : s +:+ "" = s.
Proof.
  induction s as [|c s IH]; [done|]. by rewrite string_app_cons, IH.
Qed.

Lemma rev_app_app (s t u : string) :
  String.rev_app s t +:+ u = String.rev_app s (t +:+ u).
Proof.
  revert t. induction s as [|c s IH]; intros t; cbn; [done|].
  by rewrite IH, string_app_cons.
Qed.

Lemma rev_cons (c : ascii) (s : string) :
  String.rev (String c s) = String.rev s +:+ String c "".
Proof.
  unfold String.rev. cbn. by rewrite rev_app_app, string_app_nil.
Qed.

Lemma rev_app_distr (s t : string) :
  String.rev (s +:+ t) = String.rev t +:+ String.rev s.
Proof.
  induction s as [|c s IH].
  - by rewrite string_app_nil, string_app_nil_r.
  - by rewrite string_app_cons, !rev_cons, IH, string_app_assoc.
Qed.

Lemma rev_involutive (s : string) : String.rev (String.rev s) = s.
Proof.
  induction s as [|c s IH]; [done|].
  by rewrite rev_cons, rev_app_distr, IH.
Qed.

Lemma all_space_app (s t : string) :
  all_space (s +:+ t) = all_space s && all_space t.
Proof.
  induction s as [|c s IH]; [done|].
  rewrite string_app_cons. cbn. by rewrite IH, andb_assoc.
Qed.

Lemma all_space_rev (s : string) : all_space (String.rev s) = all_space s.
Proof.
  induction s as [|c s IH]; [done|].
  rewrite rev_cons, all_space_app, IH. cbn.
  by rewrite andb_true_r, andb_comm.
Qed.

(** [lstrip] removes a run of whitespace from the front and stops at the
    first other character. *)
Lemma lstrip_decomp (s : string) :
  ∃ a, s = a +:+ lstrip s ∧ all_space a = true.
Proof.
  induction s as [|c s (a & Hs & Ha)].
  - by exists "".
  - cbn. destruct (isspace c) eqn:Hc.
    + exists (String c a). rewrite string_app_cons, <- Hs. cbn.
      by rewrite Hc, Ha.
    + by exists "".
Qed.

Lemma lstrip_no_leading_space (s : string) :
  no_leading_space (lstrip s) = true.
Proof.
  induction s as [|c s IH]; [done|]. cbn.
  destruct (isspace c) eqn:Hc; [done|]. cbn. by rewrite Hc.
Qed.

Lemma lstrip_id (s : string) : no_leading_space s = true → lstrip s = s.
Proof.
  destruct s as [|c s]; [done|]. cbn. by destruct (isspace c).
Qed.

Lemma lstrip_empty_iff (s : string) : lstrip s = "" ↔ all_space s = true.
Proof.
  induction s as [|c s IH]; [done|]. cbn.
  destruct (isspace c); cbn; [done|]. split; discriminate.
Qed.

Lemma no_leading_space_app_l (s t : string) :
  no_leading_space (s +:+ t) = true → no_leading_space s = true.
Proof. by destruct s. Qed.

(** [rstrip] removes a run of whitespace from the end. *)
Lemma rstrip_decomp (s : string) :
  ∃ b, s = rstrip s +:+ b ∧ all_space b = true.
Proof.
  destruct (lstrip_decomp (String.rev s)) as (a & Hs & Ha).
  exists (String.rev a). split; [|by rewrite all_space_rev].
  unfold rstrip. rewrite <- rev_app_distr, <- Hs.
  by rewrite rev_involutive.
Qed.

(** [strip] removes whitespace from both ends and nothing else: what is
    left neither starts nor ends with whitespace. *)
Lemma strip_decomp (s : string) :
  ∃ a b, s = a +:+ strip s +:+ b
         ∧ all_space a = true ∧ all_space b = true.
Proof.
  destruct (lstrip_decomp s) as (a & Hs & Ha).
  destruct (rstrip_decomp (lstrip s)) as (b & Ht & Hb).
  exists a, b. unfold strip. by rewrite <- Ht.
Qed.

Lemma strip_no_trailing_space (s : string) :
  no_trailing_space (strip s) = true.
Proof.
  unfold no_trailing_space, strip, rstrip. rewrite rev_involutive.
  apply lstrip_no_leading_space.
Qed.

Lemma strip_no_leading_space (s : string) :
  no_leading_space (strip s) = true.
Proof.
  destruct (rstrip_decomp (lstrip s)) as (b & Ht & _).
  apply (no_leading_space_app_l _ b). unfold strip. rewrite <- Ht.
  apply lstrip_no_leading_space.
Qed.

Lemma strip_id (s : string) :
  no_leading_space s = true → no_trailing_space s = true → strip s = s.
Proof.
  intros Hl Hr. unfold strip, rstrip. rewrite (lstrip_id s Hl).
  rewrite (lstrip_id _ Hr). apply rev_involutive.
Qed.

Lemma strip_idemp (s : string) : strip (strip s) = strip s.
Proof.
  apply strip_id; [apply strip_no_leading_space|apply strip_no_trailing_space].
Qed.

Lemma strip_empty_iff (s : string) : strip s = "" ↔ all_space s = true.
Proof.
  split.
  - intros Hempty. destruct (strip_decomp s) as (a & b & Hs & Ha & Hb).
    rewrite Hs, Hempty, !all_space_app, Ha, Hb. done.
  - intros Hall. apply lstrip_empty_iff in Hall.
    unfold strip. by rewrite Hall.
Qed.

Lemma no_space_app (s t : string) :
  no_space (s +:+ t) = no_space s && no_space t.
Proof.
  induction s as [|c s IH]; [done|].
  rewrite string_app_cons. cbn. by rewrite IH, andb_assoc.
Qed.

Lemma no_space_rev (s : string) : no_space (String.rev s) = no_space s.
Proof.
  induction s as [|c s IH]; [done|].
  rewrite rev_cons, no_space_app, IH. cbn.
  by rewrite andb_true_r, andb_comm.
Qed.

Lemma rev_empty_iff (s : string) : String.rev s = "" ↔ s = "".
Proof.
  split; [|by intros ->]. intros Hrev.
  by rewrite <- (rev_involutive s), Hrev.
Qed.

(** [split] yields no word exactly on whitespace-only text. *)
Lemma split_go_nil_iff (cur s : string) :
  split_go cur s = [] ↔ cur = "" ∧ all_space s = true.
Proof.
  revert cur. induction s as [|c s IH]; intros cur; cbn.
  - destruct cur; [done|]. split; [done|]. by intros [? _].
  - destruct (isspace c); cbn.
    + destruct cur; [apply IH|]. split; [done|]. by intros [? _].
    + rewrite IH. split; [by intros [? _]|by intros [_ ?]].
Qed.

(** The words of [split] are non-empty and free of whitespace. *)
Lemma split_go_words (cur s : string) :
  no_space cur = true →
  Forall (λ word, word ≠ "" ∧ no_space word = true) (split_go cur s).
Proof.
  revert cur. induction s as [|c s IH]; intros cur Hcur; cbn.
  - destruct cur as [|x cur]; [done|]. constructor; [|done].
    split; [by rewrite rev_empty_iff|by rewrite no_space_rev].
  - destruct (isspace c) eqn:Hc.
    + destruct cur as [|x cur]; [by apply IH|].
      constructor; [|by apply IH].
      split; [by rewrite rev_empty_iff|by rewrite no_space_rev].
    + apply IH. cbn. by rewrite Hc, Hcur.
Qed.

(** There are no more words than characters. *)
Lemma split_go_length (cur s : string) :
  length (split_go cur s)
  ≤ (match cur with EmptyString => 0 | _ => 1 end) + String.length s.
Proof.
  revert cur. induction s as [|c s IH]; intros cur; cbn.
  - destruct cur; cbn; lia.
  - destruct (isspace c).
    + pose proof (IH "") as Hs. destruct cur; cbn in *; lia.
    + pose proof (IH (String c cur)) as Hs. destruct cur; cbn in *; lia.
Qed.

(** Whitespace at either end of a text does not change its words. *)
Lemma split_go_leading (a s : string) :
  all_space a = true → split_go "" (a +:+ s) = split_go "" s.
Proof.
  induction a as [|c a IH]; [done|]. rewrite string_app_cons. cbn.
  intros [Hc Ha]%andb_true_iff. rewrite Hc. by apply IH.
Qed.

Lemma split_go_trailing (cur s b : string) :
  all_space b = true → split_go cur (s +:+ b) = split_go cur s.
Proof.
  intros Hb. revert cur. induction s as [|c s IH]; intros cur.
  - rewrite string_app_nil.
    destruct b as [|x b]; [done|]. cbn in Hb.
    apply andb_true_iff in Hb as [Hx Hb].
    assert (split_go "" b = []) as Hnil by by apply split_go_nil_iff.
    cbn. rewrite Hx, Hnil. by destruct cur.
  - rewrite string_app_cons. cbn. rewrite !IH. done.
Qed.

Lemma split_strip (s : string) : split (strip s) = split s.
Proof.
  destruct (strip_decomp s) as (a & b & Hs & Ha & Hb).
  unfold split. rewrite Hs at 2.
  rewrite split_go_leading by done. by rewrite split_go_trailing.
Qed.

Lemma split_nonempty (t : string) :
  t ≠ "" → no_leading_space t = true → split t ≠ [].
Proof.
  intros Ht Hlead Hnil. apply split_go_nil_iff in Hnil as [_ Hall].
  destruct t as [|c t]; [done|]. cbn in *.
  apply andb_true_iff in Hall as [Hc _]. by rewrite Hc in Hlead.
Qed.

Global Arguments strip : simpl never.
Global Arguments split : simpl never.
Global Arguments len_str : simpl never.

(** X1: the validator of [PredictRequest.text] returns the text with the
    whitespace at its two ends removed and nothing else changed: the result
    is not empty and neither starts nor ends with whitespace.  It raises
    [ValueError("Text cannot be empty")] exactly on a text of whitespace
    only (the empty text included), and a text it has returned passes it
    again unchanged. *)
Theorem text_not_empty_trims (v : string) :
  match FastApiApp.text_not_empty v with
  | inl e => e = ValueError "Text cannot be empty" ∧ all_space v = true
  | inr t =>
      all_space v = false
      ∧ t ≠ ""
      ∧ no_leading_space t = true
      ∧ no_trailing_space t = true
      ∧ (∃ a b, v = a +:+ t +:+ b ∧ all_space a = true ∧ all_space b = true)
      ∧ FastApiApp.text_not_empty t = inr t
  end.
Proof.
  unfold FastApiApp.text_not_empty.
  destruct (String.eqb_spec (strip v) "") as [Hempty|Hfull].
  - split; [done|]. by apply strip_empty_iff.
  - split.
    { destruct (all_space v) eqn:Hall; [|done].
      by apply strip_empty_iff in Hall. }
    split; [done|].
    split; [apply strip_no_leading_space|].
    split; [apply strip_no_trailing_space|].
    split; [apply strip_decomp|].
    rewrite strip_idemp.
    by destruct (String.eqb_spec (strip v) "").
Qed.

Section SurfaceFacts.
Context `{Libs : Libraries}.

(** The body of a 200 response, as both handlers build it. *)
Lemma flask_predict_200_body request w w' resp :
  FlaskApp.predict request w = (w', inr resp) →
  status_code resp = 200%Z →
  ∃ s label ai_prob human_prob,
    strip s ≠ ""
    ∧ predict (strip s) w = (w', inr (label, ai_prob, human_prob))
    ∧ body resp
      = JObj
          [("label", JStr label);
           ("ai_probability", JFloat (round ai_prob 4));
           ("human_probability", JFloat (round human_prob 4));
           ("confidence",
             JStr (FlaskApp.confidence
                     (PrimFloat.abs (PrimFloat.sub ai_prob human_prob))));
           ("certainty",
             JFloat (round (PrimFloat.abs (PrimFloat.sub ai_prob human_prob)) 4));
           ("text_length", JInt (len_str (strip s)));
           ("word_count", JInt (Z.of_nat (length (split (strip s)))))].
Proof.
  unfold FlaskApp.predict. py_unfold. cbn.
  destruct (is_trained (detector w)); cbn; [|by intros [= <- <-]].
  destruct (FlaskApp.get_json request) as [e|data]; [by intros [= <- <-]|].
  destruct (truthy data); cbn; [|by intros [= <- <-]].
  destruct (py_contains "text" data) as [e|[]]; cbn;
    try by intros [= <- <-].
  destruct (py_getitem "text" data) as [e|raw]; [by intros [= <- <-]|].
  destruct raw as [| | | |s| |]; cbn; try by intros [= <- <-].
  destruct (String.eqb_spec (strip s) "") as [Hempty|Hfull];
    [by intros [= <- <-]|].
  destruct (predict (strip s) w) as [w1 [e|[[label ai_prob] human_prob]]]
    eqn:Hrun; [by intros [= <- <-]|].
  intros [= <- <-] _. by exists s, label, ai_prob, human_prob.
Qed.

Lemma fastapi_parse_inv payload request :
  FastApiApp.parse_PredictRequest payload = inr request →
  ∃ s, FastApiApp.text request = strip s ∧ strip s ≠ "".
Proof.
  unfold FastApiApp.parse_PredictRequest, FastApiApp.text_not_empty.
  destruct payload as [| | | | | |fs]; try done.
  destruct (assoc_get "text" fs) as [raw|]; [|done].
  destruct (match raw with JStr s => inr s | _ => pydantic_str raw end)
    as [e|s]; [done|].
  destruct (String.eqb_spec (strip s) "") as [Hempty|Hfull]; [done|].
  intros [= <-]. by exists s.
Qed.

Lemma fastapi_post_predict_200_body payload w w' resp :
  FastApiApp.post_predict payload w = (w', inr resp) →
  status_code resp = 200%Z →
  ∃ s label ai_prob human_prob,
    strip s ≠ ""
    ∧ predict (strip s) w = (w', inr (label, ai_prob, human_prob))
    ∧ body resp
      = JObj
          [("label", JStr label);
           ("ai_probability", JFloat (round ai_prob 4));
           ("human_probability", JFloat (round human_prob 4));
           ("confidence",
             JStr (FastApiApp.confidence
                     (PrimFloat.abs (PrimFloat.sub ai_prob human_prob))));
           ("certainty",
             JFloat (round (PrimFloat.abs (PrimFloat.sub ai_prob human_prob)) 4));
           ("text_length", JInt (len_str (strip s)));
           ("word_count", JInt (Z.of_nat (length (split (strip s)))))].
Proof.
  unfold FastApiApp.post_predict.
  destruct (FastApiApp.parse_PredictRequest payload) as [e|request] eqn:Hparse;
    [by intros [= <- <-]|].
  destruct (fastapi_parse_inv _ _ Hparse) as (s & Htext & Hfull).
  unfold FastApiApp.respond, FastApiApp.predict. py_unfold. cbn.
  rewrite Htext.
  destruct (is_trained (detector w)); cbn; [|by intros [= <- <-]].
  destruct (predict (strip s) w) as [w1 [e|[[label ai_prob] human_prob]]]
    eqn:Hrun; cbn; [by intros [= <- <-]|].
  intros [= <- <-] _. by exists s, label, ai_prob, human_prob.
Qed.

(** A trimmed, non-empty text has at least one word and no more words than
    characters. *)
Lemma counts_of_trimmed_text (s : string) :
  strip s ≠ "" →
  (1 ≤ Z.of_nat (length (split (strip s))) ≤ len_str (strip s))%Z.
Proof.
  intros Hfull.
  pose proof (split_nonempty (strip s) Hfull (strip_no_leading_space s)) as Hne.
  pose proof (split_go_length "" (strip s)) as Hle.
  unfold split, len_str in *. cbn in Hle.
  destruct (split_go "" (strip s)); [done|]. cbn in *. lia.
Qed.

End SurfaceFacts.

(** X2: a 200 response of [POST /predict], on either surface, reports a
    [text_length] of at least one character and a [word_count] of at least
    one word and at most [text_length]: both count the text after trimming,
    which the handlers have checked not to be empty. *)
Theorem success_reports_counts `{Libs : Libraries}
    (w w' : World) (resp : Response) :
  (∃ request, FlaskApp.predict request w = (w', inr resp))
  ∨ (∃ payload, FastApiApp.post_predict payload w = (w', inr resp)) →
  status_code resp = 200%Z →
  ∃ fields text_length word_count,
    body resp = JObj fields
    ∧ assoc_get "text_length" fields = Some (JInt text_length)
    ∧ assoc_get "word_count" fields = Some (JInt word_count)
    ∧ (1 ≤ word_count ≤ text_length)%Z.
Proof.
  intros [[request Hrun]|[payload Hrun]] H200.
  - destruct (flask_predict_200_body _ _ _ _ Hrun H200)
      as (s & label & ai_prob & human_prob & Hfull & _ & ->).
    eexists _, _, _. split; [reflexivity|].
    split; [reflexivity|]. split; [reflexivity|].
    by apply counts_of_trimmed_text.
  - destruct (fastapi_post_predict_200_body _ _ _ _ Hrun H200)
      as (s & label & ai_prob & human_prob & Hfull & _ & ->).
    eexists _, _, _. split; [reflexivity|].
    split; [reflexivity|]. split; [reflexivity|].
    by apply counts_of_trimmed_text.
Qed.

(** A text of the toy classifier sent to the Flask surface: 15 characters
    and 3 words after trimming. *)
Lemma success_reports_counts_witness :
  ∃ resp,
    FlaskApp.predict (Libs := toy_libraries)
      {| FlaskApp.get_json := inr (JObj [("text", JStr " hello AI  world ")]) |}
      toy_trained = (toy_trained, inr resp)
    ∧ status_code resp = 200%Z
    ∧ ∃ fields text_length word_count,
        body resp = JObj fields
        ∧ assoc_get "text_length" fields = Some (JInt text_length)
        ∧ assoc_get "word_count" fields = Some (JInt word_count)
        ∧ (1 ≤ word_count ≤ text_length)%Z.
Proof.
  eexists. split; [vm_compute; reflexivity|]. split; [reflexivity|].
  apply (success_reports_counts (Libs := toy_libraries) toy_trained toy_trained).
  - left.
    exists {| FlaskApp.get_json :=
                inr (JObj [("text", JStr " hello AI  world ")]) |}.
    vm_compute. reflexivity.
  - reflexivity.
Defined.

Section SurfaceAgreement.
Context `{Libs : Libraries}.

(** What each surface answers to a non-blank text once a model is loaded:
    the prediction, or the message of the exception [predict] raised. *)
Lemma flask_predict_on_text request fs s w :
  is_trained (detector w) = true →
  FlaskApp.get_json request = inr (JObj fs) →
  assoc_get "text" fs = Some (JStr s) →
  strip s ≠ "" →
  FlaskApp.predict request w
  = (w, inr match (predict (strip s) w).2 with
            | inr (label, ai_prob, human_prob) =>
                {| status_code := 200;
                   body := success_body (strip s) label ai_prob human_prob |}
            | inl e =>
                {| status_code := 500;
                   body := JObj [("error", JStr (str_exc e))] |}
            end).
Proof.
  intros Htrained Hjson Htext Hfull.
  unfold FlaskApp.predict. py_unfold. cbn -[assoc_get truthy].
  rewrite Htrained, Hjson. cbn -[assoc_get truthy].
  assert (truthy (JObj fs) = true) as -> by by destruct fs.
  cbn -[assoc_get]. rewrite Htext.
  rewrite bool_decide_eq_true_2 by eauto. cbn.
  destruct (String.eqb_spec (strip s) "") as [|_]; [done|].
  pose proof (predict_frame (strip s) w) as Hframe.
  destruct (predict (strip s) w) as [w1 [e|[[label ai_prob] human_prob]]];
    cbn in *; by subst.
Qed.

Lemma fastapi_post_predict_on_text fs s w :
  is_trained (detector w) = true →
  assoc_get "text" fs = Some (JStr s) →
  strip s ≠ "" →
  FastApiApp.post_predict (JObj fs) w
  = (w, inr match (predict (strip s) w).2 with
            | inr (label, ai_prob, human_prob) =>
                {| status_code := 200;
                   body := success_body (strip s) label ai_prob human_prob |}
            | inl e =>
                {| status_code := 500;
                   body := JObj [("detail", JStr (str_exc e))] |}
            end).
Proof.
  intros Htrained Htext Hfull.
  unfold FastApiApp.post_predict, FastApiApp.parse_PredictRequest,
    FastApiApp.text_not_empty.
  rewrite Htext.
  destruct (String.eqb_spec (strip s) "") as [|_]; [done|].
  unfold FastApiApp.respond, FastApiApp.predict. py_unfold. cbn.
  rewrite Htrained. cbn.
  pose proof (predict_frame (strip s) w) as Hframe.
  destruct (predict (strip s) w) as [w1 [e|[[label ai_prob] human_prob]]];
    cbn in *; by subst.
Qed.

End SurfaceAgreement.

(** X3: with a model loaded, the two surfaces answer a request whose text is
    not blank in the same way: both with status 200 and the same body, or
    both with status 500 carrying the message of the exception [predict]
    raised, under [error] on Flask and under [detail] on FastAPI. *)
Theorem surfaces_agree_on_text `{Libs : Libraries}
    (w : World) (request : FlaskApp.Request)
    (fs : list (string * Json)) (s : string) :
  is_trained (detector w) = true →
  FlaskApp.get_json request = inr (JObj fs) →
  assoc_get "text" fs = Some (JStr s) →
  strip s ≠ "" →
  ∃ flask fastapi,
    FlaskApp.predict request w = (w, inr flask)
    ∧ FastApiApp.post_predict (JObj fs) w = (w, inr fastapi)
    ∧ status_code flask = status_code fastapi
    ∧ (status_code flask = 200 ∧ body flask = body fastapi
       ∨ status_code flask = 500
         ∧ ∃ msg, body flask = JObj [("error", JStr msg)]
                  ∧ body fastapi = JObj [("detail", JStr msg)])%Z.
Proof.
  intros Htrained Hjson Htext Hfull.
  rewrite (flask_predict_on_text request fs s w) by done.
  rewrite (fastapi_post_predict_on_text fs s w) by done.
  eexists _, _. split; [reflexivity|]. split; [reflexivity|].
  destruct (predict (strip s) w).2 as [e|[[label ai_prob] human_prob]]; cbn.
  - split; [done|]. right. split; [done|]. by exists (str_exc e).
  - split; [done|]. by left.
Qed.

Lemma surfaces_agree_on_text_witness :
  let payload := [("text", JStr " hello AI  world ")] in
  ∃ flask fastapi,
    FlaskApp.predict (Libs := toy_libraries)
      {| FlaskApp.get_json := inr (JObj payload) |} toy_trained
    = (toy_trained, inr flask)
    ∧ FastApiApp.post_predict (JObj payload) toy_trained
      = (toy_trained, inr fastapi)
    ∧ status_code flask = status_code fastapi.
Proof.
  cbv zeta.
  destruct (surfaces_agree_on_text (Libs := toy_libraries) toy_trained
              {| FlaskApp.get_json :=
                   inr (JObj [("text", JStr " hello AI  world ")]) |}
              [("text", JStr " hello AI  world ")] " hello AI  world "
              eq_refl eq_refl eq_refl)
    as (flask & fastapi & Hflask & Hfastapi & Hstatus & _).
  - vm_compute. discriminate.
  - by exists flask, fastapi.
Defined.

(** X4: [POST /predict] answers every request and leaves the state as it
    was; no exception leaves a handler.  The Flask surface answers with
    200, 400 or 500, the FastAPI surface with 200, 422 or 500 (422 exactly
    when the body fails validation), and either answers 200 only when the
    detector is marked trained. *)
Theorem predict_route_statuses `{Libs : Libraries} (w : World) :
  (∀ request,
     ∃ resp, FlaskApp.predict request w = (w, inr resp)
             ∧ status_code resp ∈ [200; 400; 500]%Z
             ∧ (status_code resp = 200%Z → is_trained (detector w) = true))
  ∧ (∀ payload,
       ∃ resp, FastApiApp.post_predict payload w = (w, inr resp)
               ∧ status_code resp ∈ [200; 422; 500]%Z
               ∧ (status_code resp = 200%Z → is_trained (detector w) = true)
               ∧ (status_code resp = 422%Z
                  ↔ ∃ e, FastApiApp.parse_PredictRequest payload = inl e)).
Proof.
  split.
  - intros request. unfold FlaskApp.predict. py_unfold. cbn.
    destruct (is_trained (detector w)); cbn;
      [|eexists; split; [done|]; cbn; split; [set_solver|done]].
    destruct (FlaskApp.get_json request) as [e|data];
      [eexists; split; [done|]; cbn; split; [set_solver|done]|].
    destruct (truthy data); cbn;
      [|eexists; split; [done|]; cbn; split; [set_solver|done]].
    destruct (py_contains "text" data) as [e|[]]; cbn;
      try (eexists; split; [done|]; cbn; split; [set_solver|done]).
    destruct (py_getitem "text" data) as [e|raw];
      [eexists; split; [done|]; cbn; split; [set_solver|done]|].
    destruct (py_strip raw) as [e|text];
      [eexists; split; [done|]; cbn; split; [set_solver|done]|].
    destruct (String.eqb text "");
      [eexists; split; [done|]; cbn; split; [set_solver|done]|].
    pose proof (predict_frame text w) as Hframe.
    destruct (predict text w) as [w1 [e|[[label ai_prob] human_prob]]];
      cbn in *; subst;
      eexists; (split; [done|]); cbn; (split; [set_solver|done]).
  - intros payload. unfold FastApiApp.post_predict.
    destruct (FastApiApp.parse_PredictRequest payload) as [e|request].
    { eexists. split; [done|]. cbn. split; [set_solver|].
      split; [done|]. split; [by exists e|done]. }
    unfold FastApiApp.respond, FastApiApp.predict. py_unfold. cbn.
    destruct (is_trained (detector w)); cbn.
    + pose proof (predict_frame (FastApiApp.text request) w) as Hframe.
      destruct (predict _ w) as [w1 [e|[[label ai_prob] human_prob]]];
        cbn in *; subst;
        eexists; (split; [done|]); cbn; (split; [set_solver|]);
        (split; [done|]); (split; [done|by intros [? ?]]).
    + eexists. split; [done|]. cbn. split; [set_solver|].
      split; [done|]. split; [done|by intros [? ?]].
Qed.

(** X5: whitespace around the text of a request does not change the answer
    of the Flask surface: in every state the request gets the answer of the
    request whose text is already trimmed.  On the FastAPI surface the two
    requests get the same status, and the same answer altogether when the
    text is not blank; the 422 answers to a blank text and to its trimmed,
    empty form carry the framework's validation errors, each made from the
    body as it was sent. *)
Theorem surrounding_whitespace_is_ignored `{Libs : Libraries}
    (w : World) (s : string) :
  FlaskApp.predict {| FlaskApp.get_json := inr (JObj [("text", JStr s)]) |} w
  = FlaskApp.predict
      {| FlaskApp.get_json := inr (JObj [("text", JStr (strip s))]) |} w
  ∧ ∃ r1 r2,
      FastApiApp.post_predict (JObj [("text", JStr s)]) w = (w, inr r1)
      ∧ FastApiApp.post_predict (JObj [("text", JStr (strip s))]) w
        = (w, inr r2)
      ∧ status_code r1 = status_code r2
      ∧ (strip s ≠ "" → r1 = r2)
      ∧ (strip s = "" →
         r1 = {| status_code := 422;
                 body := JObj [("detail",
                                validation_errors (JObj [("text", JStr s)]))] |}
         ∧ r2 = {| status_code := 422;
                   body := JObj [("detail",
                                  validation_errors
                                    (JObj [("text", JStr "")]))] |}).
Proof.
  split.
  - unfold FlaskApp.predict. py_unfold. cbn. by rewrite strip_idemp.
  - destruct (fastapi_post_predict_total (JObj [("text", JStr s)]) w)
      as [r1 H1].
    destruct (fastapi_post_predict_total (JObj [("text", JStr (strip s))]) w)
      as [r2 H2].
    exists r1, r2. split; [done|]. split; [done|].
    revert H1 H2.
    unfold FastApiApp.post_predict, FastApiApp.parse_PredictRequest,
      FastApiApp.text_not_empty. cbn. rewrite strip_idemp.
    destruct (String.eqb (strip s) "") eqn:Hblank.
    + apply String.eqb_eq in Hblank. rewrite Hblank.
      intros [= <-] [= <-]. done.
    + apply String.eqb_neq in Hblank.
      intros H1 H2. rewrite H1 in H2. injection H2 as <-. done.
Qed.

(** X6: with a model loaded, the Flask surface answers 500, not 400, when
    [get_json] raises, when the body is [true], a non-zero number, a string
    or list that contains "text", or an object whose [text] is not a
    string: the handler's [except] clause reports the exception raised on
    the way to the text. *)
Theorem flask_unusable_body_is_500 `{Libs : Libraries}
    (w : World) (request : FlaskApp.Request) :
  is_trained (detector w) = true →
  match FlaskApp.get_json request with
  | inl _ => True
  | inr JNull => False
  | inr (JBool b) => b = true
  | inr (JInt n) => n ≠ 0%Z
  | inr (JFloat x) => PrimFloat.eqb x 0 = false
  | inr (JStr s) => str_contains "text" s = true
  | inr (JArr l) => existsb (is_str "text") l = true
  | inr (JObj fs) => ∃ raw, assoc_get "text" fs = Some raw ∧ ∀ s, raw ≠ JStr s
  end →
  ∃ msg,
    FlaskApp.predict request w
    = (w, inr {| status_code := 500; body := JObj [("error", JStr msg)] |}).
Proof.
  intros Htrained. unfold FlaskApp.predict. py_unfold. cbn -[assoc_get].
  rewrite Htrained. cbn -[assoc_get].
  destruct (FlaskApp.get_json request) as [e|[|b|n|x|s|l|fs]];
    cbn -[assoc_get]; try done.
  - intros _. by eexists.
  - intros ->. by eexists.
  - intros Hn. apply Z.eqb_neq in Hn as ->. by eexists.
  - intros ->. by eexists.
  - intros Hhas.
    assert (String.eqb s "" = false) as ->.
    { destruct s; [by vm_compute in Hhas|done]. }
    cbn. rewrite Hhas. by eexists.
  - intros Hhas.
    assert (l ≠ []) as Hl by (by intros ->).
    destruct l; [done|]. cbn -[existsb]. rewrite Hhas. by eexists.
  - intros (raw & Htext & Hraw).
    assert (fs ≠ []) as Hfs by (by intros ->).
    destruct fs as [|kv fs]; [done|]. cbn -[assoc_get].
    rewrite Htext. rewrite bool_decide_eq_true_2 by eauto. cbn.
    destruct raw; cbn; try by eexists. by destruct (Hraw s).
Qed.

Lemma flask_unusable_body_is_500_witness :
  is_trained (detector toy_trained) = true
  ∧ ∃ msg,
      FlaskApp.predict (Libs := toy_libraries)
        {| FlaskApp.get_json := inr (JInt 5) |} toy_trained
      = (toy_trained,
         inr {| status_code := 500; body := JObj [("error", JStr msg)] |}).
Proof.
  split; [reflexivity|].
  apply (flask_unusable_body_is_500 (Libs := toy_libraries) toy_trained
           {| FlaskApp.get_json := inr (JInt 5) |} eq_refl).
  cbn. discriminate.
Defined.

(** ** [load_model]: what it reads and what it leaves *)

Section LoadFacts.
Context `{Libs : Libraries}.

Lemma load_model_returns_iff model_dir w w' :
  load_model model_dir w = (w', inr tt)
  ↔ ∃ v c n r a,
      disk w !! path_join model_dir "vectorizer.joblib" = Some (Joblib v)
      ∧ disk w !! path_join model_dir "classifier.joblib" = Some (Joblib c)
      ∧ disk w !! path_join model_dir "config.joblib"
        = Some (Joblib (PyConfig (config_dict n r a)))
      ∧ w' = {| detector := loaded v c n r a (detector w); disk := disk w |}.
Proof.
  unfold load_model, joblib_load, config_getitem, config_dict. py_unfold. cbn.
  destruct (disk w !! path_join model_dir "vectorizer.joblib")
    as [[|v|?|]|]; cbn;
    try (split; [done|by intros (? & ? & ? & ? & ? & ? & _)]).
  destruct (disk w !! path_join model_dir "classifier.joblib")
    as [[|c|?|]|]; cbn;
    try (split; [done|by intros (? & ? & ? & ? & ? & _ & ? & _)]).
  destruct (disk w !! path_join model_dir "config.joblib")
    as [[|[| | |[[n|] [r|] [a|]]]|?|]|]; cbn;
    try (split; [done|by intros (? & ? & ? & ? & ? & _ & _ & ? & _)]).
  split.
  - intros [= <-]. by exists v, c, n, r, a.
  - intros (? & ? & ? & ? & ? & [= <-] & [= <-] & [= <- <- <-] & ->). done.
Qed.

(** [load_model] never writes the disk, [min_df] or [max_df]; when it
    raises, the flag and [alpha] are as before, and [max_features] and
    [ngram_range] are as before or hold the entry of the config dict, read
    before the key that was missing. *)
Lemma load_model_frame model_dir w :
  let w' := (load_model model_dir w).1 in
  disk w' = disk w
  ∧ min_df (detector w') = min_df (detector w)
  ∧ max_df (detector w') = max_df (detector w)
  ∧ (∀ e, (load_model model_dir w).2 = inl e →
          is_trained (detector w') = is_trained (detector w)
          ∧ alpha (detector w') = alpha (detector w)
          ∧ (max_features (detector w') = max_features (detector w)
             ∨ ∃ cfg,
                 disk w !! path_join model_dir "config.joblib"
                 = Some (Joblib (PyConfig cfg))
                 ∧ cfg_max_features cfg = Some (max_features (detector w')))
          ∧ (ngram_range (detector w') = ngram_range (detector w)
             ∨ ∃ cfg,
                 disk w !! path_join model_dir "config.joblib"
                 = Some (Joblib (PyConfig cfg))
                 ∧ cfg_ngram_range cfg = Some (ngram_range (detector w')))).
Proof.
  unfold load_model, joblib_load, config_getitem. py_unfold. cbn.
  destruct (disk w !! path_join model_dir "vectorizer.joblib")
    as [[|v|?|]|]; cbn; try (repeat split; auto; done).
  destruct (disk w !! path_join model_dir "classifier.joblib")
    as [[|c|?|]|]; cbn; try (repeat split; auto; done).
  destruct (disk w !! path_join model_dir "config.joblib")
    as [[|[| | |[[n|] [r|] [a|]]]|?|]|]; cbn;
    try (repeat split; auto; done);
    (split; [done|]); (split; [done|]); (split; [done|]);
    intros e _; (split; [done|]); (split; [done|]);
    split; try (by left); right; by eexists.
Qed.

End LoadFacts.

Section LoadAfterSave.
Context `{Libs : Libraries}.

Lemma model_exists_on_true_iff (fs : gmap string Node) model_dir :
  model_exists_on fs model_dir = true
  ↔ ∀ f, f ∈ files → is_Some (fs !! path_join model_dir f).
Proof.
  unfold model_exists_on. rewrite forallb_forall. unfold os_path_exists.
  split; intros Hall f Hf.
  - eapply bool_decide_eq_true_1, Hall. by apply list_elem_of_In.
  - apply bool_decide_eq_true_2, Hall. by apply list_elem_of_In.
Qed.

Lemma artifact_paths_distinct model_dir :
  path_join model_dir "config.joblib" ≠ path_join model_dir "vectorizer.joblib"
  ∧ path_join model_dir "classifier.joblib"
    ≠ path_join model_dir "vectorizer.joblib"
  ∧ path_join model_dir "config.joblib"
    ≠ path_join model_dir "classifier.joblib".
Proof.
  repeat split; intros Heq; apply path_join_artifact_inj in Heq;
    try done; unfold files; set_solver.
Qed.

(** Loading what [save_model] has just written. *)
Lemma load_model_after_save model_dir w w1 d0 :
  save_model model_dir w = (w1, inr tt) →
  load_model model_dir {| detector := d0; disk := disk w1 |}
  = ({| detector := loaded (vectorizer (detector w)) (classifier (detector w))
                      (max_features (detector w)) (ngram_range (detector w))
                      (alpha (detector w)) d0;
        disk := disk w1 |}, inr tt).
Proof.
  intros Hsave.
  destruct (save_model_returns_inv _ _ _ _ Hsave) as (_ & fs0 & Hdisk).
  destruct (artifact_paths_distinct model_dir) as (Hgv & Hcv & Hgc).
  apply load_model_returns_iff. cbn.
  exists (vectorizer (detector w)), (classifier (detector w)),
    (max_features (detector w)), (ngram_range (detector w)),
    (alpha (detector w)).
  rewrite Hdisk.
  split; [by rewrite !lookup_insert_ne, lookup_insert_eq by done|].
  split; [by rewrite lookup_insert_ne, lookup_insert_eq by done|].
  split; [by rewrite lookup_insert_eq|done].
Qed.

Lemma model_exists_after_save model_dir w w1 :
  save_model model_dir w = (w1, inr tt) →
  model_exists_on (disk w1) model_dir = true.
Proof.
  intros Hsave.
  destruct (save_model_returns_inv _ _ _ _ Hsave) as (_ & fs0 & Hdisk).
  destruct (artifact_paths_distinct model_dir) as (Hgv & Hcv & Hgc).
  apply model_exists_on_true_iff. intros f Hf. rewrite Hdisk.
  apply files_cases in Hf as [->|[->| ->]].
  - by rewrite !lookup_insert_ne, lookup_insert_eq by done.
  - by rewrite lookup_insert_ne, lookup_insert_eq by done.
  - by rewrite lookup_insert_eq.
Qed.

End LoadAfterSave.

(** X7: [save_model] followed by [load_model] of the same directory, into
    any detector, always returns and restores exactly the vectorizer, the
    classifier, [max_features], [ngram_range] and [alpha] of the saver.  It
    marks the loader trained even if the saver was not, and it does not
    carry [min_df] and [max_df] over: these stay those of the loader.
    After the save [model_exists] answers true. *)
Theorem save_then_load_restores `{Libs : Libraries}
    (w w1 : World) (model_dir : string) (d0 : AITextDetector) :
  save_model model_dir w = (w1, inr tt) →
  ∃ w2,
    load_model model_dir {| detector := d0; disk := disk w1 |} = (w2, inr tt)
    ∧ detector w2
      = {| max_features := max_features (detector w);
           ngram_range := ngram_range (detector w);
           alpha := alpha (detector w);
           min_df := min_df d0;
           max_df := max_df d0;
           vectorizer := vectorizer (detector w);
           classifier := classifier (detector w);
           is_trained := true |}
    ∧ disk w2 = disk w1
    ∧ model_exists_on (disk w1) model_dir = true.
Proof.
  intros Hsave. eexists. split; [by apply load_model_after_save|].
  split; [done|]. split; [done|]. by apply (model_exists_after_save _ w).
Qed.

(** Saving from a detector that was never trained, then loading. *)
Lemma save_then_load_restores_witness :
  let w1 := (save_model (Libs := toy_libraries) "model" (construct ∅)).1 in
  save_model "model" (construct ∅) = (w1, inr tt)
  ∧ ∃ w2, load_model "model" (construct (disk w1)) = (w2, inr tt)
          ∧ is_trained (detector w2) = true
          ∧ vectorizer (detector w2) = PyNone.
Proof.
  cbv zeta.
  assert (save_model (Libs := toy_libraries) "model" (construct ∅)
          = ((save_model (Libs := toy_libraries) "model" (construct ∅)).1,
             inr tt)) as Hsave by (vm_compute; reflexivity).
  split; [exact Hsave|].
  destruct (save_then_load_restores (Libs := toy_libraries) (construct ∅) _
              "model" init Hsave) as (w2 & Hload & Hdet & _).
  exists w2. split; [exact Hload|]. by rewrite Hdet.
Defined.

(** X8: [load_model] raises whenever [model_exists] answers false.  A
    [load_model] that raises, for whatever reason, leaves [is_trained] and
    [alpha] as they were; [max_features] and [ngram_range] are as they were
    or have been replaced by the entry of the dict in [config.joblib], which
    happens when the dict lacks a key that is read later.  A config dict
    that holds [max_features] and lacks [ngram_range] makes the call raise a
    [KeyError] with the vectorizer, the classifier and [max_features]
    replaced.  No call of [load_model] changes the disk, [min_df] or
    [max_df]. *)
Theorem load_model_failure_keeps_flag `{Libs : Libraries}
    (w : World) (model_dir : string) :
  let w' := (load_model model_dir w).1 in
  (model_exists_on (disk w) model_dir = false →
   ∃ e, (load_model model_dir w).2 = inl e)
  ∧ (∀ e, (load_model model_dir w).2 = inl e →
          is_trained (detector w') = is_trained (detector w)
          ∧ alpha (detector w') = alpha (detector w)
          ∧ (max_features (detector w') = max_features (detector w)
             ∨ ∃ cfg,
                 disk w !! path_join model_dir "config.joblib"
                 = Some (Joblib (PyConfig cfg))
                 ∧ cfg_max_features cfg = Some (max_features (detector w')))
          ∧ (ngram_range (detector w') = ngram_range (detector w)
             ∨ ∃ cfg,
                 disk w !! path_join model_dir "config.joblib"
                 = Some (Joblib (PyConfig cfg))
                 ∧ cfg_ngram_range cfg = Some (ngram_range (detector w'))))
  ∧ (∀ v c n a,
       disk w !! path_join model_dir "vectorizer.joblib" = Some (Joblib v) →
       disk w !! path_join model_dir "classifier.joblib" = Some (Joblib c) →
       disk w !! path_join model_dir "config.joblib"
       = Some (Joblib (PyConfig {| cfg_max_features := Some n;
                                   cfg_ngram_range := None;
                                   cfg_alpha := a |})) →
       load_model model_dir w
       = ({| detector := with_max_features n
                           (with_classifier c
                              (with_vectorizer v (detector w)));
             disk := disk w |},
          inl (KeyError "'ngram_range'")))
  ∧ disk w' = disk w
  ∧ min_df (detector w') = min_df (detector w)
  ∧ max_df (detector w') = max_df (detector w).
Proof.
  cbv zeta.
  destruct (load_model_frame model_dir w) as (Hdisk & Hmin & Hmax & Hraise).
  split; [|split; [done|split; [|done]]].
  - intros Habsent.
    destruct (load_model model_dir w) as [w' [e|[]]] eqn:Hload; [by exists e|].
    apply load_model_returns_iff in Hload
      as (v & c & n & r & a & Hv & Hc & Hg & _).
    assert (model_exists_on (disk w) model_dir = true) as Hpresent.
    { apply model_exists_on_true_iff.
      intros f [->|[->| ->]]%files_cases; eauto. }
    congruence.
  - intros v c n a Hv Hc Hg.
    unfold load_model, joblib_load, config_getitem. py_unfold. cbn.
    rewrite Hv. cbn. rewrite Hc. cbn. rewrite Hg. reflexivity.
Qed.

(** X9: [load_model] is not atomic.  When the vectorizer file is a pickle
    and the classifier file is not, it raises after it has replaced the
    vectorizer; when both are pickles and the config file is not a pickled
    dict, it raises after it has replaced both.  The flag is not touched,
    so a detector that was trained stays marked trained with the models
    the failed call left. *)
Theorem load_model_is_not_atomic `{Libs : Libraries}
    (w : World) (model_dir : string) (v : PyObj) :
  disk w !! path_join model_dir "vectorizer.joblib" = Some (Joblib v) →
  ((∀ c, disk w !! path_join model_dir "classifier.joblib" ≠ Some (Joblib c)) →
   ∃ e, load_model model_dir w
        = ({| detector := with_vectorizer v (detector w); disk := disk w |},
           inl e))
  ∧ (∀ c, disk w !! path_join model_dir "classifier.joblib" = Some (Joblib c) →
          (∀ cfg, disk w !! path_join model_dir "config.joblib"
                  ≠ Some (Joblib (PyConfig cfg))) →
          ∃ e, load_model model_dir w
               = ({| detector := with_classifier c
                                   (with_vectorizer v (detector w));
                     disk := disk w |}, inl e)).
Proof.
  intros Hv. unfold load_model, joblib_load. py_unfold. cbn. rewrite Hv. cbn.
  split.
  - intros Hc.
    destruct (disk w !! path_join model_dir "classifier.joblib")
      as [[|c|?|]|]; cbn; try by eexists.
    by destruct (Hc c).
  - intros c Hc Hg. rewrite Hc. cbn.
    destruct (disk w !! path_join model_dir "config.joblib")
      as [[|[| | |cfg]|?|]|]; cbn; try by eexists.
    by destruct (Hg cfg).
Qed.

(** ** [save_model]: when it returns and what it writes *)

Section SaveFacts.
Context `{Libs : Libraries}.

(** Running a bind: the continuation gets the value and the state the first
    computation left; an exception passes through with its state. *)
Lemma bind_run {A B} (m : Py A) (f : A → Py B) (w : World) :
  (m ≫= f) w
  = match m w with
    | (w', inr x) => f x w'
    | (w', inl e) => (w', inl e)
    end.
Proof. reflexivity. Qed.

Lemma artifact_path_not_dir model_dir f :
  f ∈ files → path_join model_dir f ≠ model_dir.
Proof.
  intros Hf. rewrite path_join_artifact by done. unfold path_prefix.
  intros Heq.
  destruct (String.eqb model_dir "" || ends_with_sep model_dir).
  - assert (model_dir +:+ f = model_dir +:+ "") as Heq'
      by by rewrite string_app_nil_r.
    apply String.app_inj in Heq'.
    by apply files_cases in Hf as [->|[->| ->]].
  - assert (model_dir +:+ "/" +:+ f = model_dir +:+ "") as Heq'
      by by rewrite string_app_nil_r, <- string_app_assoc.
    by apply String.app_inj in Heq'.
Qed.

Lemma os_makedirs_returns_iff p w w' :
  os_makedirs p w = (w', inr tt)
  ↔ (disk w !! p = None ∨ disk w !! p = Some Directory)
    ∧ w' = {| detector := detector w; disk := <[p:=Directory]> (disk w) |}.
Proof.
  unfold os_makedirs. py_unfold. cbn.
  destruct (disk w !! p) as [[|?|?|]|] eqn:Hp; cbn.
  - rewrite (insert_id _ _ _ Hp). destruct w. cbn. naive_solver.
  - naive_solver.
  - naive_solver.
  - naive_solver.
  - naive_solver.
Qed.

Lemma joblib_dump_returns_iff o p w w' :
  joblib_dump o p w = (w', inr tt)
  ↔ disk w !! p ≠ Some Directory
    ∧ w' = {| detector := detector w; disk := <[p:=Joblib o]> (disk w) |}.
Proof.
  unfold joblib_dump. py_unfold. cbn.
  destruct (disk w !! p) as [[|?|?|]|] eqn:Hp; cbn; naive_solver.
Qed.

Lemma os_makedirs_raises p w e :
  (os_makedirs p w).2 = inl e → (os_makedirs p w).1 = w ∧ ∃ msg, e = OSError msg.
Proof.
  unfold os_makedirs. py_unfold. cbn.
  destruct (disk w !! p) as [[|?|?|]|]; cbn; try done;
    intros [= <-]; eauto.
Qed.

Lemma joblib_dump_raises o p w e :
  (joblib_dump o p w).2 = inl e →
  (joblib_dump o p w).1 = w ∧ ∃ msg, e = OSError msg.
Proof.
  unfold joblib_dump. py_unfold. cbn.
  destruct (disk w !! p) as [[|?|?|]|]; cbn; try done;
    intros [= <-]; eauto.
Qed.

Lemma save_model_returns_iff model_dir w w1 :
  save_model model_dir w = (w1, inr tt)
  ↔ (disk w !! model_dir = None ∨ disk w !! model_dir = Some Directory)
    ∧ (∀ f, f ∈ files → disk w !! path_join model_dir f ≠ Some Directory)
    ∧ w1 = {| detector := detector w;
              disk := saved_disk model_dir (detector w) (disk w) |}.
Proof.
  destruct (artifact_paths_distinct model_dir) as (Hgv & Hcv & Hgc).
  assert (path_join model_dir "vectorizer.joblib" ≠ model_dir) as Hv
    by (apply artifact_path_not_dir; unfold files; set_solver).
  assert (path_join model_dir "classifier.joblib" ≠ model_dir) as Hc
    by (apply artifact_path_not_dir; unfold files; set_solver).
  assert (path_join model_dir "config.joblib" ≠ model_dir) as Hg
    by (apply artifact_path_not_dir; unfold files; set_solver).
  unfold save_model, saved_disk, config_of.
  unfold mbind at 1, Py_bind at 1.
  destruct (os_makedirs model_dir w) as [wa [e|[]]] eqn:Hmk.
  { split; [done|]. intros (Hdir & _ & _).
    assert (os_makedirs model_dir w
            = ({| detector := detector w;
                  disk := <[model_dir:=Directory]> (disk w) |}, inr tt))
      as Hok by by apply os_makedirs_returns_iff.
    congruence. }
  apply os_makedirs_returns_iff in Hmk as [Hdir ->].
  unfold mbind at 1, Py_bind at 1, get_self. cbn [detector disk].
  unfold mbind at 1, Py_bind at 1.
  match goal with
  | |- context [joblib_dump ?o ?p ?w0] =>
      destruct (joblib_dump o p w0) as [wb [e|[]]] eqn:Hdv
  end.
  { split; [done|]. intros (_ & Hfiles & _).
    assert (joblib_dump (vectorizer (detector w))
              (path_join model_dir "vectorizer.joblib")
              {| detector := detector w;
                 disk := <[model_dir:=Directory]> (disk w) |}
            = ({| detector := detector w;
                  disk := <[path_join model_dir "vectorizer.joblib" :=
                              Joblib (vectorizer (detector w))]>
                            (<[model_dir:=Directory]> (disk w)) |}, inr tt))
      as Hok.
    { apply joblib_dump_returns_iff. cbn. split; [|done].
      rewrite lookup_insert_ne by done. apply Hfiles. unfold files. set_solver. }
    cbn in Hdv. congruence. }
  apply joblib_dump_returns_iff in Hdv as [Hnv ->]. cbn in Hnv.
  rewrite lookup_insert_ne in Hnv by done.
  unfold mbind at 1, Py_bind at 1. cbn [detector disk].
  match goal with
  | |- context [joblib_dump ?o ?p ?w0] =>
      destruct (joblib_dump o p w0) as [wc [e|[]]] eqn:Hdc
  end.
  { split; [done|]. intros (_ & Hfiles & _).
    match type of Hdc with
    | joblib_dump ?o ?p ?w0 = _ =>
        assert (joblib_dump o p w0
                = ({| detector := detector w0;
                      disk := <[p:=Joblib o]> (disk w0) |}, inr tt)) as Hok
    end.
    { apply joblib_dump_returns_iff. cbn. split; [|done].
      rewrite !lookup_insert_ne by done. apply Hfiles. unfold files. set_solver. }
    congruence. }
  apply joblib_dump_returns_iff in Hdc as [Hnc ->]. cbn in Hnc.
  rewrite !lookup_insert_ne in Hnc by done. cbn [detector disk].
  rewrite joblib_dump_returns_iff. cbn.
  rewrite !lookup_insert_ne by done.
  split.
  - intros [Hng ->]. split; [done|]. split; [|done].
    by intros f [->|[->| ->]]%files_cases.
  - intros (_ & Hfiles & ->). split; [|done].
    apply Hfiles. unfold files. set_solver.
Qed.

(** Whatever its outcome, [save_model] keeps the detector and every path
    other than the directory and the three artifacts. *)
Lemma save_model_frame model_dir w :
  detector (save_model model_dir w).1 = detector w
  ∧ (∀ q, q ≠ model_dir → (∀ f, f ∈ files → q ≠ path_join model_dir f) →
          disk (save_model model_dir w).1 !! q = disk w !! q)
  ∧ (∀ e, (save_model model_dir w).2 = inl e → ∃ msg, e = OSError msg).
Proof.
  assert (∀ o p w0, detector (joblib_dump o p w0).1 = detector w0
            ∧ (∀ q, q ≠ p → disk (joblib_dump o p w0).1 !! q = disk w0 !! q))
    as Hdump.
  { intros o p w0. unfold joblib_dump. py_unfold. cbn.
    destruct (disk w0 !! p) as [[|?|?|]|]; cbn; split; try done;
      intros q Hq; by rewrite lookup_insert_ne. }
  assert (detector (os_makedirs model_dir w).1 = detector w
          ∧ (∀ q, q ≠ model_dir →
                  disk (os_makedirs model_dir w).1 !! q = disk w !! q))
    as [Hmd Hmq].
  { unfold os_makedirs. py_unfold. cbn.
    destruct (disk w !! model_dir) as [[|?|?|]|]; cbn; split; try done;
      intros q Hq; by rewrite lookup_insert_ne. }
  unfold save_model. rewrite bind_run.
  pose proof (os_makedirs_raises model_dir w) as Hmr.
  destruct (os_makedirs model_dir w) as [wa [e|[]]]; cbn [fst snd] in *.
  { destruct (Hmr e eq_refl) as [-> Hmsg]. split; [done|]. split; [done|].
    by intros ? [= <-]. }
  clear Hmr. rewrite bind_run. unfold get_self. cbn beta iota.
  rewrite bind_run.
  match goal with
  | |- context [joblib_dump ?o ?p wa] =>
      destruct (Hdump o p wa) as [Hd1 Hq1];
      pose proof (joblib_dump_raises o p wa) as Hr1;
      destruct (joblib_dump o p wa) as [wb [e|[]]]; cbn [fst snd] in *
  end.
  { destruct (Hr1 e eq_refl) as [-> Hmsg]. split; [done|].
    split; [|by intros ? [= <-]]. intros q Hq Hfiles. by apply Hmq. }
  clear Hr1. rewrite bind_run.
  match goal with
  | |- context [joblib_dump ?o ?p wb] =>
      destruct (Hdump o p wb) as [Hd2 Hq2];
      pose proof (joblib_dump_raises o p wb) as Hr2;
      destruct (joblib_dump o p wb) as [wc [e|[]]]; cbn [fst snd] in *
  end.
  { destruct (Hr2 e eq_refl) as [-> Hmsg]. split; [congruence|].
    split; [|by intros ? [= <-]]. intros q Hq Hfiles.
    rewrite Hq1, Hmq; [done|done|]. apply Hfiles. unfold files. set_solver. }
  clear Hr2.
  match goal with
  | |- context [joblib_dump ?o ?p wc] =>
      destruct (Hdump o p wc) as [Hd3 Hq3];
      pose proof (joblib_dump_raises o p wc) as Hr3
  end.
  split; [congruence|]. split.
  - intros q Hq Hfiles.
    rewrite Hq3, Hq2, Hq1, Hmq; try done; apply Hfiles; unfold files;
      set_solver.
  - intros e He. by destruct (Hr3 e He).
Qed.

End SaveFacts.

(** X10: for a model directory named by one path component, [save_model]
    returns exactly when the model directory is not an existing file of
    another kind and none of the three artifact paths is a directory.  It
    then leaves the directory and the three pickles (the vectorizer, the
    classifier and the config with [max_features], [ngram_range] and
    [alpha]) on the disk, over whatever the artifact paths held; otherwise
    it raises an [OSError]. *)
Theorem save_model_returns_exactly_when `{Libs : Libraries}
    (w : World) (model_dir : string) :
  simple_name model_dir = true →
  let writable :=
    (disk w !! model_dir = None ∨ disk w !! model_dir = Some Directory)
    ∧ ∀ f, f ∈ files → disk w !! path_join model_dir f ≠ Some Directory in
  (writable ↔ ∃ w1, save_model model_dir w = (w1, inr tt))
  ∧ (∀ w1, save_model model_dir w = (w1, inr tt) →
           w1 = {| detector := detector w;
                   disk := saved_disk model_dir (detector w) (disk w) |})
  ∧ (∀ e, (save_model model_dir w).2 = inl e → ∃ msg, e = OSError msg).
Proof.
  intros _. cbv zeta. split; [|split].
  - split.
    + intros [Hdir Hfiles]. eexists. by apply save_model_returns_iff.
    + intros [w1 (Hdir & Hfiles & _)%save_model_returns_iff]. done.
  - by intros w1 (_ & _ & ->)%save_model_returns_iff.
  - apply save_model_frame.
Qed.

(** The trained toy detector saves to [model]; on a disk where [model] is the
    training file it could not. *)
Lemma save_model_returns_exactly_when_witness :
  simple_name "model" = true
  ∧ ∃ w1, save_model (Libs := toy_libraries) "model" toy_trained = (w1, inr tt).
Proof.
  split; [reflexivity|].
  apply (proj1 (save_model_returns_exactly_when (Libs := toy_libraries)
                  toy_trained "model" eq_refl)).
  split; [left; vm_compute; reflexivity|].
  intros f [->|[->| ->]]%files_cases; vm_compute; discriminate.
Defined.

(** X11: for a model directory named by one path component, [save_model],
    whatever its outcome, leaves the detector as it was and touches no path
    other than the model directory and its three artifact files. *)
Theorem save_model_touches_only_its_files `{Libs : Libraries}
    (w : World) (model_dir q : string) :
  simple_name model_dir = true →
  q ≠ model_dir →
  (∀ f, f ∈ files → q ≠ path_join model_dir f) →
  disk (save_model model_dir w).1 !! q = disk w !! q
  ∧ detector (save_model model_dir w).1 = detector w.
Proof.
  intros _ Hq Hfiles.
  destruct (save_model_frame model_dir w) as (Hdet & Hdisk & _).
  split; [by apply Hdisk|done].
Qed.

(** The training file survives a save of the trained toy detector. *)
Lemma save_model_touches_only_its_files_witness :
  simple_name "model" = true
  ∧ "data.csv" ≠ "model"
  ∧ (∀ f, f ∈ files → "data.csv" ≠ path_join "model" f)
  ∧ disk (save_model (Libs := toy_libraries) "model" toy_trained).1
      !! "data.csv" = Some (Csv toy_csv).
Proof.
  assert (∀ f, f ∈ files → "data.csv" ≠ path_join "model" f) as Hfiles
    by (by intros f [->|[->| ->]]%files_cases).
  assert ("data.csv" ≠ "model") as Hq by done.
  split; [reflexivity|]. split; [exact Hq|]. split; [exact Hfiles|].
  rewrite (proj1 (save_model_touches_only_its_files (Libs := toy_libraries)
                    toy_trained "model" "data.csv" eq_refl Hq Hfiles)).
  vm_compute. reflexivity.
Defined.

Section SaveTwice.
Context `{Libs : Libraries}.

Lemma saved_disk_idemp model_dir d fs :
  saved_disk model_dir d (saved_disk model_dir d fs) = saved_disk model_dir d fs.
Proof.
  apply map_eq. intros q. unfold saved_disk.
  rewrite !lookup_insert. repeat case_decide; done.
Qed.

Lemma saved_disk_lookup_dir model_dir d fs :
  saved_disk model_dir d fs !! model_dir = Some Directory.
Proof.
  unfold saved_disk.
  do 3 (rewrite lookup_insert_ne
          by (apply artifact_path_not_dir; unfold files; set_solver)).
  apply lookup_insert_eq.
Qed.

Lemma saved_disk_lookup_artifact model_dir d fs f :
  f ∈ files → ∃ o, saved_disk model_dir d fs !! path_join model_dir f
                   = Some (Joblib o).
Proof.
  destruct (artifact_paths_distinct model_dir) as (Hgv & Hcv & Hgc).
  unfold saved_disk. intros [->|[->| ->]]%files_cases.
  - eexists. by rewrite !lookup_insert_ne, lookup_insert_eq by done.
  - eexists. by rewrite lookup_insert_ne, lookup_insert_eq by done.
  - eexists. by rewrite lookup_insert_eq.
Qed.

End SaveTwice.

(** X12: saving again is harmless: after a [save_model] that returned, a
    second [save_model] to the same directory returns and leaves the very
    same state. *)
Theorem save_model_twice `{Libs : Libraries}
    (w w1 : World) (model_dir : string) :
  save_model model_dir w = (w1, inr tt) →
  save_model model_dir w1 = (w1, inr tt).
Proof.
  intros (_ & _ & ->)%save_model_returns_iff.
  apply save_model_returns_iff. cbn.
  split; [right; apply saved_disk_lookup_dir|].
  split.
  - intros f Hf.
    destruct (saved_disk_lookup_artifact model_dir (detector w) (disk w) f Hf)
      as [o ->]. done.
  - by rewrite saved_disk_idemp.
Qed.

Lemma save_model_twice_witness :
  let w1 := (save_model (Libs := toy_libraries) "model" toy_trained).1 in
  save_model "model" toy_trained = (w1, inr tt)
  ∧ save_model "model" w1 = (w1, inr tt).
Proof.
  cbv zeta.
  assert (save_model (Libs := toy_libraries) "model" toy_trained
          = ((save_model (Libs := toy_libraries) "model" toy_trained).1,
             inr tt)) as Hsave by (vm_compute; reflexivity).
  split; [exact Hsave|].
  exact (save_model_twice (Libs := toy_libraries) toy_trained _ "model" Hsave).
Defined.

(** ** Start-up of the two services *)

Section StartupFacts.
Context `{Libs : Libraries}.

Lemma startup_run w :
  FlaskApp.startup w
  = if model_exists_on (disk w) "model"
    then ((load_model "model" w).1, inr tt)
    else (w, inr tt).
Proof.
  unfold FlaskApp.startup, FlaskApp.MODEL_DIR, model_exists. py_unfold.
  cbn -[model_exists_on].
  destruct (model_exists_on (disk w) "model"); [|done].
  by destruct (load_model "model" w) as [w' [e|[]]].
Qed.

(** The handlers read [is_trained], [vectorizer] and [classifier] only. *)
Lemma flask_predict_reads request w1 w2 :
  is_trained (detector w1) = is_trained (detector w2) →
  vectorizer (detector w1) = vectorizer (detector w2) →
  classifier (detector w1) = classifier (detector w2) →
  (FlaskApp.predict request w1).2 = (FlaskApp.predict request w2).2.
Proof.
  intros Ht Hv Hc.
  assert (∀ text, (predict text w1).2 = (predict text w2).2) as Hsame
    by (intros text; by apply predict_reads).
  unfold FlaskApp.predict. py_unfold. cbn.
  rewrite Ht. destruct (is_trained (detector w2)); cbn; [|done].
  destruct (FlaskApp.get_json request) as [e|data]; [done|].
  destruct (truthy data); cbn; [|done].
  destruct (py_contains "text" data) as [e|[]]; cbn; try done.
  destruct (py_getitem "text" data) as [e|raw]; [done|].
  destruct (py_strip raw) as [e|text]; [done|].
  destruct (String.eqb text ""); [done|].
  specialize (Hsame text).
  destruct (predict text w1) as [w1' [e1|[[l1 a1] h1]]],
    (predict text w2) as [w2' [e2|[[l2 a2] h2]]]; cbn in *; by simplify_eq.
Qed.

Lemma fastapi_post_predict_reads payload w1 w2 :
  is_trained (detector w1) = is_trained (detector w2) →
  vectorizer (detector w1) = vectorizer (detector w2) →
  classifier (detector w1) = classifier (detector w2) →
  (FastApiApp.post_predict payload w1).2
  = (FastApiApp.post_predict payload w2).2.
Proof.
  intros Ht Hv Hc. unfold FastApiApp.post_predict.
  destruct (FastApiApp.parse_PredictRequest payload) as [e|request]; [done|].
  pose proof (predict_reads (FastApiApp.text request) w1 w2 Ht Hv Hc) as Hsame.
  unfold FastApiApp.respond, FastApiApp.predict. py_unfold. cbn.
  rewrite Ht. destruct (is_trained (detector w2)); cbn; [|done].
  destruct (predict _ w1) as [w1' [e1|[[l1 a1] h1]]],
    (predict _ w2) as [w2' [e2|[[l2 a2] h2]]]; cbn in *; by simplify_eq.
Qed.

End StartupFacts.

(** X13: the start-up block of either service never raises and never
    writes the disk.  It leaves the state untouched when [model_exists]
    answers false; afterwards the detector is marked trained exactly when
    it was before or the three files of [model] are pickles, the config a
    dict that holds the keys [max_features], [ngram_range] and [alpha].  A
    config dict that lacks one of them leaves the flag as it was: the
    [KeyError] of [load_model] is swallowed. *)
Theorem startup_loads_when_it_can `{Libs : Libraries} (w : World) :
  ∃ w',
    FlaskApp.startup w = (w', inr tt)
    ∧ FastApiApp.load_model w = (w', inr tt)
    ∧ disk w' = disk w
    ∧ (model_exists_on (disk w) "model" = false → w' = w)
    ∧ (is_trained (detector w') = true
       ↔ is_trained (detector w) = true
         ∨ ∃ v c n r a,
             disk w !! path_join "model" "vectorizer.joblib" = Some (Joblib v)
             ∧ disk w !! path_join "model" "classifier.joblib"
               = Some (Joblib c)
             ∧ disk w !! path_join "model" "config.joblib"
               = Some (Joblib (PyConfig {| cfg_max_features := Some n;
                                           cfg_ngram_range := Some r;
                                           cfg_alpha := Some a |}))).
Proof.
  change (FastApiApp.load_model w) with (FlaskApp.startup w).
  rewrite startup_run.
  destruct (model_exists_on (disk w) "model") eqn:Hexists.
  - exists (load_model "model" w).1.
    destruct (load_model_frame "model" w) as (Hdisk & _ & _ & Hraise).
    split; [done|]. split; [done|]. split; [done|]. split; [done|].
    destruct (load_model "model" w) as [w' [e|[]]] eqn:Hload; cbn in *.
    + destruct (Hraise e eq_refl) as (-> & _). split; [by left|].
      intros [Hwas|(v & c & n & r & a & Hv & Hc & Hg)]; [done|].
      assert (load_model "model" w
              = ({| detector := loaded v c n r a (detector w);
                    disk := disk w |},
                 inr tt)) as Hok
        by (apply load_model_returns_iff; by exists v, c, n, r, a).
      congruence.
    + apply load_model_returns_iff in Hload
        as (v & c & n & r & a & Hv & Hc & Hg & ->).
      split; [|done]. intros _. right. by exists v, c, n, r, a.
  - exists w. split; [done|]. split; [done|]. split; [done|]. split; [done|].
    split; [by left|].
    intros [Hwas|(v & c & n & r & a & Hv & Hc & Hg)]; [done|].
    assert (model_exists_on (disk w) "model" = true) as Hpresent.
    { apply model_exists_on_true_iff.
      intros f [->|[->| ->]]%files_cases; eauto. }
    congruence.
Qed.

(** X14: deployment round trip.  After a detector marked trained has saved
    its model to [model], a fresh process that runs the start-up block on
    that disk answers every [POST /predict] request, on either surface, as
    the saving detector would, and reports [model_loaded] as true. *)
Theorem startup_serves_saved_model `{Libs : Libraries} (w w1 : World) :
  is_trained (detector w) = true →
  save_model "model" w = (w1, inr tt) →
  ∃ w2,
    FlaskApp.startup (construct (disk w1)) = (w2, inr tt)
    ∧ FastApiApp.load_model (construct (disk w1)) = (w2, inr tt)
    ∧ (∀ request,
         (FlaskApp.predict request w2).2 = (FlaskApp.predict request w).2)
    ∧ (∀ payload,
         (FastApiApp.post_predict payload w2).2
         = (FastApiApp.post_predict payload w).2)
    ∧ (FlaskApp.health w2).2
      = inr {| status_code := 200;
               body := JObj [("status", JStr "healthy");
                             ("model_loaded", JBool true)] |}
    ∧ (FastApiApp.health w2).2
      = inr [("status", JStr "healthy"); ("model_loaded", JBool true)].
Proof.
  intros Htrained Hsave.
  change (FastApiApp.load_model (construct (disk w1)))
    with (FlaskApp.startup (construct (disk w1))).
  rewrite startup_run. cbn [construct disk].
  rewrite (model_exists_after_save "model" w w1 Hsave).
  pose proof (load_model_after_save "model" w w1 init Hsave) as Hload.
  unfold construct. rewrite Hload. cbn [fst].
  eexists. split; [reflexivity|]. split; [reflexivity|].
  split; [|split; [|split]].
  - intros request. by apply flask_predict_reads.
  - intros payload. by apply fastapi_post_predict_reads.
  - reflexivity.
  - reflexivity.
Qed.

Lemma startup_serves_saved_model_witness :
  let w1 := (save_model (Libs := toy_libraries) "model" toy_trained).1 in
  is_trained (detector toy_trained) = true
  ∧ save_model "model" toy_trained = (w1, inr tt)
  ∧ ∃ w2, FlaskApp.startup (construct (disk w1)) = (w2, inr tt)
          ∧ (FastApiApp.post_predict (JObj [("text", JStr "hello AI")]) w2).2
            = (FastApiApp.post_predict (JObj [("text", JStr "hello AI")])
                 toy_trained).2.
Proof.
  cbv zeta.
  assert (save_model (Libs := toy_libraries) "model" toy_trained
          = ((save_model (Libs := toy_libraries) "model" toy_trained).1,
             inr tt)) as Hsave by (vm_compute; reflexivity).
  split; [reflexivity|]. split; [exact Hsave|].
  destruct (startup_serves_saved_model (Libs := toy_libraries) toy_trained _
              eq_refl Hsave) as (w2 & Hstart & _ & _ & Hfast & _).
  exists w2. split; [exact Hstart|]. apply Hfast.
Defined.

(** ** [train]: failure and success *)

(** X15: a training file that cannot be used changes nothing.  When the
    file is missing, is not a CSV file, lacks the [text] or the [generated]
    column, or has a [generated] column that does not convert to integers,
    [train] raises and leaves the detector and the disk exactly as they
    were; a missing file is an [OSError], a missing column the [KeyError]
    of its name. *)
Theorem train_unusable_file_changes_nothing `{Libs : Libraries}
    (w : World) (filepath : string) (test_size : float) :
  match disk w !! filepath with
  | None => ∃ msg, train filepath test_size w = (w, inl (OSError msg))
  | Some (Csv df) =>
      match columns df !! "text", columns df !! "generated" with
      | None, _ => train filepath test_size w = (w, inl (KeyError "'text'"))
      | Some _, None =>
          train filepath test_size w = (w, inl (KeyError "'generated'"))
      | Some _, Some generated =>
          ∀ e, astype_int generated = inl e →
               train filepath test_size w = (w, inl e)
      end
  | Some _ => ∃ e, train filepath test_size w = (w, inl e)
  end.
Proof.
  unfold train, read_csv, df_getitem. py_unfold. cbn.
  destruct (disk w !! filepath) as [[|?|df|]|]; cbn; try by eexists.
  destruct (columns df !! "text") as [texts|]; cbn; [|done].
  destruct (columns df !! "generated") as [generated|]; cbn; [|done].
  intros e ->. done.
Qed.

Section TrainOutcome.
Context `{Libs : Libraries}.

Lemma train_outcome filepath test_size w :
  match (train filepath test_size w).2 with
  | inl _ =>
      is_trained (detector (train filepath test_size w).1)
      = is_trained (detector w)
  | inr accuracy =>
      ∃ df texts generated y vocab X X_train X_test y_train y_test model y_pred,
        disk w !! filepath = Some (Csv df)
        ∧ columns df !! "text" = Some texts
        ∧ columns df !! "generated" = Some generated
        ∧ astype_int generated = inr y
        ∧ fit_transform (tfidf_params_of (detector w)) (astype_str texts)
          = inr (vocab, X)
        ∧ train_test_split X y test_size 42 y
          = inr (X_train, X_test, y_train, y_test)
        ∧ fit (alpha (detector w)) true X_train y_train = inr model
        ∧ nb_predict model X_test = inr y_pred
        ∧ accuracy_score y_test y_pred = inr accuracy
        ∧ (train filepath test_size w).1
          = {| detector := trained_with vocab model (detector w);
               disk := disk w |}
  end.
Proof.
  destruct w as [[mf ng a mi ma v c t] fs].
  unfold train, read_csv, df_getitem, trained_with, tfidf_params_of.
  py_unfold. cbn.
  destruct (fs !! filepath) as [[|?|df|]|] eqn:Hfile; cbn; try done.
  destruct (columns df !! "text") as [texts|] eqn:Htexts; cbn; [|done].
  destruct (columns df !! "generated") as [generated|] eqn:Hgen; cbn; [|done].
  destruct (astype_int generated) as [|y] eqn:Hy; cbn; [done|].
  destruct (fit_transform _ _) as [|[vocab X]] eqn:Hfit; cbn; [done|].
  destruct (train_test_split _ _ _ _ _)
    as [|[[[X_train X_test] y_train] y_test]] eqn:Hsplit; cbn; [done|].
  destruct (fit _ _ _ _) as [|model] eqn:Hmodel; cbn; [done|].
  destruct (nb_predict _ _) as [|y_pred] eqn:Hpred; cbn; [done|].
  destruct (accuracy_score _ _) as [|accuracy] eqn:Hacc; cbn; [done|].
  destruct (classification_report _ _ _); cbn; [done|].
  destruct (confusion_matrix _ _) as [|cm]; cbn; [done|].
  destruct (list_getitem cm 0) as [|row0]; cbn; [done|].
  destruct (list_getitem row0 0); cbn; [done|].
  destruct (list_getitem row0 1); cbn; [done|].
  destruct (list_getitem cm 1) as [|row1]; cbn; [done|].
  destruct (list_getitem row1 0); cbn; [done|].
  destruct (list_getitem row1 1); cbn; [done|].
  exists df, texts, generated, y, vocab, X, X_train, X_test, y_train, y_test,
    model, y_pred.
  done.
Qed.

End TrainOutcome.

(** X16: [train] sets [is_trained] only by returning: a [train] that raises
    leaves the flag as it was.  A [train] that returns leaves a vectorizer
    fitted on all texts with the detector's five hyperparameters and a
    classifier fitted, with the detector's [alpha], on the training part
    alone of the split made with seed 42 and stratified by the labels; the
    accuracy it returns is that classifier's score on the held-out part.
    The disk is not written. *)
Theorem train_returns_the_evaluated_model `{Libs : Libraries}
    (w : World) (filepath : string) (test_size : float) :
  match (train filepath test_size w).2 with
  | inl _ =>
      is_trained (detector (train filepath test_size w).1)
      = is_trained (detector w)
  | inr accuracy =>
      ∃ df texts generated y vocab X X_train X_test y_train y_test model y_pred,
        disk w !! filepath = Some (Csv df)
        ∧ columns df !! "text" = Some texts
        ∧ columns df !! "generated" = Some generated
        ∧ astype_int generated = inr y
        ∧ fit_transform (tfidf_params_of (detector w)) (astype_str texts)
          = inr (vocab, X)
        ∧ train_test_split X y test_size 42 y
          = inr (X_train, X_test, y_train, y_test)
        ∧ fit (alpha (detector w)) true X_train y_train = inr model
        ∧ nb_predict model X_test = inr y_pred
        ∧ accuracy_score y_test y_pred = inr accuracy
        ∧ (train filepath test_size w).1
          = {| detector := trained_with vocab model (detector w);
               disk := disk w |}
        ∧ ∀ texts', call_transform
                      (vectorizer (detector (train filepath test_size w).1))
                      texts'
                    = transform (tfidf_params_of (detector w)) vocab texts'
  end.
Proof.
  pose proof (train_outcome filepath test_size w) as Hout.
  destruct (train filepath test_size w) as [w' [e|accuracy]]; cbn in *;
    [done|].
  destruct Hout as (df & texts & generated & y & vocab & X & X_train & X_test
                    & y_train & y_test & model & y_pred & H1 & H2 & H3 & H4
                    & H5 & H6 & H7 & H8 & H9 & ->).
  exists df, texts, generated, y, vocab, X, X_train, X_test, y_train, y_test,
    model, y_pred.
  done.
Qed.

(** ** [predict]: the class-to-index dict *)

Section ClassIndex.
Context `{Libs : Libraries}.

Lemma enumerate_from (m : gmap Z nat) (k : nat) (classes : list Z) (c : Z) :
  let m' := foldl (λ m p, <[p.2 := p.1]> m) m
              (zip (seq k (length classes)) classes) in
  (c ∉ classes → m' !! c = m !! c)
  ∧ (c ∈ classes →
     ∃ j, m' !! c = Some (k + j) ∧ classes !! j = Some c
          ∧ ∀ j', j < j' → classes !! j' ≠ Some c).
Proof.
  cbv zeta. revert m k. induction classes as [|x classes IH]; intros m k.
  - split; [done|]. by intros ?%elem_of_nil.
  - cbn. destruct (IH (<[x:=k]> m) (S k)) as [IHout IHin]. split.
    + intros Hnot. apply not_elem_of_cons in Hnot as [Hne Hnot].
      rewrite IHout by done. by rewrite lookup_insert_ne.
    + intros Hin. destruct (decide (c ∈ classes)) as [Hlater|Hnot].
      * destruct (IHin Hlater) as (j & Hlook & Hj & Hlast).
        exists (S j). split; [by rewrite Hlook, Nat.add_succ_r|].
        split; [done|]. intros [|j'] Hlt; [lia|]. cbn. apply Hlast. lia.
      * apply elem_of_cons in Hin as [->|Hin]; [|done].
        exists 0. rewrite IHout by done.
        split; [by rewrite lookup_insert_eq, Nat.add_0_r|].
        split; [done|]. intros [|j'] Hlt; [lia|]. cbn.
        intros Hj'. apply Hnot. by eapply list_elem_of_lookup_2.
Qed.

(** The dict maps a class that occurs to its last position and holds no
    other key. *)
Lemma enumerate_dict_lookup (classes : list Z) (c : Z) :
  (c ∉ classes → enumerate_dict classes !! c = None)
  ∧ (c ∈ classes →
     ∃ j, enumerate_dict classes !! c = Some j ∧ classes !! j = Some c
          ∧ ∀ j', j < j' → classes !! j' ≠ Some c).
Proof.
  destruct (enumerate_from ∅ 0 classes c) as [Hout Hin]. split.
  - intros Hnot. unfold enumerate_dict. by rewrite Hout.
  - intros Hc. destruct (Hin Hc) as (j & Hlook & Hj). by exists j.
Qed.

End ClassIndex.

(** X17: how [predict] picks the two probabilities.  On a trained detector
    whose vectorizer and classifier answer, with a row that has one entry
    per class: if class 0 is not among the classifier's classes [predict]
    raises [KeyError(0)]; if class 0 is and class 1 is not it raises
    [KeyError(1)]; otherwise it returns the row's entries at the last
    positions of the classes 1 and 0, which are two different positions,
    as [ai_probability] and [human_probability]. *)
Theorem predict_reads_the_class_columns `{Libs : Libraries}
    (w : World) (text : string) (X : Matrix) (rows : list (list float))
    (probs : list float) (classes : list Z) :
  is_trained (detector w) = true →
  call_transform (vectorizer (detector w)) [text] = inr X →
  call_predict_proba (classifier (detector w)) X = inr rows →
  rows !! 0 = Some probs →
  attr_classes_ (classifier (detector w)) = inr classes →
  length probs = length classes →
  (0%Z ∉ classes → predict text w = (w, inl (KeyError "0")))
  ∧ (0%Z ∈ classes → 1%Z ∉ classes →
     predict text w = (w, inl (KeyError "1")))
  ∧ (0%Z ∈ classes → 1%Z ∈ classes →
     ∃ i0 i1 label ai_prob human_prob,
       predict text w = (w, inr (label, ai_prob, human_prob))
       ∧ classes !! i0 = Some 0%Z ∧ probs !! i0 = Some human_prob
       ∧ classes !! i1 = Some 1%Z ∧ probs !! i1 = Some ai_prob
       ∧ i0 ≠ i1
       ∧ (∀ j, i0 < j → classes !! j ≠ Some 0%Z)
       ∧ (∀ j, i1 < j → classes !! j ≠ Some 1%Z)).
Proof.
  intros Htrained HX Hrows Hrow Hclasses Hlen.
  destruct (enumerate_dict_lookup classes 0%Z) as [Hout0 Hin0].
  destruct (enumerate_dict_lookup classes 1%Z) as [Hout1 Hin1].
  assert (∀ i c, classes !! i = Some c → ∃ p, probs !! i = Some p) as Hentry.
  { intros i c Hi. apply lookup_lt_is_Some. rewrite Hlen.
    by eapply lookup_lt_Some. }
  unfold predict, list_getitem, dict_getitem. py_unfold.
  cbn -[lookup enumerate_dict].
  rewrite Htrained, HX, Hrows. cbn -[lookup enumerate_dict].
  rewrite Hrow, Hclasses.
  split; [|split].
  - intros H0. by rewrite (Hout0 H0).
  - intros H0 H1. destruct (Hin0 H0) as (i0 & -> & Hi0 & _).
    destruct (Hentry _ _ Hi0) as [p0 ->]. by rewrite (Hout1 H1).
  - intros H0 H1. destruct (Hin0 H0) as (i0 & -> & Hi0 & Hlast0).
    destruct (Hentry _ _ Hi0) as [p0 Hp0]. rewrite Hp0.
    destruct (Hin1 H1) as (i1 & -> & Hi1 & Hlast1).
    destruct (Hentry _ _ Hi1) as [p1 Hp1]. rewrite Hp1.
    exists i0, i1. eexists _, p1, p0. split; [reflexivity|].
    repeat (split; [done|]). split; [|done].
    intros ->. congruence.
Qed.

Lemma predict_reads_the_class_columns_witness :
  ∃ label,
    predict (Libs := toy_libraries) "hello AI" toy_trained
    = (toy_trained, inr (label, 0.875%float, 0.125%float)).
Proof.
  destruct (predict_reads_the_class_columns (Libs := toy_libraries)
              toy_trained "hello AI" ["hello AI"] [[0.125; 0.875]%float]
              [0.125; 0.875]%float [0; 1]%Z
              eq_refl eq_refl eq_refl eq_refl eq_refl eq_refl)
    as (_ & _ & Hboth).
  destruct Hboth as (i0 & i1 & label & ai_prob & human_prob & Hrun & H0 & Hp0
                     & H1 & Hp1 & _).
  - unfold elem_of. apply list_elem_of_In. cbn. tauto.
  - unfold elem_of. apply list_elem_of_In. cbn. tauto.
  - destruct i0 as [|[|?]]; try done. destruct i1 as [|[|?]]; try done.
    cbn in Hp0, Hp1. injection Hp0 as <-. injection Hp1 as <-.
    by exists label.
Defined.

(** ** The interactive menu *)

Section MenuFacts.
Context `{Libs : Libraries}.

(** One prompt of the menu, as a function of the state. *)
Lemma menu_step fuel stdin w :
  menu (S fuel) stdin w
  = match stdin with
    | [] => (w, inl (OtherError "EOF when reading a line"))
    | line :: rest =>
        if String.eqb (strip line) "1" then
          if os_path_exists (disk w) data_path then
            match train data_path 0.2 w with
            | (w1, inl e) => (w1, inl e)
            | (w1, inr _) =>
                match save_model model_dir w1 with
                | (w2, inl e) => (w2, inl e)
                | (w2, inr _) => menu fuel rest w2
                end
            end
          else menu fuel rest w
        else if String.eqb (strip line) "2" then
          if negb (model_exists_on (disk w) model_dir) then menu fuel rest w
          else
            match load_model model_dir w with
            | (w1, inl e) => (w1, inl e)
            | (w1, inr _) =>
                match predict_mode rest w1 with
                | (w2, inl e) => (w2, inl e)
                | (w2, inr rest') => menu fuel rest' w2
                end
            end
        else if String.eqb (strip line) "3" then (w, inr (Some rest))
        else menu fuel rest w
    end.
Proof.
  cbn [menu]. unfold model_exists, input. py_unfold.
  destruct stdin as [|line rest]; [done|].
  cbn -[menu predict_mode train save_model load_model strip os_path_exists
        model_exists_on].
  destruct (String.eqb (strip line) "1"); cbn beta iota.
  { destruct (os_path_exists (disk w) data_path); cbn beta iota; [|done].
    destruct (train data_path 0.2 w) as [w1 [e|acc]]; [done|].
    by destruct (save_model model_dir w1) as [w2 [e|[]]]. }
  destruct (String.eqb (strip line) "2"); cbn beta iota;
    [|by destruct (String.eqb (strip line) "3")].
  destruct (model_exists_on (disk w) model_dir); cbn [negb]; cbn beta iota;
    [|done].
  destruct (load_model model_dir w) as [w1 [e|[]]]; [done|].
  by destruct (predict_mode rest w1) as [w2 [e|rest']].
Qed.

(** One text prompt of predict mode. *)
Lemma predict_mode_step line rest w :
  predict_mode (line :: rest) w
  = if bool_decide (lower (strip line) ∈ ["back"; "exit"]) then (w, inr rest)
    else if String.eqb (strip line) "" then predict_mode rest w
    else
      match predict (strip line) w with
      | (w1, inl e) => (w1, inl e)
      | (w1, inr _) =>
          match rest with
          | [] => (w1, inl (OtherError "EOF when reading a line"))
          | line' :: rest' =>
              if negb (String.eqb (lower (strip line')) "y")
              then (w1, inr rest')
              else predict_mode rest' w1
          end
      end.
Proof.
  cbn [predict_mode].
  destruct (bool_decide (lower (strip line) ∈ ["back"; "exit"])); [done|].
  destruct (String.eqb (strip line) ""); [done|].
  rewrite bind_run.
  destruct (predict (strip line) w) as [w1 [e|?]]; [done|].
  destruct rest as [|line' rest']; [done|].
  by destruct (negb (String.eqb (lower (strip line')) "y")).
Qed.

(** Predict mode changes nothing and reads at least one line. *)
Lemma predict_mode_frame stdin w :
  (predict_mode stdin w).1 = w
  ∧ ∀ rest, (predict_mode stdin w).2 = inr rest → length rest < length stdin.
Proof.
  remember (length stdin) as n eqn:Hn.
  assert (length stdin ≤ n) as Hle by lia. clear Hn.
  revert stdin Hle. induction n as [|n IH]; intros stdin Hle.
  { destruct stdin; [|cbn in Hle; lia]. split; [done|]. by intros ?. }
  destruct stdin as [|line rest]; [split; [done|]; by intros ?|].
  cbn in Hle. rewrite predict_mode_step.
  destruct (bool_decide (lower (strip line) ∈ ["back"; "exit"])).
  { split; [done|]. intros ? [= <-]. cbn. lia. }
  destruct (String.eqb (strip line) "").
  { destruct (IH rest) as [Hw Hlen]; [lia|]. split; [done|].
    intros r Hr. specialize (Hlen r Hr). cbn. lia. }
  pose proof (predict_frame (strip line) w) as Hframe.
  destruct (predict (strip line) w) as [w1 [e|?]]; cbn in Hframe; subst w1.
  { split; [done|]. by intros ?. }
  destruct rest as [|line' rest']; [split; [done|]; by intros ?|].
  cbn in Hle.
  destruct (negb (String.eqb (lower (strip line')) "y")).
  { split; [done|]. intros ? [= <-]. cbn. lia. }
  destruct (IH rest') as [Hw Hlen]; [lia|]. split; [done|].
  intros r Hr. specialize (Hlen r Hr). cbn. lia.
Qed.

End MenuFacts.

Section MenuRuns.
Context `{Libs : Libraries}.

(** With more prompts allowed than there are lines, the menu does not run
    out of fuel, and its outcome does not depend on the fuel. *)
Lemma menu_fuel fuel fuel' stdin w :
  length stdin < fuel → length stdin < fuel' →
  menu fuel stdin w = menu fuel' stdin w
  ∧ (menu fuel stdin w).2 ≠ inr None.
Proof.
  revert fuel' stdin w. induction fuel as [|fuel IH];
    intros fuel' stdin w Hlt Hlt'; [lia|].
  destruct fuel' as [|fuel']; [lia|]. rewrite !menu_step.
  destruct stdin as [|line rest]; [done|]. cbn in Hlt, Hlt'.
  destruct (String.eqb (strip line) "1").
  { destruct (os_path_exists (disk w) data_path); [|apply IH; lia].
    destruct (train data_path 0.2 w) as [w1 [e|acc]]; [done|].
    destruct (save_model model_dir w1) as [w2 [e|[]]]; [done|].
    apply IH; lia. }
  destruct (String.eqb (strip line) "2").
  { destruct (negb (model_exists_on (disk w) model_dir)); [apply IH; lia|].
    destruct (load_model model_dir w) as [w1 [e|[]]]; [done|].
    destruct (predict_mode_frame rest w1) as [_ Hshorter].
    destruct (predict_mode rest w1) as [w2 [e|rest']]; [done|].
    specialize (Hshorter rest' eq_refl). apply IH; lia. }
  destruct (String.eqb (strip line) "3"); [done|]. apply IH; lia.
Qed.

(** A returning [train] has marked the detector trained. *)
Lemma train_returns_trained filepath test_size w w1 accuracy :
  train filepath test_size w = (w1, inr accuracy) →
  is_trained (detector w1) = true.
Proof.
  intros Hrun. pose proof (train_outcome filepath test_size w) as Hout.
  rewrite Hrun in Hout. cbn in Hout.
  destruct Hout as (? & ? & ? & ? & ? & ? & ? & ? & ? & ? & ? & ? & Hout).
  destruct Hout as (_ & _ & _ & _ & _ & _ & _ & _ & _ & ->). done.
Qed.

(** The menu keeps the invariant of C10 whenever it comes back. *)
Lemma menu_consistent fuel stdin w r :
  consistent w →
  (menu fuel stdin w).2 = inr r →
  consistent (menu fuel stdin w).1.
Proof.
  revert stdin w. induction fuel as [|fuel IH]; intros stdin w Hw; [done|].
  rewrite menu_step. destruct stdin as [|line rest]; [done|].
  destruct (String.eqb (strip line) "1").
  { destruct (os_path_exists (disk w) data_path); [|by apply IH].
    pose proof (train_consistent data_path 0.2 w Hw) as Htrain.
    destruct (train data_path 0.2 w) as [w1 [e|acc]] eqn:Hrun; [done|].
    cbn in Htrain. specialize (Htrain (λ _, ex_intro _ acc eq_refl)).
    pose proof (save_model_consistent model_dir w1 Htrain
                  (train_returns_trained _ _ _ _ _ Hrun)) as Hsave.
    destruct (save_model model_dir w1) as [w2 [e|[]]]; [done|].
    by apply IH. }
  destruct (String.eqb (strip line) "2").
  { destruct (negb (model_exists_on (disk w) model_dir)); [by apply IH|].
    pose proof (load_model_consistent model_dir w Hw) as Hload.
    destruct (load_model model_dir w) as [w1 [e|[]]]; [done|].
    destruct (predict_mode_frame rest w1) as [Hsame _].
    destruct (predict_mode rest w1) as [w2 [e|rest']]; [done|].
    cbn in Hsame, Hload. subst w2. by apply IH. }
  destruct (String.eqb (strip line) "3"); [done|by apply IH].
Qed.

End MenuRuns.

(** X18: the menu always ends on a finite input: with as many prompts
    allowed as [interactive] allows, or more, it never runs out of fuel and
    the outcome is the same: it returns at choice 3 or raises, at the
    latest the [EOFError] of the prompt that finds no line. *)
Theorem interactive_ends `{Libs : Libraries}
    (stdin : list string) (w : World) :
  (interactive stdin w).2 ≠ inr None
  ∧ ∀ fuel, length stdin < fuel → menu fuel stdin w = interactive stdin w.
Proof.
  unfold interactive. split.
  - apply (menu_fuel _ (S (length stdin))); lia.
  - intros fuel Hfuel. apply menu_fuel; lia.
Qed.

(** X19: when the disk holds neither the training file nor a complete
    model, nothing typed at the menu changes the detector or the disk:
    choice 1 finds no file to train on and choice 2 no model to load. *)
Theorem interactive_idle_without_files `{Libs : Libraries}
    (stdin : list string) (w : World) :
  disk w !! data_path = None →
  model_exists_on (disk w) model_dir = false →
  (interactive stdin w).1 = w.
Proof.
  intros Hdata Hmodel. unfold interactive.
  generalize (S (length stdin)) as fuel. intros fuel. revert stdin.
  induction fuel as [|fuel IH]; intros stdin; [done|].
  rewrite menu_step. destruct stdin as [|line rest]; [done|].
  unfold os_path_exists. rewrite Hdata, Hmodel.
  rewrite bool_decide_eq_false_2 by (by intros [? ?]). cbn [negb].
  destruct (String.eqb (strip line) "1"); [apply IH|].
  destruct (String.eqb (strip line) "2"); [apply IH|].
  destruct (String.eqb (strip line) "3"); [done|apply IH].
Qed.

Lemma interactive_idle_without_files_witness :
  disk (construct (Libs := toy_libraries) ∅) !! data_path = None
  ∧ model_exists_on (disk (construct (Libs := toy_libraries) ∅)) model_dir
    = false
  ∧ (interactive (Libs := toy_libraries) ["1"; "2"; "x"; "3"] (construct ∅)).1
    = construct ∅.
Proof.
  split; [reflexivity|]. split; [reflexivity|].
  exact (interactive_idle_without_files (Libs := toy_libraries)
           ["1"; "2"; "x"; "3"] (construct ∅) eq_refl eq_refl).
Defined.

(** X20: the menu follows the discipline under which the invariant of C10
    holds: it saves only after a [train] that returned and predicts only
    after a [load_model] that returned.  Started by the [__main__] block on
    a disk whose artifacts hold fitted models, when it returns it leaves a
    detector that, if marked trained, holds a fitted vectorizer and a
    fitted classifier, and a disk whose artifacts hold fitted models. *)
Theorem interactive_keeps_models_fitted `{Libs : Libraries}
    (stdin : list string) (fs : gmap string Node)
    (w' : World) (rest : option (list string)) :
  artifacts_fitted fs →
  main stdin fs = (w', inr rest) →
  trained_has_models (detector w') ∧ artifacts_fitted (disk w').
Proof.
  intros Hfs Hrun. unfold main, interactive in Hrun.
  pose proof (menu_consistent (S (length stdin)) stdin (construct fs) rest
                (construct_consistent fs Hfs)) as Hkeep.
  rewrite Hrun in Hkeep. by apply Hkeep.
Qed.

(** X21: the menu writes the disk only by training: when the training file
    is absent, the disk after [interactive] is the disk before, whatever
    was typed and however the menu ended. *)
Theorem interactive_writes_only_by_training `{Libs : Libraries}
    (stdin : list string) (w : World) :
  disk w !! data_path = None →
  disk (interactive stdin w).1 = disk w.
Proof.
  unfold interactive. generalize (S (length stdin)) as fuel. intros fuel.
  revert stdin w. induction fuel as [|fuel IH]; intros stdin w Hdata; [done|].
  rewrite menu_step. destruct stdin as [|line rest]; [done|].
  unfold os_path_exists. rewrite Hdata.
  rewrite bool_decide_eq_false_2 by (by intros [? ?]).
  destruct (String.eqb (strip line) "1"); [by apply IH|].
  destruct (String.eqb (strip line) "2").
  { destruct (negb (model_exists_on (disk w) model_dir)); [by apply IH|].
    destruct (load_model_frame model_dir w) as (Hdisk & _).
    destruct (load_model model_dir w) as [w1 [e|[]]]; [done|].
    destruct (predict_mode_frame rest w1) as [Hsame _].
    destruct (predict_mode rest w1) as [w2 [e|rest']]; cbn in *; subst w2;
      [done|].
    rewrite IH; [done|]. by rewrite Hdisk. }
  destruct (String.eqb (strip line) "3"); [done|by apply IH].
Qed.

(** X22: with a model loaded and a body that parses, the Flask surface
    answers 400 exactly when the body is falsy ([null], [false], 0, an empty
    string, list or object), or does not contain "text", or holds under
    [text] a string of whitespace only. *)
Theorem flask_400_exactly_when `{Libs : Libraries}
    (w : World) (request : FlaskApp.Request) (data : Json) :
  is_trained (detector w) = true →
  FlaskApp.get_json request = inr data →
  ∃ resp,
    FlaskApp.predict request w = (w, inr resp)
    ∧ (status_code resp = 400%Z
       ↔ truthy data = false
         ∨ py_contains "text" data = inr false
         ∨ ∃ s, py_getitem "text" data = inr (JStr s) ∧ all_space s = true).
Proof.
  intros Htrained Hjson. unfold FlaskApp.predict. py_unfold.
  cbn -[truthy py_contains py_getitem].
  rewrite Htrained, Hjson. cbn -[truthy py_contains py_getitem].
  destruct (truthy data); cbn -[py_contains py_getitem];
    [|eexists; split; [done|]; cbn; by split; [left|]].
  destruct (py_contains "text" data) as [e|[]] eqn:Hhas;
    cbn -[py_getitem].
  - eexists. split; [done|]. cbn. split; [done|].
    intros [?|[?|(s & Hs & _)]]; [done..|].
    destruct data; cbn in Hhas, Hs; done.
  - destruct (py_getitem "text" data) as [e|raw] eqn:Hraw; cbn.
    { eexists. split; [done|]. cbn. split; [done|].
      by intros [?|[?|(s & ? & _)]]. }
    destruct raw as [| | | |s| |]; cbn;
      try (eexists; split; [done|]; cbn; split; [done|];
           by intros [?|[?|(s' & ? & _)]]).
    destruct (String.eqb_spec (strip s) "") as [Hblank|Hfull].
    { eexists. split; [done|]. cbn. split; [|done]. intros _.
      right. right. exists s. split; [done|]. by apply strip_empty_iff. }
    pose proof (predict_frame (strip s) w) as Hframe.
    destruct (predict (strip s) w) as [w1 [e|[[label ai_prob] human_prob]]];
      cbn in *; subst w1;
      (eexists; split; [done|]; cbn; split; [done|]);
      intros [?|[?|(s' & [= <-] & Hsp)]]; try done;
      by apply strip_empty_iff in Hsp.
  - eexists. split; [done|]. cbn. split; [|done]. intros _. by right; left.
Qed.

Lemma flask_400_exactly_when_witness :
  ∃ resp,
    FlaskApp.predict (Libs := toy_libraries)
      {| FlaskApp.get_json := inr (JArr [JStr "a"]) |} toy_trained
    = (toy_trained, inr resp)
    ∧ status_code resp = 400%Z.
Proof.
  destruct (flask_400_exactly_when (Libs := toy_libraries) toy_trained
              {| FlaskApp.get_json := inr (JArr [JStr "a"]) |}
              (JArr [JStr "a"]) eq_refl eq_refl) as (resp & Hrun & Hiff).
  exists resp. split; [exact Hrun|]. apply Hiff. right. left. reflexivity.
Defined.

(** A disk that holds the vectorizer pickle alone. *)
Lemma load_model_is_not_atomic_witness :
  let fs : gmap string (Node (Libs := toy_libraries)) :=
    {[ path_join "model" "vectorizer.joblib" :=
         Joblib (PyConfig (config_dict 1 (1, 1)%Z 1)) ]} in
  ∃ e, load_model "model" (construct fs)
       = ({| detector := with_vectorizer
                           (PyConfig (config_dict 1 (1, 1)%Z 1)) init;
             disk := fs |}, inl e).
Proof.
  cbv zeta.
  refine (proj1 (load_model_is_not_atomic (Libs := toy_libraries)
                   (construct _) "model" _ _) _).
  - vm_compute. reflexivity.
  - intros c. vm_compute. discriminate.
Defined.

(** Train, load, predict once, leave: a session of the menu. *)
Lemma interactive_keeps_models_fitted_witness :
  let fs : gmap string (Node (Libs := toy_libraries)) :=
    {[ data_path := Csv toy_csv ]} in
  let stdin := ["1"; "2"; "hello AI"; "n"; "3"] in
  artifacts_fitted fs
  ∧ (main stdin fs).2 = inr (Some [])
  ∧ is_trained (detector (main stdin fs).1) = true
  ∧ trained_has_models (detector (main stdin fs).1).
Proof.
  cbv zeta.
  assert (artifacts_fitted (Libs := toy_libraries)
            {[ data_path := Csv toy_csv ]}) as Hfs.
  { intros d o.
    split; intros Hlook; apply lookup_singleton_Some in Hlook as [_ [=]]. }
  split; [exact Hfs|]. split; [vm_compute; reflexivity|].
  split; [vm_compute; reflexivity|].
  refine (proj1 (interactive_keeps_models_fitted (Libs := toy_libraries)
                   ["1"; "2"; "hello AI"; "n"; "3"] _ _ (Some []) Hfs _)).
  vm_compute. reflexivity.
Defined.

Lemma interactive_writes_only_by_training_witness :
  disk (construct (Libs := toy_libraries) ∅) !! data_path = None
  ∧ disk (interactive (Libs := toy_libraries) ["2"; "1"; "3"] (construct ∅)).1
    = ∅.
Proof.
  split; [reflexivity|].
  exact (interactive_writes_only_by_training (Libs := toy_libraries)
           ["2"; "1"; "3"] (construct ∅) eq_refl).
Defined.

(** ** The two probabilities of a prediction *)

Lemma SFadd_comm prec emax x y : SFadd prec emax x y = SFadd prec emax y x.
Proof.
  destruct x as [sx|sx| |sx mx ex], y as [sy|sy| |sy my ey]; cbn;
    try reflexivity.
  - destruct sx, sy; reflexivity.
  - destruct sx, sy; reflexivity.
  - rewrite (Z.min_comm ex ey), Z.add_comm. reflexivity.
Qed.

(** Addition of floats is commutative. *)
Lemma float_add_comm (x y : float) : PrimFloat.add x y = PrimFloat.add y x.
Proof.
  rewrite <- (FloatAxioms.SF2Prim_Prim2SF (PrimFloat.add x y)),
    <- (FloatAxioms.SF2Prim_Prim2SF (PrimFloat.add y x)).
  rewrite !FloatAxioms.add_spec. unfold SF64add.
  rewrite SFadd_comm. reflexivity.
Qed.

(** The index the dict of [predict] holds for a class is a position of that
    class. *)
Lemma enumerate_dict_position (classes : list Z) (c : Z) (i : nat) :
  enumerate_dict classes !! c = Some i → classes !! i = Some c.
Proof.
  intros Hlook.
  destruct (enumerate_dict_lookup classes c) as [Hout Hin].
  destruct (decide (c ∈ classes)) as [Hc|Hc].
  - destruct (Hin Hc) as (j & Hj & Hpos & _). congruence.
  - rewrite (Hout Hc) in Hlook. done.
Qed.

(** The scenario: the first [train] returns, the second raises at the report
    with the flag still set and the classifier fitted on three classes. *)
Lemma retrain_on_three_labels :
  let w1 := (train (Libs := three_class_libraries) "two.csv" 0.2
               (construct three_label_disk)).1 in
  let r := train "three.csv" 0.2 w1 in
  is_trained (detector w1) = true
  ∧ (∃ msg, r.2 = inl (ValueError msg))
  ∧ is_trained (detector r.1) = true
  ∧ attr_classes_ (classifier (detector r.1)) = inr [0; 1; 2]%Z
  ∧ predict "a human wrote this" r.1
    = (r.1, inr ("Human", 0.25%float, 0.25%float)).
Proof.
  cbv zeta. split; [vm_compute; reflexivity|].
  split; [eexists; vm_compute; reflexivity|].
  split; [vm_compute; reflexivity|].
  split; vm_compute; reflexivity.
Qed.

(** C3, as stated, fails: a detector that was trained and is then trained
    again on a file with a third label keeps its flag, since [train] raises
    at the report after it has fitted the classifier on three classes.  Its
    [predict] succeeds and returns two of three probabilities, which do not
    sum to 1, although every row of [predict_proba] does. *)
Lemma third_class_breaks_the_sum :
  ¬ (∀ (Libs : Libraries) (fs : gmap string Node) (ops : list Op)
       (text label : string) (ai_prob human_prob : float),
       (∀ m X rows, predict_proba m X = inr rows →
                    Forall (probability_row (classes_ m)) rows) →
       predict text (run ops (construct fs))
       = (run ops (construct fs), inr (label, ai_prob, human_prob)) →
       sums_to_one (PrimFloat.add ai_prob human_prob)
       ∧ in_unit_interval ai_prob ∧ in_unit_interval human_prob).
Proof.
  intros Hclaim.
  destruct (Hclaim three_class_libraries three_label_disk
              [OpTrain "two.csv" 0.2; OpTrain "three.csv" 0.2]
              "a human wrote this" "Human" 0.25%float 0.25%float) as [Hsum _].
  - intros m X rows [= <-]. apply Forall_fmap, Forall_forall. intros t _.
    destruct m; (split; [reflexivity|]);
      (split; [repeat constructor; vm_compute; reflexivity
              |vm_compute; reflexivity]).
  - vm_compute. reflexivity.
  - vm_compute in Hsum. discriminate.
Qed.

(** C3, amended: when [predict] succeeds on a detector whose classifier has
    exactly two classes and whose [predict_proba] rows are probabilities over
    them (one entry per class, each in [0, 1], summing to 1 within 1e-6), the
    two returned probabilities are the two entries of the row: they sum to 1
    within 1e-6 and each lies in [0, 1]. *)
Theorem two_class_probabilities_sum_to_one `{Libs : Libraries}
    (w w' : World) (text label : string) (ai_prob human_prob : float)
    (classes : list Z) :
  predict text w = (w', inr (label, ai_prob, human_prob)) →
  attr_classes_ (classifier (detector w)) = inr classes →
  length classes = 2 →
  (∀ X rows, call_predict_proba (classifier (detector w)) X = inr rows →
             Forall (probability_row classes) rows) →
  sums_to_one (PrimFloat.add ai_prob human_prob)
  ∧ in_unit_interval ai_prob ∧ in_unit_interval human_prob.
Proof.
  intros Hrun Hclasses Hlen Hrows.
  destruct (predict_forwards_row _ _ _ _ _ _ Hrun)
    as (X & rows & probs & classes' & i0 & i1 & _ & Hproba & Hrow & Hclasses'
        & Hi0 & Hp0 & Hi1 & Hp1).
  assert (classes' = classes) as -> by congruence.
  apply enumerate_dict_position in Hi0, Hi1.
  assert (i0 ≠ i1) as Hne by (intros ->; congruence).
  pose proof (lookup_lt_Some _ _ _ Hi0) as Hlt0.
  pose proof (lookup_lt_Some _ _ _ Hi1) as Hlt1.
  rewrite Hlen in Hlt0, Hlt1.
  specialize (Hrows X rows Hproba).
  rewrite Forall_forall in Hrows.
  destruct (Hrows probs (list_elem_of_lookup_2 _ _ _ Hrow))
    as (Hplen & Hunit & Hsum).
  rewrite Hlen in Hplen.
  destruct probs as [|p [|q [|? ?]]]; try done.
  apply Forall_cons in Hunit as [Hp Hunit].
  apply Forall_cons in Hunit as [Hq _].
  cbn in Hsum.
  destruct i0 as [|[|?]], i1 as [|[|?]]; try done; try lia;
    cbn in Hp0, Hp1; injection Hp0 as <-; injection Hp1 as <-.
  - rewrite float_add_comm. done.
  - done.
Qed.

(** The trained toy detector, whose classifier has the classes 0 and 1. *)
Lemma two_class_probabilities_sum_to_one_witness :
  predict (Libs := toy_libraries) "hello AI" toy_trained
  = (toy_trained, inr ("AI", 0.875%float, 0.125%float))
  ∧ sums_to_one (PrimFloat.add 0.875 0.125)
  ∧ in_unit_interval 0.875%float ∧ in_unit_interval 0.125%float.
Proof.
  assert (predict (Libs := toy_libraries) "hello AI" toy_trained
          = (toy_trained, inr ("AI", 0.875%float, 0.125%float))) as Hrun
    by (vm_compute; reflexivity).
  split; [exact Hrun|].
  apply (two_class_probabilities_sum_to_one (Libs := toy_libraries)
           toy_trained toy_trained "hello AI" "AI" 0.875%float 0.125%float
           [0; 1]%Z Hrun).
  - vm_compute. reflexivity.
  - reflexivity.
  - intros X rows Hrows.
    change (call_predict_proba (Libs := toy_libraries)
              (classifier (detector toy_trained)) X)
      with (@inr PyExc (list (list float)) (map toy_probs X)) in Hrows.
    injection Hrows as <-. apply Forall_fmap, Forall_forall. intros t _.
    unfold compose, toy_probs.
    destruct (String.eqb t "tie"); [|destruct (str_contains "AI" t)];
      (split; [reflexivity|]);
      (split; [repeat constructor; vm_compute; reflexivity
              |vm_compute; reflexivity]).
Defined.
